(** * taxables_backend: the query, validation and feed layer of [core]

    A shallow embedding of [core/views.py], [core/serializers.py],
    [core/models.py] and the data routes of [core/urls.py].  Tables are
    lists of rows, a request is a record of its query parameters or body
    fields, and every view is a function from the authenticated caller, the
    request and the database to a response (and, for the writing views, the
    next database).  The view [dashboard_summary], which answers a
    constant, and the authentication views are not part of the development.

    Conventions of the embedding:
    - text is [string] (a sequence of 8-bit characters); [lower] and [strip]
      are Python's [str.lower] and [str.strip] on ASCII text;
    - a [DecimalField] with two decimal places is the integer number of
      hundredths ([decimal]);
    - database look-ups [__iexact] and [__icontains] compare the lowercased
      texts, [__in] and [__exact] compare the texts as they are (the look-ups
      of the SQLite and PostgreSQL back ends that [settings.py] configures);
    - the field stage of a serializer ([CharField], [DecimalField],
      [DateField] of the framework) runs before the serializer's own
      [validate], and trims every text;
    - an error that neither a view nor the framework catches is the
      response [ServerError], the status 500: such are the look-up on an
      amount bound that is no decimal, and the slice of a query set at an
      offset beyond the 64-bit integers of the database. *)

From Stdlib Require Import List ZArith Lia Bool String Ascii.
From Stdlib Require Import Permutation Sorted OrderedTypeEx DecimalString.
Import ListNotations.

Open Scope string_scope.
Open Scope Z_scope.

(** ** Python built-ins used by the views *)

Module Py.

Definition code (c : ascii) : N := N_of_ascii c.

(** [str.isspace] on one ASCII character: TAB..CR, FS..US and the blank. *)
Definition is_space (c : ascii) : bool :=
  ((9 <=? code c) && (code c <=? 13) || (28 <=? code c) && (code c <=? 32))%N.

Definition is_upper (c : ascii) : bool := ((65 <=? code c) && (code c <=? 90))%N.

Definition is_digit (c : ascii) : bool := ((48 <=? code c) && (code c <=? 57))%N.

Definition lower_char (c : ascii) : ascii :=
  if is_upper c then ascii_of_N (code c + 32) else c.

(** [s.lower()] *)
Fixpoint lower (s : string) : string :=
  match s with
  | EmptyString => EmptyString
  | String c r => String (lower_char c) (lower r)
  end.

Fixpoint lstrip (s : string) : string :=
  match s with
  | EmptyString => EmptyString
  | String c r => if is_space c then lstrip r else s
  end.

Fixpoint rstrip (s : string) : string :=
  match s with
  | EmptyString => EmptyString
  | String c r =>
      match rstrip r with
      | EmptyString => if is_space c then EmptyString else String c EmptyString
      | r' => String c r'
      end
  end.

(** [s.strip()] *)
Definition strip (s : string) : string := rstrip (lstrip s).

(** Truthiness of a text: [bool(s)]. *)
Definition truthy (s : string) : bool :=
  match s with EmptyString => false | _ => true end.

(** [a or b] on texts. *)
Definition or_else (a b : string) : string := if truthy a then a else b.

(** [x or b] where [x] may be [None]. *)
Definition opt_or (x : option string) (b : string) : string :=
  match x with Some a => or_else a b | None => b end.

(** [needle in hay] for texts. *)
Fixpoint contains (needle hay : string) : bool :=
  String.prefix needle hay
  || match hay with
     | EmptyString => false
     | String _ r => contains needle r
     end.

(** [x in xs] for a list or tuple of texts. *)
Definition mem (x : string) (xs : list string) : bool :=
  existsb (String.eqb x) xs.

(** [str(n)] for an [int]. *)
Definition str (n : Z) : string := NilZero.string_of_int (Z.to_int n).

(** Default of [sys.int_max_str_digits]: longer decimal texts make [int]
    raise [ValueError]. *)
Definition int_max_str_digits : nat := 4300.

Definition digit_val (c : ascii) : Z := Z.of_N (code c) - 48.

(** The digits of an [int] literal: decimal digits, single underscores
    allowed between two digits.  Returns the value and the digit count. *)
Fixpoint digits (s : string) (after_digit : bool) (acc : Z) (n : nat)
  : option (Z * nat) :=
  match s with
  | EmptyString => if after_digit then Some (acc, n) else None
  | String c r =>
      if is_digit c then digits r true (10 * acc + digit_val c) (S n)
      else if Ascii.eqb c "_" then
             if after_digit then digits r false acc n else None
      else None
  end.

Definition unsigned (s : string) : option Z :=
  match digits s false 0 0%nat with
  | Some (v, n) => if (n <=? int_max_str_digits)%nat then Some v else None
  | None => None
  end.

(** The white space that [int] skips around a number: TAB..CR and the
    blank.  It is narrower than [str.isspace]: FS..US are not skipped. *)
Definition is_int_space (c : ascii) : bool :=
  ((9 <=? code c) && (code c <=? 13) || (code c =? 32))%N.

Fixpoint int_lstrip (s : string) : string :=
  match s with
  | EmptyString => EmptyString
  | String c r => if is_int_space c then int_lstrip r else s
  end.

Fixpoint int_rstrip (s : string) : string :=
  match s with
  | EmptyString => EmptyString
  | String c r =>
      match int_rstrip r with
      | EmptyString => if is_int_space c then EmptyString else String c EmptyString
      | r' => String c r'
      end
  end.

(** [int(s)] for a text [s]: [None] stands for the [ValueError]. *)
Definition int (s : string) : option Z :=
  match int_rstrip (int_lstrip s) with
  | String "-" r => option_map Z.opp (unsigned r)
  | String "+" r => unsigned r
  | t => unsigned t
  end.

(** [xs[a:b]] for [0 <= a]. *)
Definition slice {A : Type} (xs : list A) (a b : Z) : list A :=
  firstn (Z.to_nat (b - a)) (skipn (Z.to_nat a) xs).

(** Comparison of two [(str, str)] tuples. *)
Definition compare2 (a b : string * string) : comparison :=
  match String.compare (fst a) (fst b) with
  | Eq => String.compare (snd a) (snd b)
  | c => c
  end.

Section Sort.
Context {A : Type} (gtb : A -> A -> bool).

(** [insert_desc x l] puts [x] in front of the first element that is not
    greater than it. *)
Fixpoint insert_desc (x : A) (l : list A) : list A :=
  match l with
  | [] => [x]
  | y :: r => if gtb y x then y :: insert_desc x r else x :: l
  end.

(** [l.sort(key=..., reverse=True)]: the stable sort, largest key first;
    elements of equal key keep their order. *)
Definition sort_desc (l : list A) : list A := fold_right insert_desc [] l.
End Sort.

End Py.

(** ** Values stored in the tables *)

Definition user_id := Z.

(** A [DecimalField(decimal_places=2)] value, in hundredths. *)
Definition decimal := Z.

Record date := mkdate { year : Z; month : Z; day : Z }.

Definition date_compare (a b : date) : comparison :=
  match year a ?= year b with
  | Eq => match month a ?= month b with
          | Eq => day a ?= day b
          | c => c
          end
  | c => c
  end.

Definition date_leb (a b : date) : bool :=
  match date_compare a b with Gt => false | _ => true end.

Fixpoint zeros (n : nat) : string :=
  match n with O => "" | S k => String "0" (zeros k) end.

Definition zfill (w : nat) (s : string) : string :=
  zeros (w - String.length s) ++ s.

(** [date.isoformat()], the text the serializers give for a date. *)
Definition isoformat (d : date) : string :=
  zfill 4 (Py.str (year d)) ++ "-" ++ zfill 2 (Py.str (month d))
  ++ "-" ++ zfill 2 (Py.str (day d)).

(** The text the serializers give for a decimal: fixed notation with two
    places. *)
Definition decimal_repr (a : decimal) : string :=
  (if a <? 0 then "-" else "")
  ++ Py.str (Z.abs a / 100) ++ "." ++ zfill 2 (Py.str (Z.abs a mod 100)).

(** ** core/models.py *)

Module Models.

(** [user] is a nullable foreign key in the three models. *)
Record Income := mkIncome {
  inc_id : Z;
  inc_user : option user_id;
  inc_amount : decimal;
  inc_date : date;
  inc_source : string;
  inc_remark : string;
  inc_created_at : Z }.

Record Budget := mkBudget {
  bud_id : Z;
  bud_user : option user_id;
  bud_category : string;
  bud_subcategory : string;
  bud_amount : decimal;
  bud_date : date;
  bud_created_at : Z }.

Record Expense := mkExpense {
  exp_id : Z;
  exp_user : option user_id;
  exp_date : date;
  exp_amount : decimal;
  exp_remark : string;
  exp_type : string;
  exp_category : string;
  exp_created_at : Z }.

Record DB := mkDB {
  incomes : list Income;
  expenses : list Expense;
  budgets : list Budget }.

Definition empty_db : DB := mkDB [] [] [].

End Models.
Import Models.

(** ** The query-set operations the views use *)

Module Orm.

Definition owned_by (u : user_id) (owner : option user_id) : bool :=
  match owner with Some v => v =? u | None => false end.

(** [field__iexact=v] *)
Definition iexact (field v : string) : bool :=
  String.eqb (Py.lower field) (Py.lower v).

(** [field__icontains=v] *)
Definition icontains (field v : string) : bool :=
  Py.contains (Py.lower v) (Py.lower field).

(** [field__in=vs] *)
Definition is_in (field : string) (vs : list string) : bool := Py.mem field vs.

(** An optional bound [if x: qs = qs.filter(...)]. *)
Definition when {A : Type} (x : option A) (p : A -> bool) : bool :=
  match x with Some a => p a | None => true end.

(** An amount bound of the query string ([min_amount], [max_amount]).  The
    parameter is absent or empty, and no filter is added; or it is a text
    that the amount column does not take as a decimal (no number, not
    finite, more digits than the column has), and the look-up raises an
    error that nothing catches; or it is a text that the column takes, and
    the rows are compared with the decimal [d]. *)
Inductive bound : Type :=
| NoBound
| BadBound
| Bound (d : decimal).

Definition is_bad (b : bound) : bool :=
  match b with BadBound => true | _ => false end.

(** [if x: qs = qs.filter(amount__gte=x)] on the rows the look-up takes. *)
Definition when_bound (b : bound) (p : decimal -> bool) : bool :=
  match b with Bound d => p d | _ => true end.

(** The largest [OFFSET] the database takes, a signed 64-bit integer; a
    query with a larger one is refused when it is run. *)
Definition max_offset : Z := 2 ^ 63 - 1.

(** The same for a text parameter, which filters only when not empty. *)
Definition when_text (s : string) (p : string -> bool) : bool :=
  if Py.truthy s then p s else true.

(** Greater in the order ["-date", "-id"] puts first. *)
Definition newer (a b : date * Z) : bool :=
  match date_compare (fst a) (fst b) with
  | Gt => true
  | Eq => snd b <? snd a
  | Lt => false
  end.

(** [qs.order_by("-date", "-id")], also the [Meta.ordering] of the three
    models. *)
Definition order_by_date_id {A : Type} (key : A -> date * Z) (l : list A) : list A :=
  Py.sort_desc (fun a b => newer (key a) (key b)) l.

Definition income_key (r : Income) := (inc_date r, inc_id r).
Definition expense_key (r : Expense) := (exp_date r, exp_id r).
Definition budget_key (r : Budget) := (bud_date r, bud_id r).

(** [date__year=y, date__month=m] *)
Definition in_month (today d : date) : bool :=
  (year d =? year today) && (month d =? month today).

(** [aggregate(s=Sum("amount"))["s"] or 0] *)
Definition sum_amounts (l : list decimal) : decimal := fold_right Z.add 0 l.

(** The primary key the database gives to a new row. *)
Definition fresh_id (ids : list Z) : Z := 1 + fold_right Z.max 0 ids.

End Orm.

(** ** Requests and responses *)

(** A JSON body field handled by a number or date field of a serializer:
    the key is missing, holds [null], holds a value the field rejects, or
    holds a value the field converts to [a].  For a date the conversion is
    that of the first ten characters of the submitted text. *)
Inductive field (A : Type) : Type :=
| Missing
| Null
| Bad
| Val (a : A).
Arguments Missing {A}.
Arguments Null {A}.
Arguments Bad {A}.
Arguments Val {A} a.

(** A JSON body field that holds a text when it is present. *)
Inductive text_field : Type :=
| TMissing
| TNull
| TText (s : string).

(** [body.get(k) or ""] *)
Definition text_or (x : text_field) (dflt : string) : string :=
  match x with TText s => Py.or_else s dflt | _ => dflt end.

(** One entry of a [ValidationError] detail: a message of the framework's
    field, or a message the repository's code gives. *)
Inductive detail : Type :=
| Rejected
| Message (s : string).

(** Field-keyed error messages, the body of a 400 response. *)
Definition errors := list (string * list detail).

Definition names (e : errors) (key : string) : bool :=
  existsb (fun kv => String.eqb (fst kv) key) e.

(** The query parameters of the list views and of the feed.  [q_from] and
    [q_to] hold what [_parse_date] returns for the parameter; the other
    parameters are as they come. *)
Record Query := mkQuery {
  q_from : option date;
  q_to : option date;
  q_min_amount : Orm.bound;
  q_max_amount : Orm.bound;
  q_remark : option string;
  q_category : option string;
  q_type : option string;
  q_limit : option string;
  q_offset : option string }.

Definition no_query : Query :=
  mkQuery None None Orm.NoBound Orm.NoBound None None None None None.

(** Bodies carry a client-supplied [user] key as well; no serializer reads it. *)
Record IncomeBody := mkIncomeBody {
  ib_user : field user_id;
  ib_amount : field decimal;
  ib_date : field date;
  ib_source : text_field;
  ib_remark : text_field }.

Record ExpenseBody := mkExpenseBody {
  eb_user : field user_id;
  eb_date : field date;
  eb_amount : field decimal;
  eb_remark : text_field;
  eb_type : text_field;
  eb_category : text_field }.

Record BudgetBody := mkBudgetBody {
  bb_user : field user_id;
  bb_category : text_field;
  bb_subcategory : text_field;
  bb_amount : field decimal;
  bb_date : field date }.

Inductive ListRequest (B : Type) : Type :=
| ListGET (q : Query)
| ListPOST (body : B).
Arguments ListGET {B} q.
Arguments ListPOST {B} body.

Inductive Method : Type := GET | PUT | PATCH | DELETE.

(** A row of the unified feed. *)
Record FeedRow := mkFeedRow {
  f_id : Z;
  f_type : string;
  f_remark : string;
  f_date : string;
  f_amount : string;
  f_category : string }.

(** A Python [float] of the insights response, kept as the expression that
    computes it: [float(d)] of a decimal, or a difference of floats. *)
Inductive pyfloat : Type :=
| float_of (d : decimal)
| float_sub (a b : pyfloat).

Record InsightRow := mkInsightRow {
  i_category : string;
  i_subcategory : string;
  i_planned : pyfloat;
  i_actual : pyfloat;
  i_difference : pyfloat }.

Inductive Response : Type :=
| IncomePage (count : nat) (results : list Income)
| ExpensePage (count : nat) (results : list Expense)
| BudgetPage (count : nat) (results : list Budget)
| IncomeRow (status : Z) (row : Income)
| ExpenseRow (status : Z) (row : Expense)
| BudgetRow (status : Z) (row : Budget)
| Errors (status : Z) (errs : errors)
| NotFound
| Slugs (slugs : list string)
| FeedPage (count : nat) (results : list FeedRow)
| InsightRows (rows : list InsightRow)
| ServerError.

(** [ServerError] is the answer to a request whose view raised an error
    that neither the view nor the framework handles. *)
Definition status_of (r : Response) : Z :=
  match r with
  | IncomeRow s _ | ExpenseRow s _ | BudgetRow s _ | Errors s _ => s
  | NotFound => 404
  | ServerError => 500
  | _ => 200
  end.

(** [date.today()] and the clock behind [auto_now_add]. *)
Record Env := mkEnv { today : date; now : Z }.

(** ** core/serializers.py *)

Module Serializers.

(** A [DecimalField(max_digits, decimal_places=2)].  The result is the
    field's errors and the validated value, if the key was given. *)
Definition decimal_field (name : string) (max_digits : Z) (partial : bool)
           (x : field decimal) : errors * option decimal :=
  match x with
  | Missing => if partial then ([], None) else ([(name, [Rejected])], None)
  | Val a => if Z.abs a <? 10 ^ max_digits then ([], Some a)
             else ([(name, [Rejected])], None)
  | _ => ([(name, [Rejected])], None)
  end.

Definition date_field (name : string) (partial : bool) (x : field date)
  : errors * option date :=
  match x with
  | Missing => if partial then ([], None) else ([(name, [Rejected])], None)
  | Val d => ([], Some d)
  | _ => ([(name, [Rejected])], None)
  end.

(** The text holds the null character. *)
Fixpoint has_null (s : string) : bool :=
  match s with
  | EmptyString => false
  | String c r => (Py.code c =? 0)%N || has_null r
  end.

(** The validators of a [CharField(max_length)], each with a message of its
    own: the length, then the null character. *)
Definition char_validators (max_length : nat) (v : string) : list detail :=
  ((if (String.length v <=? max_length)%nat then [] else [Rejected])
   ++ (if has_null v then [Rejected] else []))%list.

(** A [CharField(max_length)]: the text is trimmed; a blank text is
    refused or passes as it is; any other text goes through the
    validators. *)
Definition char_field (name : string) (max_length : nat)
           (required allow_blank partial : bool) (x : text_field)
  : errors * option string :=
  match x with
  | TMissing => if required && negb partial then ([(name, [Rejected])], None)
                else ([], None)
  | TNull => ([(name, [Rejected])], None)
  | TText s =>
      let v := Py.strip s in
      if negb (Py.truthy v) then
        if allow_blank then ([], Some v) else ([(name, [Rejected])], None)
      else
        match char_validators max_length v with
        | [] => ([], Some v)
        | ds => ([(name, ds)], None)
        end
  end.

(** The validated data of the three serializers: a key is [None] when the
    request did not give it. *)
Record IncomeAttrs := mkIncomeAttrs {
  ia_amount : option decimal;
  ia_date : option date;
  ia_source : option string;
  ia_remark : option string }.

Record ExpenseAttrs := mkExpenseAttrs {
  ea_date : option date;
  ea_amount : option decimal;
  ea_remark : option string;
  ea_type : option string;
  ea_category : option string }.

Record BudgetAttrs := mkBudgetAttrs {
  ba_category : option string;
  ba_subcategory : option string;
  ba_amount : option decimal;
  ba_date : option date }.

Definition finish {A : Type} (errs : errors) (attrs : A) : errors + A :=
  match errs with [] => inr attrs | _ => inl errs end.

Module IncomeSerializer.
(** Field validation, in the order of [Meta.fields]; [user], [id] and
    [created_at] are read-only and not read from the data. *)
Definition is_valid (partial : bool) (d : IncomeBody) : errors + IncomeAttrs :=
  let '(e1, amount) := decimal_field "amount" 12 partial (ib_amount d) in
  let '(e2, dt) := date_field "date" partial (ib_date d) in
  let '(e3, source) := char_field "source" 80 false true partial (ib_source d) in
  let '(e4, remark) := char_field "remark" 255 false true partial (ib_remark d) in
  finish (e1 ++ e2 ++ e3 ++ e4)%list (mkIncomeAttrs amount dt source remark).
End IncomeSerializer.

Module BudgetSerializer.
Definition is_valid (partial : bool) (d : BudgetBody) : errors + BudgetAttrs :=
  let '(e1, category) := char_field "category" 100 true false partial (bb_category d) in
  let '(e2, sub) := char_field "subcategory" 100 true false partial (bb_subcategory d) in
  let '(e3, amount) := decimal_field "amount" 10 partial (bb_amount d) in
  let '(e4, dt) := date_field "date" partial (bb_date d) in
  finish (e1 ++ e2 ++ e3 ++ e4)%list (mkBudgetAttrs category sub amount dt).
End BudgetSerializer.

Module ExpenseSerializer.
Definition category_required : list string :=
  ["expense"; "saving"; "savings"; "emis"; "emi"; "loans&advance"; "loan"; "loans"].

(** [ExpenseSerializer.validate]; [inl] is the raised [ValidationError]. *)
Definition validate (attrs : ExpenseAttrs) : errors + ExpenseAttrs :=
  let t := Py.or_else (Py.strip (Py.opt_or (ea_type attrs) "")) "Expense" in
  let c := Py.strip (Py.opt_or (ea_category attrs) "") in
  let t_l := Py.lower t in
  if String.eqb t_l "other" then
    inr (mkExpenseAttrs (ea_date attrs) (ea_amount attrs) (ea_remark attrs)
                        (Some "Other") (Some (Py.or_else c "Other")))
  else if Py.mem t_l category_required && negb (Py.truthy c) then
    inl [("category", [Message "Category is required."])]
  else
    inr (mkExpenseAttrs (ea_date attrs) (ea_amount attrs) (ea_remark attrs)
                        (Some t) (Some c)).

Definition to_internal_value (partial : bool) (d : ExpenseBody)
  : errors + ExpenseAttrs :=
  let '(e1, dt) := date_field "date" partial (eb_date d) in
  let '(e2, amount) := decimal_field "amount" 10 partial (eb_amount d) in
  let '(e3, remark) := char_field "remark" 255 false true partial (eb_remark d) in
  let '(e4, type) := char_field "type" 100 false true partial (eb_type d) in
  let '(e5, category) := char_field "category" 100 false true partial (eb_category d) in
  finish (e1 ++ e2 ++ e3 ++ e4 ++ e5)%list (mkExpenseAttrs dt amount remark type category).

(** Field validation first; [validate] runs only when no field failed. *)
Definition is_valid (partial : bool) (d : ExpenseBody) : errors + ExpenseAttrs :=
  match to_internal_value partial d with
  | inl e => inl e
  | inr attrs => validate attrs
  end.
End ExpenseSerializer.

Definition dflt {A : Type} (x : option A) (d : A) : A :=
  match x with Some a => a | None => d end.

(** [ser.save(user=...)] on a new row: keys not given take the model's
    default.  [amount] and [date] are always given by a valid serializer;
    the fall-back values are never used. *)
Definition create_income (id : Z) (u : user_id) (now : Z) (a : IncomeAttrs) : Income :=
  mkIncome id (Some u) (dflt (ia_amount a) 0) (dflt (ia_date a) (mkdate 1 1 1))
           (dflt (ia_source a) "") (dflt (ia_remark a) "") now.

Definition create_expense (id : Z) (u : user_id) (now : Z) (a : ExpenseAttrs) : Expense :=
  mkExpense id (Some u) (dflt (ea_date a) (mkdate 1 1 1)) (dflt (ea_amount a) 0)
            (dflt (ea_remark a) "") (dflt (ea_type a) "Expense")
            (dflt (ea_category a) "") now.

Definition create_budget (id : Z) (u : user_id) (now : Z) (a : BudgetAttrs) : Budget :=
  mkBudget id (Some u) (dflt (ba_category a) "") (dflt (ba_subcategory a) "")
           (dflt (ba_amount a) 0) (dflt (ba_date a) (mkdate 1 1 1)) now.

(** [ser.save()] on an existing row: the given keys are set, the rest,
    [id], [user] and [created_at] among them, stay. *)
Definition update_income (r : Income) (a : IncomeAttrs) : Income :=
  mkIncome (inc_id r) (inc_user r) (dflt (ia_amount a) (inc_amount r))
           (dflt (ia_date a) (inc_date r)) (dflt (ia_source a) (inc_source r))
           (dflt (ia_remark a) (inc_remark r)) (inc_created_at r).

Definition update_expense (r : Expense) (a : ExpenseAttrs) : Expense :=
  mkExpense (exp_id r) (exp_user r) (dflt (ea_date a) (exp_date r))
            (dflt (ea_amount a) (exp_amount r)) (dflt (ea_remark a) (exp_remark r))
            (dflt (ea_type a) (exp_type r)) (dflt (ea_category a) (exp_category r))
            (exp_created_at r).

End Serializers.

(** ** core/views.py *)

Module Views.
Import Orm Serializers.

(** [limit] / [offset] of the query string; defaults 50 and 0. *)
Definition _parse_pagination (q : Query) : Z * Z :=
  let limit := match Py.int (dflt (q_limit q) "50") with
               | Some n => n
               | None => 50
               end in
  let offset := match Py.int (dflt (q_offset q) "0") with
                | Some n => n
                | None => 0
                end in
  (Z.max 1 (Z.min limit 200), Z.max 0 offset).

Definition SLUG_TO_TYPES : list (string * list string) :=
  [ ("expense", ["Expense"; "Expenses"; ""]);
    ("savings", ["Savings"; "Saving"]);
    ("emis", ["EMIs"; "EMI"]);
    ("loans&advance", ["Loans&Advance"; "Loans & Advance"; "Loan"; "Loans"]);
    ("other", ["Other"]) ].

Definition ALL_SLUGS : list string :=
  ["income"; "expense"; "savings"; "emis"; "loans&advance"; "other"].

(** [d.get(k)] on a dictionary with text keys. *)
Fixpoint dict_get {V : Type} (d : list (string * V)) (k : string) : option V :=
  match d with
  | [] => None
  | (k', v) :: r => if String.eqb k k' then Some v else dict_get r k
  end.

(** [k in d] *)
Definition dict_has {V : Type} (d : list (string * V)) (k : string) : bool :=
  match dict_get d k with Some _ => true | None => false end.

Definition _labels_for_slug (slug : string) : list string :=
  dflt (dict_get SLUG_TO_TYPES slug) [].

Definition own_incomes (u : user_id) (db : DB) : list Income :=
  filter (fun r => owned_by u (inc_user r)) (incomes db).
Definition own_expenses (u : user_id) (db : DB) : list Expense :=
  filter (fun r => owned_by u (exp_user r)) (expenses db).
Definition own_budgets (u : user_id) (db : DB) : list Budget :=
  filter (fun r => owned_by u (bud_user r)) (budgets db).

(** The slugs present for the user, ["all"] first; every known slug when
    none is present. *)
Definition _present_type_slugs (u : user_id) (db : DB) : list string :=
  let income := match own_incomes u db with [] => [] | _ => ["income"] end in
  let existing_types := map (fun r => Py.strip (exp_type r)) (own_expenses u db) in
  let present slug :=
    existsb (fun t => Py.mem t (_labels_for_slug slug)) existing_types in
  let slugs :=
    (income ++ filter present ["expense"; "savings"; "emis"; "loans&advance"; "other"])%list in
  "all" :: match slugs with [] => ALL_SLUGS | _ => slugs end.

Definition page_of {A : Type} (q : Query) (rows : list A) : list A :=
  let '(limit, offset) := _parse_pagination q in
  Py.slice rows offset (offset + limit).

(** The look-ups [amount__gte] and [amount__lte] take the bounds given: no
    [filter] call raises. *)
Definition amounts_read (q : Query) : bool :=
  negb (is_bad (q_min_amount q)) && negb (is_bad (q_max_amount q)).

(** The database takes the [OFFSET] of the slice [qs[offset : offset + limit]]. *)
Definition offset_fits (q : Query) : bool :=
  snd (_parse_pagination q) <=? max_offset.

(** The answer of a view that slices a query set, [qs[offset : offset +
    limit]]: the page, or the error of the database, which the view does
    not catch. *)
Definition db_page (q : Query) (page : Response) : Response :=
  if offset_fits q then page else ServerError.

(** The same for a view that filters by the amount bounds first. *)
Definition bounded_page (q : Query) (page : Response) : Response :=
  if amounts_read q then db_page q page else ServerError.

Definition new_id_income (db : DB) : Z := fresh_id (map inc_id (incomes db)).
Definition new_id_expense (db : DB) : Z := fresh_id (map exp_id (expenses db)).
Definition new_id_budget (db : DB) : Z := fresh_id (map bud_id (budgets db)).

(** *** Income *)

Definition income_filter (u : user_id) (q : Query) (r : Income) : bool :=
  let remark := Py.strip (Py.opt_or (q_remark q) "") in
  owned_by u (inc_user r)
  && when (q_from q) (fun d => date_leb d (inc_date r))
  && when (q_to q) (fun d => date_leb (inc_date r) d)
  && when_bound (q_min_amount q) (fun a => a <=? inc_amount r)
  && when_bound (q_max_amount q) (fun a => inc_amount r <=? a)
  && when_text remark (fun s => icontains (inc_remark r) s || icontains (inc_source r) s).

(** The [payload] dictionary of the POST branch: a missing [amount] is
    [None], a missing [date] the empty text, a missing [remark] the empty
    text; the client's [user] key is not copied. *)
Definition income_payload (body : IncomeBody) : IncomeBody :=
  mkIncomeBody Missing
    (match ib_amount body with Missing => Null | x => x end)
    (match ib_date body with Missing | Null => Bad | x => x end)
    (TText (Py.strip (text_or (ib_source body) "")))
    (match ib_remark body with TMissing => TText "" | x => x end).

Definition income_list (env : Env) (u : user_id) (req : ListRequest IncomeBody)
           (db : DB) : DB * Response :=
  match req with
  | ListGET q =>
      let qs := order_by_date_id income_key (filter (income_filter u q) (incomes db)) in
      (db, bounded_page q (IncomePage (List.length qs) (page_of q qs)))
  | ListPOST body =>
      match IncomeSerializer.is_valid false (income_payload body) with
      | inr attrs =>
          let obj := create_income (new_id_income db) u (now env) attrs in
          (mkDB (incomes db ++ [obj])%list (expenses db) (budgets db), IncomeRow 201 obj)
      | inl e => (db, Errors 400 e)
      end
  end.

(** *** Expense *)

Definition expense_base (u : user_id) (q : Query) (r : Expense) : bool :=
  let remark := Py.strip (Py.opt_or (q_remark q) "") in
  let category_q := Py.strip (Py.opt_or (q_category q) "") in
  owned_by u (exp_user r)
  && when (q_from q) (fun d => date_leb d (exp_date r))
  && when (q_to q) (fun d => date_leb (exp_date r) d)
  && when_bound (q_min_amount q) (fun a => a <=? exp_amount r)
  && when_bound (q_max_amount q) (fun a => exp_amount r <=? a)
  && when_text remark (fun s => icontains (exp_remark r) s)
  && when_text category_q (fun s => icontains (exp_category r) s).

(** The slug restriction of the expense list. *)
Definition expense_slug_filter (q : Query) (r : Expense) : bool :=
  let t_slug := Py.lower (Py.strip (Py.opt_or (q_type q) "")) in
  if dict_has SLUG_TO_TYPES t_slug
  then is_in (exp_type r) (_labels_for_slug t_slug)
  else true.

Definition expense_filter (u : user_id) (q : Query) (r : Expense) : bool :=
  expense_base u q r && expense_slug_filter q r.

Definition expense_payload (body : ExpenseBody) : ExpenseBody :=
  mkExpenseBody Missing
    (match eb_date body with Missing | Null => Bad | x => x end)
    (match eb_amount body with Missing => Null | x => x end)
    (match eb_remark body with TMissing => TText "" | x => x end)
    (TText (Py.strip (text_or (eb_type body) "Expense")))
    (TText (Py.strip (text_or (eb_category body) ""))).

Definition expense_list (env : Env) (u : user_id) (req : ListRequest ExpenseBody)
           (db : DB) : DB * Response :=
  match req with
  | ListGET q =>
      let qs := order_by_date_id expense_key (filter (expense_filter u q) (expenses db)) in
      (db, bounded_page q (ExpensePage (List.length qs) (page_of q qs)))
  | ListPOST body =>
      match ExpenseSerializer.is_valid false (expense_payload body) with
      | inr attrs =>
          let obj := create_expense (new_id_expense db) u (now env) attrs in
          (mkDB (incomes db) (expenses db ++ [obj])%list (budgets db), ExpenseRow 201 obj)
      | inl e => (db, Errors 400 e)
      end
  end.

(** *** Budget *)

Definition budget_filter (u : user_id) (q : Query) (r : Budget) : bool :=
  owned_by u (bud_user r)
  && when (q_from q) (fun d => date_leb d (bud_date r))
  && when (q_to q) (fun d => date_leb (bud_date r) d).

Definition budget_list (env : Env) (u : user_id) (req : ListRequest BudgetBody)
           (db : DB) : DB * Response :=
  match req with
  | ListGET q =>
      let qs := order_by_date_id budget_key (filter (budget_filter u q) (budgets db)) in
      (db, db_page q (BudgetPage (List.length qs) (page_of q qs)))
  | ListPOST body =>
      match BudgetSerializer.is_valid false body with
      | inr attrs =>
          let obj := create_budget (new_id_budget db) u (now env) attrs in
          (mkDB (incomes db) (expenses db) (budgets db ++ [obj])%list, BudgetRow 201 obj)
      | inl e => (db, Errors 400 e)
      end
  end.

(** *** Filters *)

Definition filter_types (u : user_id) (db : DB) : Response :=
  Slugs (_present_type_slugs u db).

(** *** Transactions (the unified feed) *)

Definition feed_from (env : Env) (q : Query) : date :=
  dflt (q_from q) (mkdate (year (today env)) (month (today env)) 1).
Definition feed_to (env : Env) (q : Query) : date := dflt (q_to q) (today env).
Definition feed_type (q : Query) : string := Py.lower (Py.opt_or (q_type q) "all").

Definition feed_income_filter (env : Env) (u : user_id) (q : Query) (r : Income) : bool :=
  let remark := Py.strip (Py.opt_or (q_remark q) "") in
  let category_q := Py.strip (Py.opt_or (q_category q) "") in
  owned_by u (inc_user r)
  && date_leb (feed_from env q) (inc_date r)
  && date_leb (inc_date r) (feed_to env q)
  && when_bound (q_min_amount q) (fun a => a <=? inc_amount r)
  && when_bound (q_max_amount q) (fun a => inc_amount r <=? a)
  && when_text remark (fun s => icontains (inc_remark r) s || icontains (inc_source r) s)
  && when_text category_q (fun s => icontains (inc_source r) s || icontains (inc_remark r) s).

Definition feed_income_row (r : Income) : FeedRow :=
  mkFeedRow (inc_id r) "Income" (Py.or_else (inc_remark r) (inc_source r))
            (isoformat (inc_date r)) (decimal_repr (inc_amount r)) (inc_source r).

Definition feed_expense_base (env : Env) (u : user_id) (q : Query) (r : Expense) : bool :=
  let remark := Py.strip (Py.opt_or (q_remark q) "") in
  let category_q := Py.strip (Py.opt_or (q_category q) "") in
  owned_by u (exp_user r)
  && date_leb (feed_from env q) (exp_date r)
  && date_leb (exp_date r) (feed_to env q)
  && when_bound (q_min_amount q) (fun a => a <=? exp_amount r)
  && when_bound (q_max_amount q) (fun a => exp_amount r <=? a)
  && when_text remark (fun s => icontains (exp_remark r) s)
  && when_text category_q (fun s => icontains (exp_category r) s).

(** The [if t_type == ...] chain.  [type] is a column that is never
    [NULL], so [type__isnull=True] selects no row. *)
Definition feed_type_filter (t_type : string) (r : Expense) : bool :=
  if String.eqb t_type "expense" then
    iexact (exp_type r) "Expense" || String.eqb (exp_type r) ""
  else if String.eqb t_type "savings" then iexact (exp_type r) "Savings"
  else if String.eqb t_type "emis" then iexact (exp_type r) "EMIs"
  else if String.eqb t_type "loans&advance" then iexact (exp_type r) "Loans&Advance"
  else if String.eqb t_type "other" then iexact (exp_type r) "Other"
  else if String.eqb t_type "all" then true
  else false.

Definition feed_expense_row (r : Expense) : FeedRow :=
  mkFeedRow (exp_id r) (Py.or_else (exp_type r) "Expense") (exp_remark r)
            (isoformat (exp_date r)) (decimal_repr (exp_amount r)) (exp_category r).

(** The sort key [(x["date"], str(x["id"]))]. *)
Definition feed_key (x : FeedRow) : string * string := (f_date x, Py.str (f_id x)).

Definition feed_gtb (a b : FeedRow) : bool :=
  match Py.compare2 (feed_key a) (feed_key b) with Gt => true | _ => false end.

(** The rows of the income query, in [Meta.ordering]; none unless the
    type is ["income"] or ["all"]. *)
Definition feed_income_rows (env : Env) (u : user_id) (q : Query) (db : DB)
  : list FeedRow :=
  if Py.mem (feed_type q) ["income"; "all"] then
    map feed_income_row
        (order_by_date_id income_key (filter (feed_income_filter env u q) (incomes db)))
  else [].

Definition feed_expense_filter (env : Env) (u : user_id) (q : Query) (r : Expense) : bool :=
  feed_expense_base env u q r && feed_type_filter (feed_type q) r.

Definition feed_expense_rows (env : Env) (u : user_id) (q : Query) (db : DB)
  : list FeedRow :=
  map feed_expense_row
      (order_by_date_id expense_key (filter (feed_expense_filter env u q) (expenses db))).

(** [rows] before the sort: the income rows, then the expense rows. *)
Definition feed_rows (env : Env) (u : user_id) (q : Query) (db : DB) : list FeedRow :=
  (feed_income_rows env u q db ++ feed_expense_rows env u q db)%list.

Definition feed_sorted (env : Env) (u : user_id) (q : Query) (db : DB) : list FeedRow :=
  Py.sort_desc feed_gtb (feed_rows env u q db).

(** The expense query is built for every type, with its amount look-ups,
    so an amount bound that the column does not take makes the view raise
    whatever the type is.  The page is a slice of a Python list, which takes
    any offset. *)
Definition transaction_history (env : Env) (u : user_id) (q : Query) (db : DB)
  : Response :=
  let rows := feed_sorted env u q db in
  if amounts_read q then FeedPage (List.length rows) (page_of q rows)
  else ServerError.

(** *** Insights *)

Definition in_scope (env : Env) (scope : string) (d : date) : bool :=
  if String.eqb scope "month" then in_month (today env) d else true.

(** The value of [actual] for one budget, before [float(...)]. *)
Definition budget_actual (env : Env) (u : user_id) (scope : string) (db : DB)
           (b : Budget) : decimal :=
  let cat := Py.lower (Py.strip (bud_category b)) in
  let sub := Py.strip (bud_subcategory b) in
  if String.eqb cat "expense" then
    sum_amounts
      (map exp_amount
           (filter (fun r => in_scope env scope (exp_date r)
                             && iexact (exp_category r) sub)
                   (own_expenses u db)))
  else if Py.mem cat ["saving"; "savings"] then
    sum_amounts
      (map inc_amount
           (filter (fun r => in_scope env scope (inc_date r)
                             && (icontains (inc_remark r) sub
                                 || icontains (inc_source r) sub))
                   (own_incomes u db)))
  else 0.

Definition insight_row (env : Env) (u : user_id) (scope : string) (db : DB)
           (b : Budget) : InsightRow :=
  let actual := budget_actual env u scope db b in
  let planned := float_of (bud_amount b) in
  mkInsightRow (bud_category b) (bud_subcategory b) planned (float_of actual)
               (float_sub (float_of actual) planned).

Definition insights_rows (env : Env) (u : user_id) (scope_q : option string)
           (db : DB) : list InsightRow :=
  let scope := dflt scope_q "month" in
  map (insight_row env u scope db) (order_by_date_id budget_key (own_budgets u db)).

Definition insights_summary (env : Env) (u : user_id) (scope_q : option string)
           (db : DB) : Response :=
  InsightRows (insights_rows env u scope_q db).

(** *** Detail views *)

Definition is_patch (m : Method) : bool :=
  match m with PATCH => true | _ => false end.

(** [instance.save()]: the row of that primary key is rewritten. *)
Definition save_income (r' : Income) (db : DB) : DB :=
  mkDB (map (fun r => if inc_id r =? inc_id r' then r' else r) (incomes db))
       (expenses db) (budgets db).

Definition save_expense (r' : Expense) (db : DB) : DB :=
  mkDB (incomes db)
       (map (fun r => if exp_id r =? exp_id r' then r' else r) (expenses db))
       (budgets db).

(** Every method but [GET] goes on to the serializer; there is no branch
    of its own for [DELETE]. *)
Definition income_detail (u : user_id) (m : Method) (pk : Z) (body : IncomeBody)
           (db : DB) : DB * Response :=
  match find (fun r => inc_id r =? pk) (own_incomes u db) with
  | None => (db, NotFound)
  | Some obj =>
      match m with
      | GET => (db, IncomeRow 200 obj)
      | _ =>
          match IncomeSerializer.is_valid (is_patch m) body with
          | inr attrs =>
              let obj' := update_income obj attrs in
              (save_income obj' db, IncomeRow 200 obj')
          | inl e => (db, Errors 400 e)
          end
      end
  end.

Definition expense_detail (u : user_id) (m : Method) (pk : Z) (body : ExpenseBody)
           (db : DB) : DB * Response :=
  match find (fun r => exp_id r =? pk) (own_expenses u db) with
  | None => (db, NotFound)
  | Some obj =>
      match m with
      | GET => (db, ExpenseRow 200 obj)
      | _ =>
          match ExpenseSerializer.is_valid (is_patch m) body with
          | inr attrs =>
              let obj' := update_expense obj attrs in
              (save_expense obj' db, ExpenseRow 200 obj')
          | inl e => (db, Errors 400 e)
          end
      end
  end.

End Views.

(** ** core/urls.py *)

Module Urls.
Import Views.

(** The requests of an authenticated caller.  [BudgetDetail] stands for
    [budgets/<pk>/], which has no pattern: the resolver answers 404. *)
Inductive Request : Type :=
| IncomeList (req : ListRequest IncomeBody)
| IncomeDetail (m : Method) (pk : Z) (body : IncomeBody)
| ExpenseList (req : ListRequest ExpenseBody)
| ExpenseDetail (m : Method) (pk : Z) (body : ExpenseBody)
| BudgetList (req : ListRequest BudgetBody)
| BudgetDetail (m : Method) (pk : Z) (body : BudgetBody)
| FilterTypes
| Transactions (q : Query)
| InsightsSummary (scope : option string).

Definition dispatch (env : Env) (u : user_id) (r : Request) (db : DB) : DB * Response :=
  match r with
  | IncomeList req => income_list env u req db
  | IncomeDetail m pk body => income_detail u m pk body db
  | ExpenseList req => expense_list env u req db
  | ExpenseDetail m pk body => expense_detail u m pk body db
  | BudgetList req => budget_list env u req db
  | BudgetDetail _ _ _ => (db, NotFound)
  | FilterTypes => (db, filter_types u db)
  | Transactions q => (db, transaction_history env u q db)
  | InsightsSummary scope => (db, insights_summary env u scope db)
  end.

End Urls.

(** ** Vocabulary of the properties *)

(** [a] may stand before [b] in a list sorted largest first: [b] is not
    greater than [a]. *)
Definition not_below {A : Type} (gtb : A -> A -> bool) (a b : A) : Prop :=
  gtb b a = false.

(** [a] may stand before [b] in the feed: its date text is greater, or the
    dates are the same text and its id text is not smaller. *)
Definition feed_before (a b : FeedRow) : Prop :=
  match String.compare (f_date a) (f_date b) with
  | Gt => True
  | Eq => String.compare (Py.str (f_id a)) (Py.str (f_id b)) <> Lt
  | Lt => False
  end.

(** The same request with other [limit] and [offset] parameters. *)
Definition with_page (q : Query) (limit offset : option string) : Query :=
  mkQuery (q_from q) (q_to q) (q_min_amount q) (q_max_amount q) (q_remark q)
          (q_category q) (q_type q) limit offset.

(** The text of a body field, when the body holds one. *)
Definition text_of (x : text_field) : option string :=
  match x with TText s => Some s | _ => None end.

(** The type of an expense write after trimming and lowercasing; an absent
    or blank type counts as ["Expense"]. *)
Definition normal_type (x : option string) : string :=
  Py.lower (Py.or_else (Py.strip (Py.opt_or x "")) "Expense").

(** The category of an expense write after trimming; empty when the
    category is blank or missing. *)
Definition trimmed_category (x : option string) : string :=
  Py.strip (Py.opt_or x "").

(** The detail of the error [validate] raises. *)
Definition category_error : errors :=
  [("category", [Message "Category is required."])].

(** The text is empty or begins with a character that is not white space. *)
Definition starts_clean (s : string) : Prop :=
  match s with
  | EmptyString => True
  | String c _ => Py.is_space c = false
  end.

(** Primary keys are unique within each table. *)
Definition unique_ids (db : DB) : Prop :=
  NoDup (map inc_id (incomes db))
  /\ NoDup (map exp_id (expenses db))
  /\ NoDup (map bud_id (budgets db)).

(** The database with the rows of user [u] only. *)
Definition restrict (u : user_id) (db : DB) : DB :=
  mkDB (Views.own_incomes u db) (Views.own_expenses u db) (Views.own_budgets u db).

(** The [user] fields of the rows a response shows. *)
Definition response_owners (r : Response) : list (option user_id) :=
  match r with
  | IncomePage _ rows => map inc_user rows
  | ExpensePage _ rows => map exp_user rows
  | BudgetPage _ rows => map bud_user rows
  | IncomeRow _ row => [inc_user row]
  | ExpenseRow _ row => [exp_user row]
  | BudgetRow _ row => [bud_user row]
  | _ => []
  end.

(** The requests that insert a row. *)
Definition creates (r : Urls.Request) : bool :=
  match r with
  | Urls.IncomeList (ListPOST _)
  | Urls.ExpenseList (ListPOST _)
  | Urls.BudgetList (ListPOST _) => true
  | _ => false
  end.

(** The pairs (id, user) of a table. *)
Definition income_owners (db : DB) : list (Z * option user_id) :=
  map (fun r => (inc_id r, inc_user r)) (incomes db).
Definition expense_owners (db : DB) : list (Z * option user_id) :=
  map (fun r => (exp_id r, exp_user r)) (expenses db).
Definition budget_owners (db : DB) : list (Z * option user_id) :=
  map (fun r => (bud_id r, bud_user r)) (budgets db).

(** A table after [row] was saved over the row of its primary key. *)
Definition rewrite_row {R : Type} (id : R -> Z) (row : R) (l : list R) : list R :=
  map (fun r => if id r =? id row then row else r) l.

(** No primary key changed its user and no row appeared or went. *)
Definition owners_kept (db db' : DB) : Prop :=
  income_owners db' = income_owners db
  /\ expense_owners db' = expense_owners db
  /\ budget_owners db' = budget_owners db.

(** No primary key changed its user, and the rows that appeared are [u]'s. *)
Definition owners_grown (u : user_id) (db db' : DB) : Prop :=
  exists i e b : list (Z * option user_id),
    income_owners db' = (income_owners db ++ i)%list
    /\ expense_owners db' = (expense_owners db ++ e)%list
    /\ budget_owners db' = (budget_owners db ++ b)%list
    /\ Forall (fun p => snd p = Some u) (i ++ e ++ b)%list.

(** What a request of [u] leaves of the database, as seen by [v]. *)
Definition effects (u v : user_id) (req : Urls.Request) (db db' : DB)
           (resp : Response) : Prop :=
  restrict v db' = restrict v db
  /\ Forall (fun o => o = Some u) (response_owners resp)
  /\ (creates req = false -> owners_kept db db')
  /\ owners_grown u db db'
  /\ unique_ids db'.

(** [actual] of a budget as the specification words it: sums over the
    caller's rows within [inscope], matched against the subcategory [sub]. *)
Definition stated_actual (inscope : date -> bool) (u : user_id) (db : DB)
           (category sub : string) : decimal :=
  let cat := Py.lower (Py.strip category) in
  if String.eqb cat "expense" then
    Orm.sum_amounts
      (map exp_amount
           (filter (fun e => Orm.owned_by u (exp_user e) && inscope (exp_date e)
                             && Orm.iexact (exp_category e) sub)
                   (expenses db)))
  else if String.eqb cat "saving" || String.eqb cat "savings" then
    Orm.sum_amounts
      (map inc_amount
           (filter (fun i => Orm.owned_by u (inc_user i) && inscope (inc_date i)
                             && (Orm.icontains (inc_remark i) sub
                                 || Orm.icontains (inc_source i) sub))
                   (incomes db)))
  else 0.

(** The window of a scope: the month of [today] for ["month"], which is
    also the default; every date for any other scope, ["all"] among them. *)
Definition scope_window (env : Env) (scope_q : option string) : date -> bool :=
  match scope_q with
  | None => Orm.in_month (today env)
  | Some s => if String.eqb s "month" then Orm.in_month (today env) else fun _ => true
  end.

(** The insights row of a budget whose [actual] is [a]. *)
Definition stated_row (b : Budget) (a : decimal) : InsightRow :=
  mkInsightRow (bud_category b) (bud_subcategory b) (float_of (bud_amount b))
               (float_of a) (float_sub (float_of a) (float_of (bud_amount b))).

(** The slugs that stand for values of [Expense.type]. *)
Definition type_slugs : list string :=
  ["expense"; "savings"; "emis"; "loans&advance"; "other"].

(** The stored type is one on which the two readings of the slug
    ["expense"] are not known to differ: it is not the variant ["Expenses"],
    and if it is ["Expense"] up to letter case, it is ["Expense"]. *)
Definition plain_expense_type (t : string) : Prop :=
  t <> "Expenses" /\ (Orm.iexact t "Expense" = true -> t = "Expense").

(** ** Sample data of the examples *)

Module Sample.

Definition env : Env := mkEnv (mkdate 2024 6 15) 1718409600.

Definition june : Query :=
  mkQuery (Some (mkdate 2024 6 1)) (Some (mkdate 2024 6 30))
          Orm.NoBound Orm.NoBound None None None None None.

Definition typed (q : Query) (t : string) : Query :=
  mkQuery (q_from q) (q_to q) (q_min_amount q) (q_max_amount q) (q_remark q)
          (q_category q) (Some t) (q_limit q) (q_offset q).

(** Two expenses of user 1 on one day, with the ids 9 and 10. *)
Definition nine_and_ten : DB :=
  mkDB []
       [ mkExpense 9 (Some 1) (mkdate 2024 6 1) 4000 "lunch" "Expense" "Food" 0;
         mkExpense 10 (Some 1) (mkdate 2024 6 1) 2500 "bus" "Expense" "Travel" 0 ]
       [].

(** A complete expense body of the given type and category. *)
Definition expense_body (t c : text_field) : ExpenseBody :=
  mkExpenseBody Missing (Val (mkdate 2024 6 1)) (Val 4000) TMissing t c.

(** Rows of two users, 1 and 2. *)
Definition two_users : DB :=
  mkDB [ mkIncome 1 (Some 1) 850000 (mkdate 2024 6 1) "Salary" "" 0;
         mkIncome 2 (Some 2) 120000 (mkdate 2024 6 2) "Rent" "flat" 0 ]
       [ mkExpense 1 (Some 2) (mkdate 2024 6 3) 4000 "lunch" "Expense" "Food" 0;
         mkExpense 2 (Some 1) (mkdate 2024 6 3) 2500 "bus" "Expense" "Travel" 0 ]
       [ mkBudget 1 (Some 2) "Expense" "Food" 5000 (mkdate 2024 6 1) 0 ].

(** A body that tries a new amount and names user 2 as the owner. *)
Definition income_body : IncomeBody :=
  mkIncomeBody (Val 2) (Val 1) (Val (mkdate 2024 6 5)) (TText "Gift") TMissing.

(** A budget whose stored subcategory begins with a blank, and an
    expense of the category it names. *)
Definition padded_budget : DB :=
  mkDB []
       [ mkExpense 1 (Some 1) (mkdate 2024 6 3) 4000 "lunch" "Expense" "Food" 0 ]
       [ mkBudget 1 (Some 1) "Expense" " Food" 5000 (mkdate 2024 6 1) 0 ].

Definition food_budget : DB :=
  mkDB []
       [ mkExpense 1 (Some 1) (mkdate 2024 6 3) 4000 "lunch" "Expense" "Food" 0 ]
       [ mkBudget 1 (Some 1) "Expense" "Food" 5000 (mkdate 2024 6 1) 0 ].

Definition salary : Income :=
  mkIncome 1 (Some 1) 850000 (mkdate 2024 6 1) "Salary" "" 0.

Definition typed_expense (t : string) : Expense :=
  mkExpense 1 (Some 1) (mkdate 2024 6 3) 100000 "monthly" t "SIP" 0.

(** User 1 has an income and one expense of the stored type [t]. *)
Definition one_expense (t : string) : DB := mkDB [salary] [typed_expense t] [].

End Sample.


(** ** Vocabulary of the further properties *)

(** The key [a] is not older than [b] in the order ["-date", "-id"]: its
    date is later, or the dates are one day and its id is not smaller. *)
Definition key_ge (a b : date * Z) : Prop :=
  year (fst a) > year (fst b)
  \/ (year (fst a) = year (fst b)
      /\ (month (fst a) > month (fst b)
          \/ (month (fst a) = month (fst b)
              /\ (day (fst a) > day (fst b)
                  \/ (day (fst a) = day (fst b) /\ snd a >= snd b))))).

(** The query [q] with the numbers [limit] and [offset] written out. *)
Definition paged (q : Query) (limit offset : Z) : Query :=
  with_page q (Some (Py.str limit)) (Some (Py.str offset)).

(** Bodies that give no field at all. *)
Definition empty_income_body : IncomeBody :=
  mkIncomeBody Missing Missing Missing TMissing TMissing.

Definition empty_expense_body : ExpenseBody :=
  mkExpenseBody Missing Missing Missing TMissing TMissing TMissing.

(** The text is as a [CharField] hands it on: no white space at either end
    and no null character. *)
Definition clean (s : string) : Prop :=
  Py.strip s = s /\ Serializers.has_null s = false.

(** What holds of a row that the serializers stored. *)
Definition income_ok (r : Income) : Prop :=
  inc_user r <> None
  /\ Z.abs (inc_amount r) < 10 ^ 12
  /\ clean (inc_source r) /\ (String.length (inc_source r) <= 80)%nat
  /\ clean (inc_remark r) /\ (String.length (inc_remark r) <= 255)%nat.

Definition expense_ok (r : Expense) : Prop :=
  exp_user r <> None
  /\ Z.abs (exp_amount r) < 10 ^ 10
  /\ clean (exp_remark r) /\ (String.length (exp_remark r) <= 255)%nat
  /\ exp_type r <> ""
  /\ clean (exp_type r) /\ (String.length (exp_type r) <= 100)%nat
  /\ clean (exp_category r) /\ (String.length (exp_category r) <= 100)%nat
  /\ (In (Py.lower (exp_type r))
         ("other" :: Serializers.ExpenseSerializer.category_required) ->
      exp_category r <> "")
  /\ (Py.lower (exp_type r) = "other" -> exp_type r = "Other").

Definition budget_ok (b : Budget) : Prop :=
  bud_user b <> None
  /\ Z.abs (bud_amount b) < 10 ^ 10
  /\ bud_category b <> ""
  /\ clean (bud_category b) /\ (String.length (bud_category b) <= 100)%nat
  /\ bud_subcategory b <> ""
  /\ clean (bud_subcategory b) /\ (String.length (bud_subcategory b) <= 100)%nat.

Definition well_stored (db : DB) : Prop :=
  Forall income_ok (incomes db)
  /\ Forall expense_ok (expenses db)
  /\ Forall budget_ok (budgets db)
  /\ unique_ids db.

(** The database after a sequence of requests, each with its clock and its
    caller. *)
Fixpoint run (trace : list (Env * user_id * Urls.Request)) (db : DB) : DB :=
  match trace with
  | [] => db
  | (env, u, req) :: rest => run rest (fst (Urls.dispatch env u req db))
  end.

(** The body that sends a stored row back as it is. *)
Definition income_as_body (r : Income) : IncomeBody :=
  mkIncomeBody Missing (Val (inc_amount r)) (Val (inc_date r))
               (TText (inc_source r)) (TText (inc_remark r)).

Definition expense_as_body (r : Expense) : ExpenseBody :=
  mkExpenseBody Missing (Val (exp_date r)) (Val (exp_amount r))
                (TText (exp_remark r)) (TText (exp_type r)) (TText (exp_category r)).

(** A morning at the service: user 1 records a salary, a saving and a
    budget, then corrects the saving. *)
Definition sample_trace : list (Env * user_id * Urls.Request) :=
  [ (Sample.env, 1,
     Urls.IncomeList (ListPOST (mkIncomeBody Missing (Val 850000) (Val (mkdate 2024 6 1))
                                             (TText " Salary ") TMissing)));
    (Sample.env, 1,
     Urls.ExpenseList (ListPOST (Sample.expense_body (TText "saving") (TText "SIP"))));
    (Sample.env, 1,
     Urls.BudgetList (ListPOST (mkBudgetBody Missing (TText "Saving") (TText " SIP ")
                                             (Val 500000) (Val (mkdate 2024 6 1)))));
    (Sample.env, 1,
     Urls.ExpenseDetail PATCH 1
       (mkExpenseBody Missing Missing (Val 4500) TMissing (TText "Savings") (TText "SIP"))) ].

(** The query [q] with another [type] parameter. *)
Definition with_type (q : Query) (t : option string) : Query :=
  mkQuery (q_from q) (q_to q) (q_min_amount q) (q_max_amount q) (q_remark q)
          (q_category q) t (q_limit q) (q_offset q).

(** ** core/views.py: the category filter *)

(** [sorted(xs)] for a list of texts: the stable sort, smallest first. *)
Definition py_sorted (l : list string) : list string := Py.sort_desc String.ltb l.

Section FilterCategories.

(** What the database hands back for [values_list(...).distinct()]: the
    values of the rows, repeated or not (the columns of the ordering take
    part in the comparison of rows). *)
Variable distinct : list string -> list string.

(** [filter_categories]: the body of the answer, a list of texts.
    [type_q] is the [type] parameter. *)
Definition filter_categories (u : user_id) (type_q : option string) (db : DB)
  : list string :=
  let kind := Py.lower (Py.strip (Py.opt_or type_q "")) in
  if negb (Py.truthy kind) then []
  else
    let cats :=
      if String.eqb kind "income" then
        distinct
          (map inc_source
               (Orm.order_by_date_id Orm.income_key
                  (filter (fun r => negb (String.eqb (inc_source r) ""))
                          (Views.own_incomes u db))))
      else
        let labels := Views._labels_for_slug kind in
        let qs :=
          match labels with
          | [] => Views.own_expenses u db
          | _ => filter (fun r => Orm.is_in (exp_type r) labels) (Views.own_expenses u db)
          end in
        distinct
          (map exp_category
               (Orm.order_by_date_id Orm.expense_key
                  (filter (fun r => negb (String.eqb (exp_category r) "")) qs)))
    in
    py_sorted (filter Py.truthy cats).

End FilterCategories.

(** [distinct] keeps the values: it neither invents nor loses one. *)
Definition keeps_values (distinct : list string -> list string) : Prop :=
  forall (l : list string) (x : string), In x (distinct l) <-> In x l.

(** The text [a] is not after [b] in the order of [sorted]. *)
Definition text_le (a b : string) : Prop := String.compare a b <> Gt.

(** ** core/views.py: [_parse_date] *)

(** [s[:n]] *)
Fixpoint take (n : nat) (s : string) : string :=
  match n, s with
  | S k, String c r => String c (take k r)
  | _, _ => EmptyString
  end.

Definition is_leap (y : Z) : bool :=
  ((y mod 4 =? 0) && negb (y mod 100 =? 0)) || (y mod 400 =? 0).

Definition days_in_month (y m : Z) : Z :=
  if m =? 2 then (if is_leap y then 29 else 28)
  else if (m =? 4) || (m =? 6) || (m =? 9) || (m =? 11) then 30
  else 31.

(** The dates [datetime.date(y, m, d)] accepts. *)
Definition valid_date (d : date) : bool :=
  (1 <=? year d) && (year d <=? 9999)
  && (1 <=? month d) && (month d <=? 12)
  && (1 <=? day d) && (day d <=? days_in_month (year d) (month d)).

(** The character is a decimal digit between [lo] and [hi]. *)
Definition digit_in (lo hi : Z) (c : ascii) : bool :=
  Py.is_digit c && (lo <=? Py.digit_val c) && (Py.digit_val c <=? hi).

(** The directive [%Y] of [strptime]: four digits.  Each directive returns
    the number read and the rest of the text. *)
Definition directive_Y (s : string) : option (Z * string) :=
  match s with
  | String a (String b (String c (String d r))) =>
      if Py.is_digit a && Py.is_digit b && Py.is_digit c && Py.is_digit d
      then Some (((Py.digit_val a * 10 + Py.digit_val b) * 10 + Py.digit_val c) * 10
                 + Py.digit_val d, r)
      else None
  | _ => None
  end.

(** [%m]: [1[0-2]|0[1-9]|[1-9]], the alternatives tried in this order. *)
Definition directive_m (s : string) : option (Z * string) :=
  match s with
  | String a r =>
      let one := if digit_in 1 9 a then Some (Py.digit_val a, r) else None in
      match r with
      | String b r' =>
          if Ascii.eqb a "1" && digit_in 0 2 b then Some (10 + Py.digit_val b, r')
          else if Ascii.eqb a "0" && digit_in 1 9 b then Some (Py.digit_val b, r')
          else one
      | EmptyString => one
      end
  | EmptyString => None
  end.

(** [%d]: [3[0-1]|[1-2]\d|0[1-9]|[1-9]| [1-9]]. *)
Definition directive_d (s : string) : option (Z * string) :=
  match s with
  | String a r =>
      let one := if digit_in 1 9 a then Some (Py.digit_val a, r) else None in
      match r with
      | String b r' =>
          if Ascii.eqb a "3" && digit_in 0 1 b then Some (30 + Py.digit_val b, r')
          else if digit_in 1 2 a && digit_in 0 9 b
               then Some (Py.digit_val a * 10 + Py.digit_val b, r')
          else if Ascii.eqb a "0" && digit_in 1 9 b then Some (Py.digit_val b, r')
          else if digit_in 1 9 a then Some (Py.digit_val a, r)
          else if Ascii.eqb a " " && digit_in 1 9 b then Some (Py.digit_val b, r')
          else None
      | EmptyString => one
      end
  | EmptyString => None
  end.

Definition literal_dash (s : string) : option string :=
  match s with
  | String "-" r => Some r
  | _ => None
  end.

(** [datetime.strptime(s, "%Y-%m-%d").date()]; [None] stands for the
    [ValueError] of a text that does not match, of text left over, or of a
    day that the calendar does not have. *)
Definition strptime_ymd (s : string) : option date :=
  match directive_Y s with
  | Some (y, s1) =>
      match literal_dash s1 with
      | Some s2 =>
          match directive_m s2 with
          | Some (m, s3) =>
              match literal_dash s3 with
              | Some s4 =>
                  match directive_d s4 with
                  | Some (d, EmptyString) =>
                      if valid_date (mkdate y m d) then Some (mkdate y m d) else None
                  | _ => None
                  end
              | None => None
              end
          | None => None
          end
      | None => None
      end
  | None => None
  end.

(** [_parse_date]: [None] or an empty text is no date; otherwise the first
    ten characters are read, and a text that does not read is no date. *)
Definition _parse_date (s : option string) : option date :=
  match s with
  | None => None
  | Some t => if Py.truthy t then strptime_ymd (take 10 t) else None
  end.

(** The year [n], printed on four digits, is four characters that [%Y]
    reads back as [n]; a day or month, printed on two digits, is two
    characters. *)
Definition year_reads (n : Z) : bool :=
  (String.length (zfill 4 (Py.str n)) =? 4)%nat
  && match directive_Y (zfill 4 (Py.str n)) with
     | Some (v, EmptyString) => v =? n
     | _ => false
     end.

Definition two_wide (n : Z) : bool :=
  (String.length (zfill 2 (Py.str n)) =? 2)%nat.

(** Printed on [w] digits, [n] is smaller as a text than [n + 1]. *)
Definition next_is_greater (w : nat) (n : Z) : bool :=
  match String.compare (zfill w (Py.str n)) (zfill w (Py.str (n + 1))) with
  | Lt => true
  | _ => false
  end.

(** A feed row is newest first before another one by the calendar. *)
Definition not_older (a b : date) : Prop := date_leb b a = true.

(** * Properties *)

(** ** The built-ins on sample inputs *)

Example lower_ex : Py.lower "Loans&Advance" = "loans&advance".
Proof. reflexivity. Qed.
Example strip_ex : Py.strip "  a b	 " = "a b".
Proof. reflexivity. Qed.
Example int_ex1 : Py.int " -1_0 " = Some (-10).
Proof. reflexivity. Qed.
Example int_ex2 : Py.int "1__0" = None.
Proof. reflexivity. Qed.
Example int_ex4 :
  Py.int (String (ascii_of_N 31) "5") = None
  /\ Py.strip (String (ascii_of_N 31) "5") = "5"
  /\ Py.int (String (ascii_of_N 12) "5 ") = Some 5.
Proof. repeat split. Qed.

Example int_ex3 : Py.int "abc" = None.
Proof. reflexivity. Qed.
Example str_ex : Py.str 10 = "10" /\ Py.str (-3) = "-3" /\ Py.str 0 = "0".
Proof. repeat split. Qed.

Example isoformat_ex : isoformat (mkdate 2024 6 1) = "2024-06-01".
Proof. reflexivity. Qed.
Example decimal_repr_ex : decimal_repr 4005 = "40.05" /\ decimal_repr (-5) = "-0.05".
Proof. split; reflexivity. Qed.

(** ** The stable descending sort *)

Section SortFacts.
Context {A : Type} (gtb : A -> A -> bool).

Lemma insert_desc_perm (x : A) (l : list A) :
  Permutation (Py.insert_desc gtb x l) (x :: l).
Proof.
  induction l as [|y r IH]; simpl.
  - apply Permutation_refl.
  - destruct (gtb y x).
    + apply perm_trans with (y :: x :: r).
      * now apply perm_skip.
      * apply perm_swap.
    + apply Permutation_refl.
Qed.

Lemma sort_desc_perm (l : list A) : Permutation (Py.sort_desc gtb l) l.
Proof.
  induction l as [|x r IH]; simpl.
  - apply perm_nil.
  - apply perm_trans with (x :: Py.sort_desc gtb r).
    + apply insert_desc_perm.
    + now apply perm_skip.
Qed.

Lemma sort_desc_In (x : A) (l : list A) : In x (Py.sort_desc gtb l) <-> In x l.
Proof.
  split; apply Permutation_in.
  - apply sort_desc_perm.
  - apply Permutation_sym, sort_desc_perm.
Qed.

Lemma sort_desc_length (l : list A) :
  List.length (Py.sort_desc gtb l) = List.length l.
Proof. apply Permutation_length, sort_desc_perm. Qed.

Hypothesis gtb_asym : forall a b, gtb a b = true -> gtb b a = false.

Lemma insert_desc_hd (x y : A) (l : list A) :
  gtb y x = true -> HdRel (not_below gtb) y l -> HdRel (not_below gtb) y (Py.insert_desc gtb x l).
Proof.
  intros Hyx Hl. destruct l as [|z r]; simpl.
  - constructor. now apply gtb_asym.
  - destruct (gtb z x).
    + constructor. now inversion Hl.
    + constructor. now apply gtb_asym.
Qed.

Lemma insert_desc_sorted (x : A) (l : list A) :
  Sorted (not_below gtb) l -> Sorted (not_below gtb) (Py.insert_desc gtb x l).
Proof.
  induction 1 as [|y r Hr IH Hy]; simpl.
  - repeat constructor.
  - destruct (gtb y x) eqn:E.
    + constructor; [exact IH | now apply insert_desc_hd].
    + constructor; [now constructor | now constructor].
Qed.

Lemma sort_desc_sorted (l : list A) : Sorted (not_below gtb) (Py.sort_desc gtb l).
Proof.
  induction l as [|x r IH]; simpl.
  - constructor.
  - now apply insert_desc_sorted.
Qed.

Hypothesis not_below_trans :
  forall a b c, (not_below gtb) a b -> (not_below gtb) b c -> (not_below gtb) a c.

Lemma sort_desc_strongly_sorted (l : list A) :
  StronglySorted (not_below gtb) (Py.sort_desc gtb l).
Proof.
  apply Sorted_StronglySorted.
  - intros a b c. apply not_below_trans.
  - apply sort_desc_sorted.
Qed.

End SortFacts.

(** ** The order of texts and of the feed's sort keys *)

Lemma str_compare_refl (s : string) : String.compare s s = Eq.
Proof. now apply String_as_OT.cmp_eq. Qed.

Lemma str_compare_lt_trans (a b c : string) :
  String.compare a b = Lt -> String.compare b c = Lt -> String.compare a c = Lt.
Proof.
  intros H1 H2. apply String_as_OT.cmp_lt.
  apply String_as_OT.lt_trans with b; now apply String_as_OT.cmp_lt.
Qed.

Lemma compare2_eq (a b : string * string) : Py.compare2 a b = Eq -> a = b.
Proof.
  destruct a as [a1 a2], b as [b1 b2]. unfold Py.compare2; simpl.
  destruct (String.compare a1 b1) eqn:E1; try discriminate.
  intros E2. apply String.compare_eq_iff in E1, E2. now subst.
Qed.

Lemma compare2_antisym (a b : string * string) :
  Py.compare2 a b = CompOpp (Py.compare2 b a).
Proof.
  unfold Py.compare2. rewrite (String.compare_antisym (fst b) (fst a)).
  destruct (String.compare (fst a) (fst b)); simpl; try reflexivity.
  apply String.compare_antisym.
Qed.

Lemma compare2_lt_trans (a b c : string * string) :
  Py.compare2 a b = Lt -> Py.compare2 b c = Lt -> Py.compare2 a c = Lt.
Proof.
  destruct a as [a1 a2], b as [b1 b2], c as [c1 c2]. unfold Py.compare2; simpl.
  destruct (String.compare a1 b1) eqn:E1; try discriminate;
    destruct (String.compare b1 c1) eqn:E2; try discriminate; intros H1 H2.
  - apply String.compare_eq_iff in E1, E2. subst.
    rewrite str_compare_refl. eapply str_compare_lt_trans; eassumption.
  - apply String.compare_eq_iff in E1. subst. now rewrite E2.
  - apply String.compare_eq_iff in E2. subst. now rewrite E1.
  - now rewrite (str_compare_lt_trans _ _ _ E1 E2).
Qed.

Lemma feed_gtb_asym (a b : FeedRow) :
  Views.feed_gtb a b = true -> Views.feed_gtb b a = false.
Proof.
  unfold Views.feed_gtb. rewrite (compare2_antisym (Views.feed_key b)).
  destruct (Py.compare2 (Views.feed_key a) (Views.feed_key b)); simpl; congruence.
Qed.

Lemma feed_not_below_trans (a b c : FeedRow) :
  not_below Views.feed_gtb a b -> not_below Views.feed_gtb b c ->
  not_below Views.feed_gtb a c.
Proof.
  unfold not_below, Views.feed_gtb. intros Hba Hcb.
  destruct (Py.compare2 (Views.feed_key c) (Views.feed_key b)) eqn:E1; try discriminate;
    destruct (Py.compare2 (Views.feed_key b) (Views.feed_key a)) eqn:E2; try discriminate.
  - apply compare2_eq in E1. now rewrite E1, E2.
  - apply compare2_eq in E1. now rewrite E1, E2.
  - apply compare2_eq in E2. now rewrite <- E2, E1.
  - now rewrite (compare2_lt_trans _ _ _ E1 E2).
Qed.

Lemma feed_before_iff (a b : FeedRow) :
  not_below Views.feed_gtb a b <-> feed_before a b.
Proof.
  unfold not_below, feed_before, Views.feed_gtb.
  rewrite (compare2_antisym (Views.feed_key b)).
  unfold Py.compare2, Views.feed_key; simpl.
  destruct (String.compare (f_date a) (f_date b)); simpl.
  - destruct (String.compare (Py.str (f_id a)) (Py.str (f_id b))); simpl;
      split; congruence.
  - split; [discriminate | contradiction].
  - split; trivial.
Qed.

Lemma strongly_sorted_iff {A : Type} (R S : A -> A -> Prop) (l : list A) :
  (forall a b, R a b -> S a b) -> StronglySorted R l -> StronglySorted S l.
Proof.
  intros HRS. induction 1 as [|x r Hr IH Hx]; constructor.
  - exact IH.
  - eapply Forall_impl; [|exact Hx]. intros b. apply HRS.
Qed.

Lemma feed_sorted_strongly (env : Env) (u : user_id) (q : Query) (db : DB) :
  StronglySorted feed_before (Views.feed_sorted env u q db).
Proof.
  apply strongly_sorted_iff with (R := not_below Views.feed_gtb).
  - intros a b. apply feed_before_iff.
  - apply sort_desc_strongly_sorted.
    + exact feed_gtb_asym.
    + exact feed_not_below_trans.
Qed.

(** ** The unified feed: order (C1) and window (C7) *)

Example feed_nine_before_ten :
  Views.transaction_history Sample.env 1 Sample.june Sample.nine_and_ten
  = FeedPage 2
      [ mkFeedRow 9 "Expense" "lunch" "2024-06-01" "40.00" "Food";
        mkFeedRow 10 "Expense" "bus" "2024-06-01" "25.00" "Travel" ].
Proof. reflexivity. Qed.

Example expense_list_ten_before_nine :
  snd (Views.expense_list Sample.env 1 (ListGET Sample.june) Sample.nine_and_ten)
  = ExpensePage 2 (rev (expenses Sample.nine_and_ten)).
Proof. reflexivity. Qed.

(** C1: the rows of the unified feed are the income rows followed by the
    expense rows, sorted largest first by the pair (date text, [str(id)]):
    the sorted list is a permutation of the concatenation, every row stands
    before every later row in that order, the answer is the page of that
    list (unless an amount bound of the request is unreadable, when the
    answer is the 500 of the failed look-up), and among rows of one date the
    order is that of the id texts, compared character by character, in which
    ["9"] is greater than ["10"] although 9 < 10; so the row of id 9 is
    delivered before the row of id 10 of the same day. *)
Theorem feed_sorted_by_date_then_id_text :
  forall (env : Env) (u : user_id) (q : Query) (db : DB),
    let rows := Views.feed_sorted env u q db in
    Permutation rows
      (Views.feed_income_rows env u q db ++ Views.feed_expense_rows env u q db)
    /\ StronglySorted feed_before rows
    /\ Views.transaction_history env u q db
       = (if Views.amounts_read q
          then FeedPage (List.length rows) (Views.page_of q rows)
          else ServerError)
    /\ (forall a b : FeedRow,
           f_date a = f_date b ->
           (feed_before a b <->
            String.compare (Py.str (f_id a)) (Py.str (f_id b)) <> Lt))
    /\ String.compare (Py.str 9) (Py.str 10) = Gt
    /\ 9 < 10
    /\ map f_id (Views.feed_sorted Sample.env 1 Sample.june Sample.nine_and_ten)
       = [9; 10].
Proof.
  intros env u q db rows. repeat split.
  - apply sort_desc_perm.
  - apply feed_sorted_strongly.
  - unfold feed_before. rewrite H, str_compare_refl. trivial.
  - unfold feed_before. rewrite H, str_compare_refl. trivial.
Qed.

Lemma feed_sorted_by_date_then_id_text_witness :
  f_date (mkFeedRow 9 "Expense" "lunch" "2024-06-01" "40.00" "Food")
  = f_date (mkFeedRow 10 "Expense" "bus" "2024-06-01" "25.00" "Travel")
  /\ feed_before (mkFeedRow 9 "Expense" "lunch" "2024-06-01" "40.00" "Food")
                 (mkFeedRow 10 "Expense" "bus" "2024-06-01" "25.00" "Travel").
Proof.
  destruct (feed_sorted_by_date_then_id_text Sample.env 1 Sample.june Sample.nine_and_ten)
    as (_ & _ & _ & H & _).
  split; [reflexivity|].
  apply (H (mkFeedRow 9 "Expense" "lunch" "2024-06-01" "40.00" "Food")
           (mkFeedRow 10 "Expense" "bus" "2024-06-01" "25.00" "Travel")).
  - reflexivity.
  - discriminate.
Defined.

Lemma slice_window {A : Type} (rows : list A) (limit offset : Z) :
  0 <= offset -> 0 <= limit ->
  Py.slice rows offset (offset + limit)
  = firstn (Z.to_nat limit) (skipn (Z.to_nat offset) rows)
  /\ rows = (firstn (Z.to_nat offset) rows
             ++ Py.slice rows offset (offset + limit)
             ++ skipn (Z.to_nat limit + Z.to_nat offset) rows)%list.
Proof.
  intros Ho Hl. unfold Py.slice.
  replace (offset + limit - offset) with limit by lia.
  split; [reflexivity|].
  rewrite <- skipn_skipn, firstn_skipn, firstn_skipn. reflexivity.
Qed.

Lemma parse_pagination_range (q : Query) :
  1 <= fst (Views._parse_pagination q) <= 200 /\ 0 <= snd (Views._parse_pagination q).
Proof. unfold Views._parse_pagination; simpl. lia. Qed.

(** C7: the feed's [count] is the length of the merged, filtered list, the
    sum of the lengths of the income and expense parts, whatever [limit] and
    [offset] are; [results] is the window of the merged sorted list that
    starts [offset] rows in and is at most [limit] rows long, a contiguous
    slice of it; and the same request with any other [limit] and [offset]
    has the same merged sorted list and the same [count].  The one request
    that gets no page is that with an unreadable amount bound, answered 500
    whatever [limit] and [offset] are. *)
Theorem feed_count_and_window :
  forall (env : Env) (u : user_id) (q : Query) (db : DB),
    let rows := Views.feed_sorted env u q db in
    let limit := Z.to_nat (fst (Views._parse_pagination q)) in
    let offset := Z.to_nat (snd (Views._parse_pagination q)) in
    let page := firstn limit (skipn offset rows) in
    Views.transaction_history env u q db
    = (if Views.amounts_read q then FeedPage (List.length rows) page else ServerError)
    /\ List.length rows
       = (List.length (Views.feed_income_rows env u q db)
          + List.length (Views.feed_expense_rows env u q db))%nat
    /\ rows = (firstn offset rows ++ page ++ skipn (limit + offset) rows)%list
    /\ List.length page = Nat.min limit (List.length rows - offset)
    /\ (forall l o : option string,
           Views.feed_sorted env u (with_page q l o) db = rows
           /\ exists page',
               Views.transaction_history env u (with_page q l o) db
               = (if Views.amounts_read q
                  then FeedPage (List.length rows) page'
                  else ServerError)).
Proof.
  intros env u q db rows limit offset page.
  destruct (parse_pagination_range q) as [[Hl1 Hl2] Ho].
  assert (Hpage : Views.page_of q rows = page
                  /\ rows = (firstn offset rows ++ page ++ skipn (limit + offset) rows)%list).
  { unfold Views.page_of, page, limit, offset.
    destruct (Views._parse_pagination q) as [lim off]; simpl in *.
    destruct (slice_window rows lim off) as [E1 E2]; try lia.
    rewrite E1 in E2. split; [exact E1 | exact E2]. }
  destruct Hpage as [Hp Hsplit].
  split; [|split; [|split; [|split]]].
  - unfold Views.transaction_history. fold rows. now rewrite Hp.
  - unfold rows, Views.feed_sorted. rewrite sort_desc_length.
    unfold Views.feed_rows. apply length_app.
  - exact Hsplit.
  - unfold page. rewrite length_firstn, length_skipn. reflexivity.
  - intros l o.
    assert (E : Views.feed_sorted env u (with_page q l o) db = rows) by reflexivity.
    split; [exact E|].
    eexists. unfold Views.transaction_history. rewrite E.
    change (Views.amounts_read (with_page q l o)) with (Views.amounts_read q).
    reflexivity.
Qed.

(** ** Pagination (C5) *)

Example parse_pagination_defaults : Views._parse_pagination no_query = (50, 0).
Proof. reflexivity. Qed.

Example parse_pagination_text :
  Views._parse_pagination (with_page no_query (Some "abc") (Some "1e3")) = (50, 0).
Proof. reflexivity. Qed.

(** C5, as stated, fails for a numeric limit below 1: [limit=0] is read as
    the number 0 and clamped to 1, not replaced by the default 50. *)
Lemma limit_zero_is_clamped_to_one :
  Py.int "0" = Some 0
  /\ 0 < 1
  /\ Views._parse_pagination (with_page no_query (Some "0") None) = (1, 0)
  /\ fst (Views._parse_pagination (with_page no_query (Some "0") None)) <> 50.
Proof. repeat split. discriminate. Qed.

Example huge_offset_is_refused :
  Py.int "9223372036854775808" = Some (2 ^ 63)
  /\ snd (Views.income_list Sample.env 1
            (ListGET (with_page no_query None (Some "9223372036854775808")))
            Sample.two_users)
     = ServerError
  /\ snd (Views.income_list Sample.env 1
            (ListGET (with_page no_query None (Some "9223372036854775807")))
            Sample.two_users)
     = IncomePage 1 []
  /\ Views.transaction_history Sample.env 1
       (with_page no_query None (Some "9223372036854775808")) Sample.two_users
     = FeedPage 2 [].
Proof. repeat split. Qed.

Example unreadable_bound_is_refused :
  snd (Views.income_list Sample.env 1
         (ListGET (mkQuery None None Orm.BadBound Orm.NoBound None None None None None))
         Sample.two_users)
  = ServerError
  /\ Views.transaction_history Sample.env 1
       (mkQuery None None Orm.NoBound Orm.BadBound None None (Some "income") None None)
       Sample.two_users
     = ServerError
  /\ snd (Views.budget_list Sample.env 2
            (ListGET (mkQuery None None Orm.BadBound Orm.NoBound None None None None None))
            Sample.two_users)
     = BudgetPage 1 (budgets Sample.two_users)
  /\ snd (Views.income_list Sample.env 1
            (ListGET (mkQuery None None (Orm.Bound 900000) Orm.NoBound None None None
                              None None))
            Sample.two_users)
     = IncomePage 0 [].
Proof. repeat split. Qed.

Lemma bounded_page_status (q : Query) (page : Response) :
  status_of page = 200 ->
  status_of (Views.bounded_page q page)
  = if Views.amounts_read q
    then (if Views.offset_fits q then 200 else 500)
    else 500.
Proof.
  intros H. unfold Views.bounded_page, Views.db_page.
  destruct (Views.amounts_read q); [|reflexivity].
  destruct (Views.offset_fits q); [exact H | reflexivity].
Qed.

Lemma offset_fits_default (q : Query) (l : option string) :
  Views.offset_fits (with_page q l None) = true.
Proof. reflexivity. Qed.

(** C5, amended: the effective limit is always within 1..200 and the
    effective offset is never negative.  A limit that [int] reads as [n]
    becomes 200 when [n > 200], 1 when [n < 1], and stays [n] otherwise; a
    limit that [int] rejects, or no limit, gives the default 50.  An offset
    read as a negative number, rejected by [int], or absent gives 0 (an
    absent offset is the text ["0"]); one read as [n >= 0] stays [n].
    Invalid values never cause an error response: the feed answers with the
    status it gives to the same request without [limit] and [offset], and
    so does each list view as long as the effective offset is one the
    database takes, which it is for every limit and for an offset that is
    absent, rejected by [int], negative, or below 2^63; that status is 200
    when the amount bounds of the request are readable. *)
Theorem parse_pagination_clamps :
  forall q : Query,
    let limit := fst (Views._parse_pagination q) in
    let offset := snd (Views._parse_pagination q) in
    (1 <= limit <= 200 /\ 0 <= offset)
    /\ (forall s n, q_limit q = Some s -> Py.int s = Some n ->
          (200 < n -> limit = 200) /\ (n < 1 -> limit = 1)
          /\ (1 <= n <= 200 -> limit = n))
    /\ (forall s, q_limit q = Some s -> Py.int s = None -> limit = 50)
    /\ (q_limit q = None -> limit = 50)
    /\ (forall s n, q_offset q = Some s -> Py.int s = Some n ->
          (n < 0 -> offset = 0) /\ (0 <= n -> offset = n))
    /\ (forall s, q_offset q = Some s -> Py.int s = None -> offset = 0)
    /\ (q_offset q = None -> offset = 0)
    /\ (forall s n, q_offset q = Some s -> Py.int s = Some n -> n < 2 ^ 63 ->
          offset < 2 ^ 63)
    /\ (forall env u db,
          status_of (Views.transaction_history env u q db)
          = status_of (Views.transaction_history env u (with_page q None None) db)
          /\ (Views.amounts_read q = true ->
              status_of (Views.transaction_history env u q db) = 200))
    /\ (forall env u db,
          offset < 2 ^ 63 ->
          (status_of (snd (Views.income_list env u (ListGET q) db))
           = status_of (snd (Views.income_list env u (ListGET (with_page q None None)) db))
           /\ status_of (snd (Views.expense_list env u (ListGET q) db))
              = status_of (snd (Views.expense_list env u
                                  (ListGET (with_page q None None)) db))
           /\ status_of (snd (Views.budget_list env u (ListGET q) db))
              = status_of (snd (Views.budget_list env u
                                  (ListGET (with_page q None None)) db)))
          /\ status_of (snd (Views.budget_list env u (ListGET q) db)) = 200
          /\ (Views.amounts_read q = true ->
              status_of (snd (Views.income_list env u (ListGET q) db)) = 200
              /\ status_of (snd (Views.expense_list env u (ListGET q) db)) = 200)).
Proof.
  intros q limit offset.
  split; [apply parse_pagination_range|].
  split; [|split; [|split; [|split; [|split; [|split; [|split; [|split]]]]]]].
  - intros s n Hs Hn. unfold limit, Views._parse_pagination; simpl.
    rewrite Hs; simpl. rewrite Hn. lia.
  - intros s Hs Hn. unfold limit, Views._parse_pagination; simpl.
    rewrite Hs; simpl. now rewrite Hn.
  - intros Hs. unfold limit, Views._parse_pagination; simpl. now rewrite Hs.
  - intros s n Hs Hn. unfold offset, Views._parse_pagination; simpl.
    rewrite Hs; simpl. rewrite Hn. lia.
  - intros s Hs Hn. unfold offset, Views._parse_pagination; simpl.
    rewrite Hs; simpl. now rewrite Hn.
  - intros Hs. unfold offset, Views._parse_pagination; simpl. now rewrite Hs.
  - intros s n Hs Hn Hlt. unfold offset, Views._parse_pagination; simpl.
    rewrite Hs; simpl. rewrite Hn. lia.
  - intros env u db. unfold Views.transaction_history.
    change (Views.amounts_read (with_page q None None)) with (Views.amounts_read q).
    destruct (Views.amounts_read q); split; try reflexivity. discriminate.
  - intros env u db Hoff.
    assert (Hfit : Views.offset_fits q = true).
    { unfold Views.offset_fits, Orm.max_offset. fold offset. apply Z.leb_le. lia. }
    unfold Views.income_list, Views.expense_list, Views.budget_list. cbn [snd].
    rewrite !bounded_page_status by reflexivity.
    unfold Views.db_page. rewrite !offset_fits_default, Hfit.
    change (Views.amounts_read (with_page q None None)) with (Views.amounts_read q).
    split; [repeat split|]. split; [reflexivity|].
    intros ->. split; reflexivity.
Qed.

Lemma parse_pagination_clamps_witness :
  fst (Views._parse_pagination (with_page no_query (Some "500") (Some "-3"))) = 200
  /\ snd (Views._parse_pagination (with_page no_query (Some "500") (Some "-3"))) = 0
  /\ fst (Views._parse_pagination (with_page no_query (Some "-7") (Some "x"))) = 1
  /\ snd (Views._parse_pagination (with_page no_query (Some "-7") (Some "x"))) = 0
  /\ status_of (snd (Views.income_list Sample.env 1
                       (ListGET (with_page no_query (Some "-7") (Some "x")))
                       Sample.two_users)) = 200.
Proof.
  pose proof (parse_pagination_clamps (with_page no_query (Some "500") (Some "-3")))
    as (_ & Hl & _ & _ & Ho & _).
  pose proof (parse_pagination_clamps (with_page no_query (Some "-7") (Some "x")))
    as (_ & Hl' & _ & _ & _ & Ho' & _ & _ & _ & Hs).
  split; [|split; [|split; [|split]]].
  - apply (Hl "500" 500); [reflexivity | reflexivity | lia].
  - apply (Ho "-3" (-3)); [reflexivity | reflexivity | lia].
  - apply (Hl' "-7" (-7)); [reflexivity | reflexivity | lia].
  - apply (Ho' "x"); reflexivity.
  - apply (Hs Sample.env 1 Sample.two_users); [reflexivity | reflexivity].
Defined.

(** ** Trimming *)

Lemma lstrip_clean (s : string) : starts_clean (Py.lstrip s).
Proof.
  induction s as [|c r IH]; simpl; [exact I|].
  destruct (Py.is_space c) eqn:E; [exact IH | exact E].
Qed.

Lemma lstrip_of_clean (s : string) : starts_clean s -> Py.lstrip s = s.
Proof. destruct s as [|c r]; simpl; [reflexivity|]. now intros ->. Qed.

Lemma rstrip_clean (s : string) : starts_clean s -> starts_clean (Py.rstrip s).
Proof.
  destruct s as [|c r]; simpl; [trivial|]. intros Hc.
  destruct (Py.rstrip r); [rewrite Hc|]; exact Hc.
Qed.

Lemma rstrip_idem (s : string) : Py.rstrip (Py.rstrip s) = Py.rstrip s.
Proof.
  induction s as [|c r IH]; simpl; [reflexivity|].
  destruct (Py.rstrip r) as [|c' r'] eqn:E.
  - destruct (Py.is_space c) eqn:Ec; simpl; [reflexivity | now rewrite Ec].
  - change (Py.rstrip (String c (String c' r'))) with
      (match Py.rstrip (String c' r') with
       | EmptyString => if Py.is_space c then EmptyString else String c EmptyString
       | x => String c x
       end).
    now rewrite IH.
Qed.

Lemma strip_idem (s : string) : Py.strip (Py.strip s) = Py.strip s.
Proof.
  unfold Py.strip.
  rewrite (lstrip_of_clean (Py.rstrip (Py.lstrip s))).
  - apply rstrip_idem.
  - apply rstrip_clean, lstrip_clean.
Qed.

Lemma or_else_empty (s : string) : Py.or_else s "" = s.
Proof. now destruct s. Qed.

Lemma truthy_false (s : string) : Py.truthy s = false <-> s = "".
Proof. destruct s; simpl; split; congruence. Qed.

(** ** Field validation of the serializers *)

Import Serializers.

Lemma mem_In (x : string) (l : list string) : Py.mem x l = true <-> In x l.
Proof.
  unfold Py.mem. rewrite existsb_exists. split.
  - intros (y & Hy & E). apply String.eqb_eq in E. now subst.
  - intros H. exists x. split; [exact H | apply String.eqb_refl].
Qed.

Lemma finish_inr {A : Type} (e : errors) (a a' : A) :
  finish e a = inr a' -> e = [] /\ a = a'.
Proof. destruct e; simpl; intros H; inversion H; auto. Qed.

Lemma char_field_ok (name : string) (m : nat) (req blank partial : bool)
      (x : text_field) (e : errors) (v : option string) :
  char_field name m req blank partial x = (e, v) -> e = [] ->
  v = option_map Py.strip (text_of x).
Proof.
  unfold char_field. destruct x as [| |s]; simpl.
  - destruct (req && negb partial); intros H; inversion H; subst; congruence.
  - intros H; inversion H; subst; discriminate.
  - destruct (Py.truthy (Py.strip s)); simpl.
    + destruct (char_validators m (Py.strip s));
        intros H; inversion H; subst; congruence.
    + destruct blank; intros H; inversion H; subst; congruence.
Qed.

Lemma char_field_names (name : string) (m : nat) (req blank partial : bool)
      (x : text_field) :
  fst (char_field name m req blank partial x) = []
  \/ exists ds, fst (char_field name m req blank partial x) = [(name, ds)].
Proof.
  unfold char_field. destruct x as [| |s]; simpl.
  - destruct (req && negb partial); simpl; [right; eexists|left]; reflexivity.
  - right; eexists; reflexivity.
  - destruct (Py.truthy (Py.strip s)); simpl.
    + destruct (char_validators m (Py.strip s)); simpl;
        [left|right; eexists]; reflexivity.
    + destruct blank; simpl; [left|right; eexists]; reflexivity.
Qed.

Lemma decimal_field_names (name : string) (m : Z) (partial : bool) (x : field decimal) :
  fst (decimal_field name m partial x) = []
  \/ fst (decimal_field name m partial x) = [(name, [Rejected])].
Proof.
  unfold decimal_field. destruct x; simpl; auto.
  - destruct partial; auto.
  - destruct (Z.abs a <? 10 ^ m); auto.
Qed.

Lemma date_field_names (name : string) (partial : bool) (x : field date) :
  fst (date_field name partial x) = []
  \/ fst (date_field name partial x) = [(name, [Rejected])].
Proof. unfold date_field. destruct x; simpl; auto. destruct partial; auto. Qed.

(** What the field stage of [ExpenseSerializer] hands to [validate]. *)
Lemma to_internal_value_inv (partial : bool) (d : ExpenseBody) (a : ExpenseAttrs) :
  ExpenseSerializer.to_internal_value partial d = inr a ->
  ea_type a = option_map Py.strip (text_of (eb_type d))
  /\ ea_category a = option_map Py.strip (text_of (eb_category d)).
Proof.
  unfold ExpenseSerializer.to_internal_value.
  destruct (date_field "date" partial (eb_date d)) as [e1 dt].
  destruct (decimal_field "amount" 10 partial (eb_amount d)) as [e2 am].
  destruct (char_field "remark" 255 false true partial (eb_remark d)) as [e3 rm].
  destruct (char_field "type" 100 false true partial (eb_type d)) as [e4 ty] eqn:E4.
  destruct (char_field "category" 100 false true partial (eb_category d)) as [e5 ct] eqn:E5.
  intros H. apply finish_inr in H. destruct H as [He Ha]. subst a; simpl.
  apply app_eq_nil in He. destruct He as [_ He].
  apply app_eq_nil in He. destruct He as [_ He].
  apply app_eq_nil in He. destruct He as [_ He].
  apply app_eq_nil in He. destruct He as [He4 He5].
  split; eapply char_field_ok; eassumption.
Qed.

(** The field stage never names [category] for a blank or missing one. *)
Lemma to_internal_value_errors (partial : bool) (d : ExpenseBody) (e : errors) :
  ExpenseSerializer.to_internal_value partial d = inl e ->
  names e "category" = true ->
  fst (char_field "category" 100 false true partial (eb_category d)) <> [].
Proof.
  unfold ExpenseSerializer.to_internal_value.
  destruct (date_field_names "date" partial (eb_date d)) as [E1|E1];
  destruct (decimal_field_names "amount" 10 partial (eb_amount d)) as [E2|E2];
  destruct (char_field_names "remark" 255 false true partial (eb_remark d)) as [E3|[d3 E3]];
  destruct (char_field_names "type" 100 false true partial (eb_type d)) as [E4|[d4 E4]];
  destruct (char_field_names "category" 100 false true partial (eb_category d))
    as [E5|[d5 E5]];
  destruct (date_field "date" partial (eb_date d)) as [e1 dt];
  destruct (decimal_field "amount" 10 partial (eb_amount d)) as [e2 am];
  destruct (char_field "remark" 255 false true partial (eb_remark d)) as [e3 rm];
  destruct (char_field "type" 100 false true partial (eb_type d)) as [e4 ty];
  destruct (char_field "category" 100 false true partial (eb_category d)) as [e5 ct];
  simpl in *; subst; simpl; intros H; inversion H; subst; simpl;
    intros Hn; discriminate.
Qed.

(** ** The rule of [ExpenseSerializer.validate] *)

Lemma normal_type_strip (x : option string) :
  normal_type (option_map Py.strip x) = normal_type x.
Proof.
  unfold normal_type. destruct x as [s|]; simpl; [|reflexivity].
  now rewrite !or_else_empty, strip_idem.
Qed.

Lemma trimmed_category_strip (x : option string) :
  trimmed_category (option_map Py.strip x) = trimmed_category x.
Proof.
  unfold trimmed_category. destruct x as [s|]; simpl; [|reflexivity].
  now rewrite !or_else_empty, strip_idem.
Qed.


Lemma validate_other (attrs : ExpenseAttrs) :
  normal_type (ea_type attrs) = "other" ->
  ExpenseSerializer.validate attrs
  = inr (mkExpenseAttrs (ea_date attrs) (ea_amount attrs) (ea_remark attrs)
           (Some "Other")
           (Some (Py.or_else (trimmed_category (ea_category attrs)) "Other"))).
Proof.
  intros E. unfold ExpenseSerializer.validate.
  fold (normal_type (ea_type attrs)). now rewrite E.
Qed.

Lemma validate_passes (attrs : ExpenseAttrs) :
  trimmed_category (ea_category attrs) <> ""
  \/ ~ In (normal_type (ea_type attrs)) ExpenseSerializer.category_required ->
  exists a, ExpenseSerializer.validate attrs = inr a
            /\ (normal_type (ea_type attrs) <> "other" ->
                ea_type a = Some (Py.or_else (Py.strip (Py.opt_or (ea_type attrs) "")) "Expense")
                /\ ea_category a = Some (trimmed_category (ea_category attrs))).
Proof.
  intros H. unfold ExpenseSerializer.validate.
  fold (normal_type (ea_type attrs)). fold (trimmed_category (ea_category attrs)).
  destruct (String.eqb_spec (normal_type (ea_type attrs)) "other") as [E|NE].
  - eexists. split; [reflexivity | congruence].
  - destruct (Py.mem (normal_type (ea_type attrs)) ExpenseSerializer.category_required
              && negb (Py.truthy (trimmed_category (ea_category attrs)))) eqn:Em.
    + apply andb_true_iff in Em. destruct Em as [Em Ec].
      apply mem_In in Em. apply negb_true_iff, truthy_false in Ec.
      destruct H; contradiction.
    + eexists. split; [reflexivity|]. intros _. split; reflexivity.
Qed.

Lemma payload_type (body : ExpenseBody) :
  normal_type (text_of (eb_type (Views.expense_payload body)))
  = normal_type (text_of (eb_type body)).
Proof.
  unfold normal_type; simpl. rewrite or_else_empty.
  destruct (eb_type body) as [| |s]; simpl; try reflexivity.
  destruct s as [|c r]; simpl; [reflexivity|].
  now rewrite !strip_idem.
Qed.

Lemma payload_category (body : ExpenseBody) :
  trimmed_category (text_of (eb_category (Views.expense_payload body)))
  = trimmed_category (text_of (eb_category body)).
Proof.
  unfold trimmed_category; simpl. rewrite or_else_empty, strip_idem.
  destruct (eb_category body) as [| |s]; reflexivity.
Qed.


Example null_character_is_refused :
  snd (Views.expense_list Sample.env 1
         (ListPOST (Sample.expense_body (TText "Expense")
                                        (TText (String (ascii_of_N 0) "Food"))))
         empty_db)
  = Errors 400 [("category", [Rejected])].
Proof. reflexivity. Qed.

(** ** Category is required for the recognized types (C4) *)




(** ** Type Other and the default type (C6) *)

Lemma char_field_blank (max : nat) (partial : bool) (x : text_field) :
  x <> TNull -> trimmed_category (text_of x) = "" ->
  fst (char_field "category" max false true partial x) = [].
Proof.
  unfold trimmed_category, char_field. destruct x as [| |s]; simpl.
  - reflexivity.
  - congruence.
  - rewrite or_else_empty. intros _ ->. reflexivity.
Qed.

(** The field stage refuses a null category and names it. *)
Lemma to_internal_value_null (partial : bool) (d : ExpenseBody) :
  eb_category d = TNull ->
  exists e, ExpenseSerializer.to_internal_value partial d = inl e
            /\ names e "category" = true.
Proof.
  intros Hn. unfold ExpenseSerializer.to_internal_value. rewrite Hn.
  destruct (date_field_names "date" partial (eb_date d)) as [E1|E1];
  destruct (decimal_field_names "amount" 10 partial (eb_amount d)) as [E2|E2];
  destruct (char_field_names "remark" 255 false true partial (eb_remark d)) as [E3|[d3 E3]];
  destruct (char_field_names "type" 100 false true partial (eb_type d)) as [E4|[d4 E4]];
  destruct (date_field "date" partial (eb_date d)) as [e1 dt];
  destruct (decimal_field "amount" 10 partial (eb_amount d)) as [e2 am];
  destruct (char_field "remark" 255 false true partial (eb_remark d)) as [e3 rm];
  destruct (char_field "type" 100 false true partial (eb_type d)) as [e4 ty];
  simpl in *; subst; simpl; eexists; (split; [reflexivity|]); reflexivity.
Qed.

Lemma payload_blank_type (ty : text_field) :
  Py.strip (text_or ty "") = "" ->
  Py.or_else (Py.strip (text_or ty "Expense")) "Expense" = "Expense".
Proof.
  destruct ty as [| |s]; try reflexivity.
  destruct s as [|c r]; [reflexivity|].
  change (text_or (TText (String c r)) "") with (String c r).
  change (text_or (TText (String c r)) "Expense") with (String c r).
  now intros ->.
Qed.

Lemma is_valid_other (partial : bool) (d : ExpenseBody) (a : ExpenseAttrs) :
  ExpenseSerializer.to_internal_value partial d = inr a ->
  normal_type (text_of (eb_type d)) = "other" ->
  ExpenseSerializer.is_valid partial d
  = inr (mkExpenseAttrs (ea_date a) (ea_amount a) (ea_remark a) (Some "Other")
           (Some (Py.or_else (trimmed_category (text_of (eb_category d))) "Other"))).
Proof.
  intros E Ht. unfold ExpenseSerializer.is_valid. rewrite E.
  destruct (to_internal_value_inv _ _ _ E) as [Hty Hcat].
  rewrite validate_other.
  - now rewrite Hcat, trimmed_category_strip.
  - now rewrite Hty, normal_type_strip.
Qed.

Lemma is_valid_field_errors (partial : bool) (d : ExpenseBody) (e : errors) :
  ExpenseSerializer.to_internal_value partial d = inl e ->
  eb_category d <> TNull ->
  trimmed_category (text_of (eb_category d)) = "" ->
  ExpenseSerializer.is_valid partial d = inl e /\ names e "category" = false.
Proof.
  intros E Hn Hc. unfold ExpenseSerializer.is_valid. rewrite E. split; [reflexivity|].
  destruct (names e "category") eqn:En; [|reflexivity].
  pose proof (to_internal_value_errors _ _ _ E En) as H.
  rewrite char_field_blank in H by assumption. now contradiction H.
Qed.

Lemma save_expense_stores (u : user_id) (pk : Z) (obj row : Expense) (db : DB) :
  find (fun r => exp_id r =? pk) (Views.own_expenses u db) = Some obj ->
  exp_id row = exp_id obj ->
  In row (expenses (Views.save_expense row db)).
Proof.
  intros Hf Hid. apply find_some in Hf. destruct Hf as [Hin _].
  apply filter_In in Hin. destruct Hin as [Hin _].
  unfold Views.save_expense; simpl. apply in_map_iff.
  exists obj. split; [|exact Hin]. now rewrite Hid, Z.eqb_refl.
Qed.

(** C6, as stated, fails on an update whose category is [null]: a PATCH of
    type ["other"] with [category: null] is refused with 400, and the
    messages name [category]; the field stage, which runs before
    [validate], does not take [null] for a text.  The same type and category
    sent as a create are stored, with the category ["Other"]: the view
    replaces the [null] by the empty text before the serializer sees it. *)
Lemma null_category_update_is_refused :
  normal_type (text_of (TText "other")) = "other"
  /\ trimmed_category (text_of TNull) = ""
  /\ Views.expense_detail 1 PATCH 1
       (mkExpenseBody Missing Missing Missing TMissing (TText "other") TNull)
       (Sample.one_expense "Expense")
     = (Sample.one_expense "Expense", Errors 400 [("category", [Rejected])])
  /\ names [("category", [Rejected])] "category" = true
  /\ snd (Views.expense_list Sample.env 1
            (ListPOST (Sample.expense_body (TText "other") TNull)) empty_db)
     = ExpenseRow 201 (mkExpense 1 (Some 1) (mkdate 2024 6 1) 4000 "" "Other" "Other"
                                 (now Sample.env)).
Proof. repeat split. Qed.

(** C6, amended: for an expense write whose type, trimmed and lowercased, is
    [other], [validate] never fails and returns the type ["Other"] and the
    category ["Other"] when the supplied category is blank or missing, the
    supplied category (trimmed) otherwise.  A create of such a type either
    stores a row of type ["Other"] with that category, or is refused by the
    field stage alone, whose messages do not name [category] when the
    category is blank, missing or [null].  The same holds for an update,
    whose stored row keeps its id and user, but for the [null] category:
    an update whose category is [null] is refused by the field stage, and
    its messages name [category].  An absent or blank type is the type
    ["Expense"]: with a non-blank category [validate] returns it, and a
    created row of an absent or blank type has the type ["Expense"]. *)
Theorem other_type_and_default_type :
  (forall attrs : ExpenseAttrs,
      normal_type (ea_type attrs) = "other" ->
      exists a,
        ExpenseSerializer.validate attrs = inr a
        /\ ea_type a = Some "Other"
        /\ (trimmed_category (ea_category attrs) = "" -> ea_category a = Some "Other")
        /\ (trimmed_category (ea_category attrs) <> "" ->
            ea_category a = Some (trimmed_category (ea_category attrs))))
  /\ (forall (env : Env) (u : user_id) (body : ExpenseBody) (db : DB),
         normal_type (text_of (eb_type body)) = "other" ->
         match ExpenseSerializer.to_internal_value false (Views.expense_payload body) with
         | inr _ =>
             exists row,
               Views.expense_list env u (ListPOST body) db
               = (mkDB (incomes db) (expenses db ++ [row]) (budgets db), ExpenseRow 201 row)
               /\ exp_type row = "Other"
               /\ exp_category row
                  = Py.or_else (trimmed_category (text_of (eb_category body))) "Other"
         | inl e =>
             Views.expense_list env u (ListPOST body) db = (db, Errors 400 e)
             /\ (trimmed_category (text_of (eb_category body)) = "" ->
                 names e "category" = false)
         end)
  /\ (forall (u : user_id) (m : Method) (pk : Z) (body : ExpenseBody) (db : DB)
             (obj : Expense),
         m <> GET ->
         normal_type (text_of (eb_type body)) = "other" ->
         find (fun r => exp_id r =? pk) (Views.own_expenses u db) = Some obj ->
         match ExpenseSerializer.to_internal_value (Views.is_patch m) body with
         | inr _ =>
             exists row,
               Views.expense_detail u m pk body db
               = (Views.save_expense row db, ExpenseRow 200 row)
               /\ In row (expenses (Views.save_expense row db))
               /\ exp_id row = exp_id obj /\ exp_user row = exp_user obj
               /\ exp_type row = "Other"
               /\ exp_category row
                  = Py.or_else (trimmed_category (text_of (eb_category body))) "Other"
         | inl e =>
             Views.expense_detail u m pk body db = (db, Errors 400 e)
             /\ (trimmed_category (text_of (eb_category body)) = "" ->
                 names e "category"
                 = match eb_category body with TNull => true | _ => false end)
         end)
  /\ (forall attrs : ExpenseAttrs,
         Py.strip (Py.opt_or (ea_type attrs) "") = "" ->
         normal_type (ea_type attrs) = "expense"
         /\ (trimmed_category (ea_category attrs) <> "" ->
             exists a, ExpenseSerializer.validate attrs = inr a
                       /\ ea_type a = Some "Expense"))
  /\ (forall (env : Env) (u : user_id) (body : ExpenseBody) (db db' : DB)
             (s : Z) (row : Expense),
         Py.strip (text_or (eb_type body) "") = "" ->
         Views.expense_list env u (ListPOST body) db = (db', ExpenseRow s row) ->
         exp_type row = "Expense").
Proof.
  split; [|split; [|split; [|split]]].
  - intros attrs Ht. eexists. split; [now apply validate_other|]. simpl.
    split; [reflexivity|]. split.
    + now intros ->.
    + intros Hc. destruct (trimmed_category (ea_category attrs)); [congruence | reflexivity].
  - intros env u body db Ht.
    destruct (ExpenseSerializer.to_internal_value false (Views.expense_payload body))
      as [e|a] eqn:E.
    + assert (Hv : trimmed_category (text_of (eb_category body)) = "" ->
                   ExpenseSerializer.is_valid false (Views.expense_payload body) = inl e
                   /\ names e "category" = false).
      { intros Hc. apply is_valid_field_errors; [exact E | discriminate|].
        now rewrite payload_category. }
      split.
      * unfold Views.expense_list, ExpenseSerializer.is_valid. now rewrite E.
      * intros Hc. now apply Hv.
    + eexists. unfold Views.expense_list.
      rewrite (is_valid_other _ _ _ E) by now rewrite payload_type.
      rewrite payload_category.
      split; [reflexivity|]. split; reflexivity.
  - intros u m pk body db obj Hm Ht Hf. unfold Views.expense_detail. rewrite Hf.
    destruct (ExpenseSerializer.to_internal_value (Views.is_patch m) body) as [e|a] eqn:E.
    + split.
      * unfold ExpenseSerializer.is_valid. rewrite E. destruct m; congruence.
      * intros Hc. destruct (eb_category body) as [| |c] eqn:Ec.
        -- apply (is_valid_field_errors _ _ _ E); [rewrite Ec; discriminate|].
           now rewrite Ec.
        -- destruct (to_internal_value_null (Views.is_patch m) body Ec) as (e' & E' & Hn).
           rewrite E in E'. now inversion E'.
        -- apply (is_valid_field_errors _ _ _ E); [rewrite Ec; discriminate|].
           now rewrite Ec.
    + rewrite (is_valid_other _ _ _ E Ht).
      eexists. split; [destruct m; try congruence; reflexivity|].
      split; [eapply save_expense_stores; [exact Hf | reflexivity]|].
      simpl. repeat split.
  - intros attrs Ht. unfold normal_type. rewrite Ht. split; [reflexivity|].
    intros Hc. destruct (validate_passes attrs) as (a & Ha & Hty); [now left|].
    exists a. split; [exact Ha|].
    destruct Hty as [Hty _].
    + unfold normal_type. rewrite Ht. discriminate.
    + now rewrite Hty, Ht.
  - intros env u body db db' s row Ht. unfold Views.expense_list.
    destruct (ExpenseSerializer.is_valid false (Views.expense_payload body)) as [e|a] eqn:E;
      [discriminate|].
    intros H. inversion H; subst; clear H. simpl.
    unfold ExpenseSerializer.is_valid in E.
    destruct (ExpenseSerializer.to_internal_value false (Views.expense_payload body))
      as [e|a0] eqn:E0; [discriminate|].
    destruct (to_internal_value_inv _ _ _ E0) as [Hty _].
    assert (Ht' : Py.or_else (Py.strip (Py.opt_or (ea_type a0) "")) "Expense" = "Expense").
    { rewrite Hty. cbn [eb_type Views.expense_payload text_of option_map Py.opt_or].
      rewrite or_else_empty, !strip_idem. now apply payload_blank_type. }
    unfold ExpenseSerializer.validate in E. cbv zeta in E. rewrite Ht' in E.
    change (Py.lower "Expense") with "expense" in E.
    change (String.eqb "expense" "other") with false in E.
    cbv iota in E.
    destruct (Py.mem "expense" ExpenseSerializer.category_required
              && negb (Py.truthy (Py.strip (Py.opt_or (ea_category a0) ""))));
      inversion E; reflexivity.
Qed.

Lemma other_type_and_default_type_witness :
  (exists a,
      ExpenseSerializer.validate (mkExpenseAttrs None None None (Some " OTHER ") None)
      = inr a
      /\ ea_type a = Some "Other" /\ ea_category a = Some "Other")
  /\ (exists row,
         Views.expense_list Sample.env 1
           (ListPOST (Sample.expense_body (TText "other") TMissing)) empty_db
         = (mkDB [] [row] [], ExpenseRow 201 row)
         /\ exp_type row = "Other" /\ exp_category row = "Other").
Proof.
  destruct other_type_and_default_type as (H1 & H2 & _).
  split.
  - destruct (H1 (mkExpenseAttrs None None None (Some " OTHER ") None)) as (a & Ha & Ht & Hc & _).
    + reflexivity.
    + exists a. split; [exact Ha|]. split; [exact Ht|]. apply Hc. reflexivity.
  - pose proof (H2 Sample.env 1 (Sample.expense_body (TText "other") TMissing) empty_db) as H.
    simpl in H. apply H. reflexivity.
Defined.

Example create_blank_type_is_expense :
  Views.expense_list Sample.env 1
    (ListPOST (Sample.expense_body (TText "  ") (TText " Food "))) empty_db
  = (mkDB [] [mkExpense 1 (Some 1) (mkdate 2024 6 1) 4000 "" "Expense" "Food"
                        (now Sample.env)] [],
     ExpenseRow 201 (mkExpense 1 (Some 1) (mkdate 2024 6 1) 4000 "" "Expense" "Food"
                               (now Sample.env))).
Proof. reflexivity. Qed.

(** ** Tables, ownership and primary keys *)

Import Orm.

Lemma owned_by_some (u : user_id) (o : option user_id) :
  owned_by u o = true <-> o = Some u.
Proof.
  unfold owned_by. destruct o as [v|]; split; intros H; try discriminate.
  - apply Z.eqb_eq in H. now subst.
  - inversion H. apply Z.eqb_refl.
Qed.

Lemma owned_by_other (u v : user_id) : u <> v -> owned_by v (Some u) = false.
Proof. intros H. unfold owned_by. apply Z.eqb_neq. exact H. Qed.

Lemma filter_implied {R : Type} (p q : R -> bool) (l : list R) :
  (forall r, p r = true -> q r = true) -> filter p (filter q l) = filter p l.
Proof.
  intros H. induction l as [|x r IH]; simpl; [reflexivity|].
  destruct (q x) eqn:Eq; simpl.
  - now rewrite IH.
  - destruct (p x) eqn:Ep; [|exact IH]. rewrite (H x Ep) in Eq. discriminate.
Qed.

Lemma filter_idem {R : Type} (p : R -> bool) (l : list R) :
  filter p (filter p l) = filter p l.
Proof. now apply filter_implied. Qed.

Lemma slice_incl {R : Type} (l : list R) (a b : Z) (x : R) :
  In x (Py.slice l a b) -> In x l.
Proof.
  unfold Py.slice. intros H.
  rewrite <- (firstn_skipn (Z.to_nat a) l). apply in_or_app. right.
  rewrite <- (firstn_skipn (Z.to_nat (b - a)) (skipn (Z.to_nat a) l)).
  apply in_or_app. now left.
Qed.

Lemma page_of_incl {R : Type} (q : Query) (l : list R) (x : R) :
  In x (Views.page_of q l) -> In x l.
Proof.
  unfold Views.page_of. destruct (Views._parse_pagination q). apply slice_incl.
Qed.

Lemma fresh_id_above (ids : list Z) (i : Z) : In i ids -> i < fresh_id ids.
Proof.
  unfold fresh_id. induction ids as [|j r IH]; cbn [fold_right In]; [contradiction|].
  intros [->|H]; [lia|]. specialize (IH H). lia.
Qed.

Lemma fresh_id_new (ids : list Z) : ~ In (fresh_id ids) ids.
Proof. intros H. apply fresh_id_above in H. lia. Qed.

Section Table.
Context {R : Type} (owner : R -> option user_id) (id : R -> Z).

Lemma same_id_same_row (l : list R) (x y : R) :
  NoDup (map id l) -> In x l -> In y l -> id x = id y -> x = y.
Proof.
  induction l as [|z r IH]; simpl; [contradiction|].
  intros Hnd Hx Hy E. inversion Hnd as [|? ? Hz Hr]; subst.
  destruct Hx as [->|Hx], Hy as [->|Hy]; auto.
  - exfalso. apply Hz. rewrite E. now apply in_map.
  - exfalso. apply Hz. rewrite <- E. now apply in_map.
Qed.

Lemma append_keeps_others (u v : user_id) (l : list R) (row : R) :
  owner row = Some u -> u <> v ->
  filter (fun r => owned_by v (owner r)) (l ++ [row])
  = filter (fun r => owned_by v (owner r)) l.
Proof.
  intros Ho Hne. rewrite filter_app; simpl.
  rewrite Ho, (owned_by_other u v Hne). apply app_nil_r.
Qed.

Lemma rewrite_keeps_ids (row : R) (l : list R) :
  map id (rewrite_row id row l) = map id l.
Proof.
  unfold rewrite_row. rewrite map_map. apply map_ext.
  intros r. destruct (id r =? id row) eqn:E; [|reflexivity].
  apply Z.eqb_eq in E. now rewrite E.
Qed.

Lemma rewrite_keeps_owners (obj row : R) (l : list R) :
  NoDup (map id l) -> In obj l -> id row = id obj -> owner row = owner obj ->
  map (fun r => (id r, owner r)) (rewrite_row id row l)
  = map (fun r => (id r, owner r)) l.
Proof.
  intros Hnd Hin Hid Ho. unfold rewrite_row. rewrite map_map. apply map_ext_in.
  intros r Hr. destruct (id r =? id row) eqn:E; [|reflexivity].
  apply Z.eqb_eq in E. rewrite Hid in E.
  rewrite (same_id_same_row l r obj Hnd Hr Hin E). now rewrite Hid, Ho.
Qed.

Lemma rewrite_keeps_others (u v : user_id) (obj row : R) (l : list R) :
  NoDup (map id l) -> In obj l -> id row = id obj ->
  owner obj = Some u -> owner row = Some u -> u <> v ->
  filter (fun r => owned_by v (owner r)) (rewrite_row id row l)
  = filter (fun r => owned_by v (owner r)) l.
Proof.
  intros Hnd Hin Hid Ho Ho' Hne. unfold rewrite_row.
  assert (H : forall r, In r l ->
              (if id r =? id row then row else r) = r
              \/ (owned_by v (owner (if id r =? id row then row else r)) = false
                  /\ owned_by v (owner r) = false)).
  { intros r Hr. destruct (id r =? id row) eqn:E; [right | now left].
    apply Z.eqb_eq in E. rewrite Hid in E.
    rewrite (same_id_same_row l r obj Hnd Hr Hin E).
    rewrite Ho, Ho'. split; now apply owned_by_other. }
  clear Hin Hnd. induction l as [|x r IH]; simpl; [reflexivity|].
  rewrite IH by (intros y Hy; apply H; now right).
  destruct (H x (or_introl eq_refl)) as [E|[E1 E2]].
  - now rewrite E.
  - now rewrite E1, E2.
Qed.

Lemma no_row_of_other (u v : user_id) (l : list R) (r : R) :
  NoDup (map id l) -> In r l -> owner r = Some v -> u <> v ->
  find (fun x => id x =? id r) (filter (fun x => owned_by u (owner x)) l) = None.
Proof.
  intros Hnd Hin Ho Hne.
  destruct (find _ _) as [x|] eqn:E; [exfalso | reflexivity].
  apply find_some in E. destruct E as [Hx Hid].
  apply filter_In in Hx. destruct Hx as [Hx Hox].
  apply Z.eqb_eq in Hid. apply owned_by_some in Hox.
  rewrite (same_id_same_row l x r Hnd Hx Hin Hid) in Hox. congruence.
Qed.

End Table.

(** ** Every query of a view is scoped to the caller *)

Import Views.

Ltac owned_conjunct :=
  cbv zeta; rewrite !andb_true_iff; tauto.

Lemma income_filter_owned (u : user_id) (q : Query) (r : Income) :
  income_filter u q r = true -> owned_by u (inc_user r) = true.
Proof. unfold income_filter. owned_conjunct. Qed.

Lemma expense_filter_owned (u : user_id) (q : Query) (r : Expense) :
  expense_filter u q r = true -> owned_by u (exp_user r) = true.
Proof. unfold expense_filter, expense_base. owned_conjunct. Qed.

Lemma budget_filter_owned (u : user_id) (q : Query) (r : Budget) :
  budget_filter u q r = true -> owned_by u (bud_user r) = true.
Proof. unfold budget_filter. owned_conjunct. Qed.

Lemma feed_income_filter_owned (env : Env) (u : user_id) (q : Query) (r : Income) :
  feed_income_filter env u q r = true -> owned_by u (inc_user r) = true.
Proof. unfold feed_income_filter. owned_conjunct. Qed.

Lemma feed_expense_filter_owned (env : Env) (u : user_id) (q : Query) (r : Expense) :
  feed_expense_filter env u q r = true -> owned_by u (exp_user r) = true.
Proof. unfold feed_expense_filter, feed_expense_base. owned_conjunct. Qed.

Lemma own_restrict (u : user_id) (db : DB) :
  own_incomes u (restrict u db) = own_incomes u db
  /\ own_expenses u (restrict u db) = own_expenses u db
  /\ own_budgets u (restrict u db) = own_budgets u db.
Proof.
  unfold own_incomes, own_expenses, own_budgets, restrict; simpl.
  repeat split; apply filter_idem.
Qed.

Lemma page_owned {R : Type} (owner : R -> option user_id) (key : R -> date * Z)
      (p : R -> bool) (u : user_id) (q : Query) (l : list R) :
  (forall r, p r = true -> owned_by u (owner r) = true) ->
  Forall (fun o => o = Some u)
         (map owner (page_of q (order_by_date_id key (filter p l)))).
Proof.
  intros Hp. apply Forall_forall. intros o Ho.
  apply in_map_iff in Ho. destruct Ho as (r & <- & Hr).
  apply page_of_incl in Hr. unfold order_by_date_id in Hr.
  apply sort_desc_In in Hr. apply filter_In in Hr. destruct Hr as [_ Hr].
  apply owned_by_some. now apply Hp.
Qed.

Lemma db_page_owners (u : user_id) (q : Query) (page : Response) :
  Forall (fun o => o = Some u) (response_owners page) ->
  Forall (fun o => o = Some u) (response_owners (db_page q page)).
Proof.
  intros H. unfold db_page. destruct (offset_fits q); [exact H | constructor].
Qed.

Lemma bounded_page_owners (u : user_id) (q : Query) (page : Response) :
  Forall (fun o => o = Some u) (response_owners page) ->
  Forall (fun o => o = Some u) (response_owners (bounded_page q page)).
Proof.
  intros H. unfold bounded_page.
  destruct (amounts_read q); [now apply db_page_owners | constructor].
Qed.

Lemma unique_append {R : Type} (id : R -> Z) (l : list R) (row : R) :
  NoDup (map id l) -> id row = fresh_id (map id l) -> NoDup (map id (l ++ [row])).
Proof.
  intros Hnd Hid. rewrite map_app; simpl.
  apply Permutation_NoDup with (id row :: map id l).
  - apply Permutation_cons_append.
  - constructor; [|exact Hnd]. rewrite Hid. apply fresh_id_new.
Qed.

(** *** Reads answer from the caller's rows alone *)

Lemma income_list_get_restrict (env : Env) (u : user_id) (q : Query) (db : DB) :
  snd (income_list env u (ListGET q) (restrict u db))
  = snd (income_list env u (ListGET q) db).
Proof.
  unfold income_list, restrict, own_incomes; simpl.
  now rewrite (filter_implied _ _ _ (income_filter_owned u q)).
Qed.

Lemma expense_list_get_restrict (env : Env) (u : user_id) (q : Query) (db : DB) :
  snd (expense_list env u (ListGET q) (restrict u db))
  = snd (expense_list env u (ListGET q) db).
Proof.
  unfold expense_list, restrict, own_expenses; simpl.
  now rewrite (filter_implied _ _ _ (expense_filter_owned u q)).
Qed.

Lemma budget_list_get_restrict (env : Env) (u : user_id) (q : Query) (db : DB) :
  snd (budget_list env u (ListGET q) (restrict u db))
  = snd (budget_list env u (ListGET q) db).
Proof.
  unfold budget_list, restrict, own_budgets; simpl.
  now rewrite (filter_implied _ _ _ (budget_filter_owned u q)).
Qed.

Lemma transaction_history_restrict (env : Env) (u : user_id) (q : Query) (db : DB) :
  transaction_history env u q (restrict u db) = transaction_history env u q db.
Proof.
  unfold transaction_history, feed_sorted, feed_rows, feed_income_rows,
    feed_expense_rows, restrict, own_incomes, own_expenses; simpl.
  rewrite (filter_implied _ _ _ (feed_income_filter_owned env u q)).
  now rewrite (filter_implied _ _ _ (feed_expense_filter_owned env u q)).
Qed.

Lemma insights_summary_restrict (env : Env) (u : user_id) (s : option string) (db : DB) :
  insights_summary env u s (restrict u db) = insights_summary env u s db.
Proof.
  destruct (own_restrict u db) as (Hi & He & Hb).
  unfold insights_summary, insights_rows. rewrite Hb. f_equal.
  apply map_ext. intros b. unfold insight_row, budget_actual. now rewrite Hi, He.
Qed.

Lemma filter_types_restrict (u : user_id) (db : DB) :
  filter_types u (restrict u db) = filter_types u db.
Proof.
  destruct (own_restrict u db) as (Hi & He & _).
  unfold filter_types, _present_type_slugs. now rewrite Hi, He.
Qed.

Lemma income_detail_restrict (u : user_id) (m : Method) (pk : Z) (body : IncomeBody)
      (db : DB) :
  snd (income_detail u m pk body (restrict u db)) = snd (income_detail u m pk body db).
Proof.
  destruct (own_restrict u db) as (Hi & _).
  unfold income_detail. rewrite Hi.
  destruct (find _ _); [|reflexivity].
  destruct m; try reflexivity;
    destruct (IncomeSerializer.is_valid _ body); reflexivity.
Qed.

Lemma expense_detail_restrict (u : user_id) (m : Method) (pk : Z) (body : ExpenseBody)
      (db : DB) :
  snd (expense_detail u m pk body (restrict u db)) = snd (expense_detail u m pk body db).
Proof.
  destruct (own_restrict u db) as (_ & He & _).
  unfold expense_detail. rewrite He.
  destruct (find _ _); [|reflexivity].
  destruct m; try reflexivity;
    destruct (ExpenseSerializer.is_valid _ body); reflexivity.
Qed.

Lemma reads_restrict (env : Env) (u : user_id) (req : Urls.Request) (db : DB) :
  creates req = false ->
  snd (Urls.dispatch env u req (restrict u db)) = snd (Urls.dispatch env u req db).
Proof.
  destruct req as [[q|b]|m pk b|[q|b]|m pk b|[q|b]|m pk b| |q|s]; simpl;
    try discriminate; intros _.
  - apply (income_list_get_restrict env).
  - apply income_detail_restrict.
  - apply (expense_list_get_restrict env).
  - apply expense_detail_restrict.
  - apply (budget_list_get_restrict env).
  - reflexivity.
  - apply filter_types_restrict.
  - apply transaction_history_restrict.
  - apply insights_summary_restrict.
Qed.

(** *** Writes touch the caller's rows alone *)

Lemma owners_grown_refl (u : user_id) (db : DB) : owners_grown u db db.
Proof.
  exists [], [], []. rewrite !app_nil_r. repeat split; constructor.
Qed.

Lemma effects_unchanged (u v : user_id) (req : Urls.Request) (db : DB) (resp : Response) :
  unique_ids db ->
  Forall (fun o => o = Some u) (response_owners resp) ->
  effects u v req db db resp.
Proof.
  intros Hu Hf. unfold effects, owners_kept.
  repeat split; auto using owners_grown_refl; apply Hu.
Qed.

Lemma owners_kept_grown (u : user_id) (db db' : DB) :
  owners_kept db db' -> owners_grown u db db'.
Proof.
  intros (H1 & H2 & H3). exists [], [], []. rewrite !app_nil_r.
  repeat split; auto.
Qed.

Lemma income_list_effects (env : Env) (u v : user_id) (req : ListRequest IncomeBody)
      (db : DB) :
  u <> v -> unique_ids db ->
  effects u v (Urls.IncomeList req) db (fst (income_list env u req db))
          (snd (income_list env u req db)).
Proof.
  intros Hne Hu. destruct req as [q|body]; simpl.
  - apply effects_unchanged; [exact Hu|]. apply bounded_page_owners. simpl.
    apply page_owned. apply income_filter_owned.
  - destruct (IncomeSerializer.is_valid false (income_payload body)) as [e|attrs]; simpl.
    + apply effects_unchanged; [exact Hu | simpl; constructor].
    + destruct Hu as (Hi & He & Hb). unfold effects. split; [|split; [|split; [|split]]].
      * unfold restrict, own_incomes, own_expenses, own_budgets; simpl. f_equal.
        now apply (append_keeps_others inc_user u v).
      * simpl. repeat constructor.
      * discriminate.
      * exists [(new_id_income db, Some u)], [], [].
        unfold income_owners, expense_owners, budget_owners; simpl.
        rewrite map_app, !app_nil_r. repeat split; repeat constructor.
      * repeat split; simpl; auto. now apply unique_append.
Qed.

Lemma expense_list_effects (env : Env) (u v : user_id) (req : ListRequest ExpenseBody)
      (db : DB) :
  u <> v -> unique_ids db ->
  effects u v (Urls.ExpenseList req) db (fst (expense_list env u req db))
          (snd (expense_list env u req db)).
Proof.
  intros Hne Hu. destruct req as [q|body]; simpl.
  - apply effects_unchanged; [exact Hu|]. apply bounded_page_owners. simpl.
    apply page_owned. apply expense_filter_owned.
  - destruct (ExpenseSerializer.is_valid false (expense_payload body)) as [e|attrs]; simpl.
    + apply effects_unchanged; [exact Hu | simpl; constructor].
    + destruct Hu as (Hi & He & Hb). unfold effects. split; [|split; [|split; [|split]]].
      * unfold restrict, own_incomes, own_expenses, own_budgets; simpl. f_equal.
        now apply (append_keeps_others exp_user u v).
      * simpl. repeat constructor.
      * discriminate.
      * exists [], [(new_id_expense db, Some u)], [].
        unfold income_owners, expense_owners, budget_owners; simpl.
        rewrite map_app, !app_nil_r. repeat split; repeat constructor.
      * repeat split; simpl; auto. now apply unique_append.
Qed.

Lemma budget_list_effects (env : Env) (u v : user_id) (req : ListRequest BudgetBody)
      (db : DB) :
  u <> v -> unique_ids db ->
  effects u v (Urls.BudgetList req) db (fst (budget_list env u req db))
          (snd (budget_list env u req db)).
Proof.
  intros Hne Hu. destruct req as [q|body]; simpl.
  - apply effects_unchanged; [exact Hu|]. apply db_page_owners. simpl.
    apply page_owned. apply budget_filter_owned.
  - destruct (BudgetSerializer.is_valid false body) as [e|attrs]; simpl.
    + apply effects_unchanged; [exact Hu | simpl; constructor].
    + destruct Hu as (Hi & He & Hb). unfold effects. split; [|split; [|split; [|split]]].
      * unfold restrict, own_incomes, own_expenses, own_budgets; simpl. f_equal.
        now apply (append_keeps_others bud_user u v).
      * simpl. repeat constructor.
      * discriminate.
      * exists [], [], [(new_id_budget db, Some u)].
        unfold income_owners, expense_owners, budget_owners; simpl.
        rewrite map_app, !app_nil_r. repeat split; repeat constructor.
      * repeat split; simpl; auto. now apply unique_append.
Qed.

Lemma income_detail_effects (u v : user_id) (m : Method) (pk : Z) (body : IncomeBody)
      (db : DB) :
  u <> v -> unique_ids db ->
  effects u v (Urls.IncomeDetail m pk body) db (fst (income_detail u m pk body db))
          (snd (income_detail u m pk body db)).
Proof.
  intros Hne Hu. unfold income_detail.
  destruct (find _ _) as [obj|] eqn:Hf; simpl;
    [|apply effects_unchanged; [exact Hu | simpl; constructor]].
  apply find_some in Hf. destruct Hf as [Hin _].
  apply filter_In in Hin. destruct Hin as [Hin Hown]. apply owned_by_some in Hown.
  assert (Hget : effects u v (Urls.IncomeDetail m pk body) db db (IncomeRow 200 obj)).
  { apply effects_unchanged; [exact Hu|]. simpl. now repeat constructor. }
  assert (Hput : forall partial,
             effects u v (Urls.IncomeDetail m pk body) db
               (fst match IncomeSerializer.is_valid partial body with
                    | inr attrs => (save_income (update_income obj attrs) db,
                                    IncomeRow 200 (update_income obj attrs))
                    | inl e => (db, Errors 400 e)
                    end)
               (snd match IncomeSerializer.is_valid partial body with
                    | inr attrs => (save_income (update_income obj attrs) db,
                                    IncomeRow 200 (update_income obj attrs))
                    | inl e => (db, Errors 400 e)
                    end)).
  { intros partial.
    destruct (IncomeSerializer.is_valid partial body) as [e|attrs]; simpl.
    - apply effects_unchanged; [exact Hu | simpl; constructor].
    - destruct Hu as (Hi & He & Hb).
      assert (Hk : owners_kept db (save_income (update_income obj attrs) db)).
      { unfold owners_kept, income_owners, expense_owners, budget_owners, save_income.
        cbn [incomes expenses budgets]. repeat split.
        apply (rewrite_keeps_owners inc_user inc_id obj (update_income obj attrs));
          auto. }
      unfold effects. split; [|split; [|split; [|split]]].
      + unfold restrict, own_incomes, own_expenses, own_budgets, save_income.
        cbn [incomes expenses budgets]. f_equal.
        now apply (rewrite_keeps_others inc_user inc_id u v obj
                                        (update_income obj attrs)).
      + simpl. now repeat constructor.
      + intros _. exact Hk.
      + now apply owners_kept_grown.
      + unfold unique_ids, save_income. cbn [incomes expenses budgets].
        repeat split; auto.
        pose proof (rewrite_keeps_ids inc_id (update_income obj attrs) (incomes db)) as E.
        unfold rewrite_row in E. now rewrite E. }
  destruct m; simpl; first [exact Hget | apply Hput].
Qed.

Lemma expense_detail_effects (u v : user_id) (m : Method) (pk : Z) (body : ExpenseBody)
      (db : DB) :
  u <> v -> unique_ids db ->
  effects u v (Urls.ExpenseDetail m pk body) db (fst (expense_detail u m pk body db))
          (snd (expense_detail u m pk body db)).
Proof.
  intros Hne Hu. unfold expense_detail.
  destruct (find _ _) as [obj|] eqn:Hf; simpl;
    [|apply effects_unchanged; [exact Hu | simpl; constructor]].
  apply find_some in Hf. destruct Hf as [Hin _].
  apply filter_In in Hin. destruct Hin as [Hin Hown]. apply owned_by_some in Hown.
  assert (Hget : effects u v (Urls.ExpenseDetail m pk body) db db (ExpenseRow 200 obj)).
  { apply effects_unchanged; [exact Hu|]. simpl. now repeat constructor. }
  assert (Hput : forall partial,
             effects u v (Urls.ExpenseDetail m pk body) db
               (fst match ExpenseSerializer.is_valid partial body with
                    | inr attrs => (save_expense (update_expense obj attrs) db,
                                    ExpenseRow 200 (update_expense obj attrs))
                    | inl e => (db, Errors 400 e)
                    end)
               (snd match ExpenseSerializer.is_valid partial body with
                    | inr attrs => (save_expense (update_expense obj attrs) db,
                                    ExpenseRow 200 (update_expense obj attrs))
                    | inl e => (db, Errors 400 e)
                    end)).
  { intros partial.
    destruct (ExpenseSerializer.is_valid partial body) as [e|attrs]; simpl.
    - apply effects_unchanged; [exact Hu | simpl; constructor].
    - destruct Hu as (Hi & He & Hb).
      assert (Hk : owners_kept db (save_expense (update_expense obj attrs) db)).
      { unfold owners_kept, income_owners, expense_owners, budget_owners, save_expense.
        cbn [incomes expenses budgets]. repeat split.
        apply (rewrite_keeps_owners exp_user exp_id obj (update_expense obj attrs));
          auto. }
      unfold effects. split; [|split; [|split; [|split]]].
      + unfold restrict, own_incomes, own_expenses, own_budgets, save_expense.
        cbn [incomes expenses budgets]. f_equal.
        now apply (rewrite_keeps_others exp_user exp_id u v obj
                                        (update_expense obj attrs)).
      + simpl. now repeat constructor.
      + intros _. exact Hk.
      + now apply owners_kept_grown.
      + unfold unique_ids, save_expense. cbn [incomes expenses budgets].
        repeat split; auto.
        pose proof (rewrite_keeps_ids exp_id (update_expense obj attrs) (expenses db)) as E.
        unfold rewrite_row in E. now rewrite E. }
  destruct m; simpl; first [exact Hget | apply Hput].
Qed.

(** ** Per-user isolation (C3) *)

Lemma dispatch_effects (env : Env) (u v : user_id) (req : Urls.Request) (db : DB) :
  u <> v -> unique_ids db ->
  effects u v req db (fst (Urls.dispatch env u req db)) (snd (Urls.dispatch env u req db)).
Proof.
  intros Hne Hu.
  destruct req as [req|m pk b|req|m pk b|req|m pk b| |q|s]; simpl.
  - now apply income_list_effects.
  - now apply income_detail_effects.
  - now apply expense_list_effects.
  - now apply expense_detail_effects.
  - now apply budget_list_effects.
  - apply effects_unchanged; [exact Hu | simpl; constructor].
  - apply effects_unchanged; [exact Hu | simpl; constructor].
  - apply effects_unchanged; [exact Hu|]. unfold transaction_history.
    destruct (amounts_read q); simpl; constructor.
  - apply effects_unchanged; [exact Hu | simpl; constructor].
Qed.

Example create_ignores_client_user :
  Views.income_list Sample.env 1 (ListPOST Sample.income_body) Sample.two_users
  = (mkDB (incomes Sample.two_users
           ++ [mkIncome 3 (Some 1) 1 (mkdate 2024 6 5) "Gift" "" (now Sample.env)])
          (expenses Sample.two_users) (budgets Sample.two_users),
     IncomeRow 201 (mkIncome 3 (Some 1) 1 (mkdate 2024 6 5) "Gift" "" (now Sample.env))).
Proof. reflexivity. Qed.

Example update_keeps_user :
  snd (Views.income_detail 1 PUT 1 Sample.income_body Sample.two_users)
  = IncomeRow 200 (mkIncome 1 (Some 1) 1 (mkdate 2024 6 5) "Gift" "" 0).
Proof. reflexivity. Qed.

(** C3: whatever request user A sends, and whatever its body says, the rows
    of another user B stay exactly as they were, every Income, Expense or
    Budget row in the response has A as its user (so a created row has, and
    a list shows A's rows only), and, for every request that does not insert
    a row, the response is the one A would get if the database held A's rows
    alone.  No request changes the user of a primary key: the (id, user)
    pairs of each table stay, and an insert adds one pair with user A.
    Detail access by A with the primary key of a row of B, with any method
    (GET, PUT, PATCH, DELETE) and any body, answers 404 and changes
    nothing; [budgets/<pk>/] answers 404 for every key.  Primary keys are
    unique before and stay unique. *)
Theorem per_user_isolation :
  forall (env : Env) (A B : user_id) (req : Urls.Request) (db : DB),
    A <> B -> unique_ids db ->
    let db' := fst (Urls.dispatch env A req db) in
    let resp := snd (Urls.dispatch env A req db) in
    restrict B db' = restrict B db
    /\ Forall (fun o => o = Some A) (response_owners resp)
    /\ (creates req = false ->
        snd (Urls.dispatch env A req (restrict A db)) = resp)
    /\ (creates req = false -> owners_kept db db')
    /\ owners_grown A db db'
    /\ unique_ids db'
    /\ (forall (r : Income) (m : Method) (body : IncomeBody),
           In r (incomes db) -> inc_user r = Some B ->
           Views.income_detail A m (inc_id r) body db = (db, NotFound))
    /\ (forall (r : Expense) (m : Method) (body : ExpenseBody),
           In r (expenses db) -> exp_user r = Some B ->
           Views.expense_detail A m (exp_id r) body db = (db, NotFound))
    /\ (forall (m : Method) (pk : Z) (body : BudgetBody),
           Urls.dispatch env A (Urls.BudgetDetail m pk body) db = (db, NotFound)).
Proof.
  intros env A B req db Hne Hu db' resp.
  destruct (dispatch_effects env A B req db Hne Hu) as (H1 & H2 & H3 & H4 & H5).
  split; [exact H1|]. split; [exact H2|].
  split; [now apply reads_restrict|].
  split; [exact H3|]. split; [exact H4|]. split; [exact H5|].
  destruct Hu as (Hi & He & Hb).
  split; [|split].
  - intros r m body Hin Ho. unfold Views.income_detail, Views.own_incomes.
    now rewrite (no_row_of_other inc_user inc_id A B (incomes db) r).
  - intros r m body Hin Ho. unfold Views.expense_detail, Views.own_expenses.
    now rewrite (no_row_of_other exp_user exp_id A B (expenses db) r).
  - reflexivity.
Qed.

Lemma per_user_isolation_witness :
  1 <> 2
  /\ unique_ids Sample.two_users
  /\ restrict 2 (fst (Urls.dispatch Sample.env 1
                        (Urls.IncomeDetail PUT 1 Sample.income_body) Sample.two_users))
     = restrict 2 Sample.two_users
  /\ Views.income_detail 1 DELETE 2 Sample.income_body Sample.two_users
     = (Sample.two_users, NotFound).
Proof.
  assert (Hne : (1 : user_id) <> 2) by lia.
  assert (Hu : unique_ids Sample.two_users).
  { unfold unique_ids; simpl. repeat split; repeat constructor; simpl; lia. }
  destruct (per_user_isolation Sample.env 1 2
              (Urls.IncomeDetail PUT 1 Sample.income_body) Sample.two_users Hne Hu)
    as (H1 & _ & _ & _ & _ & _ & H7 & _).
  split; [exact Hne|]. split; [exact Hu|]. split; [exact H1|].
  apply (H7 (mkIncome 2 (Some 2) 120000 (mkdate 2024 6 2) "Rent" "flat" 0)).
  - simpl. tauto.
  - reflexivity.
Defined.

(** ** Budget against actual (C2) *)

Lemma filter_filter {R : Type} (p q : R -> bool) (l : list R) :
  filter p (filter q l) = filter (fun r => q r && p r) l.
Proof.
  induction l as [|x r IH]; simpl; [reflexivity|].
  destruct (q x); simpl; [destruct (p x)|]; now rewrite IH.
Qed.

Lemma in_scope_window (env : Env) (scope_q : option string) (d : date) :
  in_scope env (dflt scope_q "month") d = scope_window env scope_q d.
Proof.
  unfold in_scope, scope_window. destruct scope_q as [s|]; simpl; [|reflexivity].
  now destruct (String.eqb s "month").
Qed.

Lemma budget_actual_stated (env : Env) (u : user_id) (scope_q : option string)
      (db : DB) (b : Budget) :
  budget_actual env u (dflt scope_q "month") db b
  = stated_actual (scope_window env scope_q) u db (bud_category b)
                  (Py.strip (bud_subcategory b)).
Proof.
  unfold budget_actual, stated_actual, own_expenses, own_incomes.
  destruct (String.eqb (Py.lower (Py.strip (bud_category b))) "expense").
  - rewrite filter_filter. do 2 f_equal. apply filter_ext. intros e.
    now rewrite in_scope_window, andb_assoc.
  - unfold Py.mem; simpl. rewrite orb_false_r.
    destruct (String.eqb _ "saving" || String.eqb _ "savings"); [|reflexivity].
    rewrite filter_filter. do 2 f_equal. apply filter_ext. intros i.
    now rewrite in_scope_window, andb_assoc.
Qed.

Example insights_food :
  insights_summary Sample.env 1 None Sample.food_budget
  = InsightRows [ mkInsightRow "Expense" "Food" (float_of 5000) (float_of 4000)
                               (float_sub (float_of 4000) (float_of 5000)) ].
Proof. reflexivity. Qed.

(** C2, as stated, fails on a budget whose stored subcategory carries white
    space: the view trims the subcategory before matching, so the budget
    [" Food"] counts the expense of category ["Food"], 40.00, while no
    expense category equals [" Food"] case-insensitively and the stated sum
    is 0. *)
Lemma padded_subcategory_is_trimmed :
  insights_summary Sample.env 1 (Some "all") Sample.padded_budget
  = InsightRows [ mkInsightRow "Expense" " Food" (float_of 5000) (float_of 4000)
                               (float_sub (float_of 4000) (float_of 5000)) ]
  /\ stated_actual (fun _ => true) 1 Sample.padded_budget "Expense" " Food" = 0
  /\ float_of 4000 <> float_of 0.
Proof. repeat split. discriminate. Qed.

(** C2, amended: the insights view answers one row per budget of the
    caller, in the order newest date first, with the budget's category and
    subcategory, [planned = float(amount)], [actual = float(a)] and
    [difference = float(a) - planned], where [a] is computed against the
    subcategory with its surrounding white space removed: for a category
    that is, trimmed and lowercased, [expense], the sum of the amounts of
    the caller's expenses whose category equals it case-insensitively; for
    [saving] or [savings], the sum of the amounts of the caller's incomes
    whose remark or source contains it case-insensitively; 0 for any other
    category.  The sums run over the current month for the scope [month]
    (the default) and over all dates for any other scope, [all] among them.
    For a subcategory stored without surrounding white space this is the
    sum against the stored subcategory itself. *)
Theorem insights_rows_stated :
  forall (env : Env) (u : user_id) (scope_q : option string) (db : DB),
    insights_summary env u scope_q db
    = InsightRows
        (map (fun b => stated_row b (stated_actual (scope_window env scope_q) u db
                                       (bud_category b) (Py.strip (bud_subcategory b))))
             (order_by_date_id budget_key (own_budgets u db)))
    /\ Permutation (order_by_date_id budget_key (own_budgets u db)) (own_budgets u db)
    /\ List.length (insights_rows env u scope_q db) = List.length (own_budgets u db)
    /\ (forall b : Budget, In b (own_budgets u db) <-> In b (budgets db) /\ bud_user b = Some u)
    /\ (forall d, scope_window env (Some "month") d = in_month (today env) d)
    /\ (forall d, scope_window env None d = in_month (today env) d)
    /\ (forall d, scope_window env (Some "all") d = true)
    /\ (forall b : Budget,
           Py.strip (bud_subcategory b) = bud_subcategory b ->
           budget_actual env u (dflt scope_q "month") db b
           = stated_actual (scope_window env scope_q) u db
                           (bud_category b) (bud_subcategory b)).
Proof.
  intros env u scope_q db.
  split; [|split; [|split; [|split; [|split; [|split; [|split]]]]]].
  - unfold insights_summary, insights_rows. f_equal. apply map_ext. intros b.
    unfold insight_row, stated_row. now rewrite budget_actual_stated.
  - apply sort_desc_perm.
  - unfold insights_rows. rewrite length_map. apply sort_desc_length.
  - intros b. unfold own_budgets. rewrite filter_In, owned_by_some. tauto.
  - reflexivity.
  - reflexivity.
  - reflexivity.
  - intros b Hb. rewrite budget_actual_stated. now rewrite Hb.
Qed.

Lemma insights_rows_stated_witness :
  Py.strip "Food" = "Food"
  /\ budget_actual Sample.env 1 "month" Sample.food_budget
       (mkBudget 1 (Some 1) "Expense" "Food" 5000 (mkdate 2024 6 1) 0)
     = stated_actual (scope_window Sample.env None) 1 Sample.food_budget "Expense" "Food".
Proof.
  split; [reflexivity|].
  destruct (insights_rows_stated Sample.env 1 None Sample.food_budget)
    as (_ & _ & _ & _ & _ & _ & _ & H).
  apply (H (mkBudget 1 (Some 1) "Expense" "Food" 5000 (mkdate 2024 6 1) 0)).
  reflexivity.
Defined.

(** ** Type slugs and stored labels (C8, C9, C10) *)

Lemma type_slug_cases (slug : string) :
  In slug type_slugs ->
  slug = "expense" \/ slug = "savings" \/ slug = "emis"
  \/ slug = "loans&advance" \/ slug = "other".
Proof. simpl. intuition. Qed.

(** The expense list compares the stored type with the labels of the slug
    as they are. *)
Lemma expense_slug_filter_exact (q : Query) (r : Expense) (slug : string) :
  In slug type_slugs -> q_type q = Some slug ->
  expense_slug_filter q r = Py.mem (exp_type r) (_labels_for_slug slug).
Proof.
  intros Hs Hq. unfold expense_slug_filter. rewrite Hq.
  destruct (type_slug_cases slug Hs) as [->|[->|[->|[->| ->]]]]; reflexivity.
Qed.

Lemma present_slug_in (u : user_id) (db : DB) (slug : string) :
  In slug type_slugs ->
  existsb (fun t => Py.mem t (_labels_for_slug slug))
          (map (fun r => Py.strip (exp_type r)) (own_expenses u db)) = true ->
  In slug (_present_type_slugs u db).
Proof.
  intros Hs Hp. unfold _present_type_slugs.
  set (present := fun s => existsb (fun t => Py.mem t (_labels_for_slug s))
                             (map (fun r => Py.strip (exp_type r)) (own_expenses u db))).
  assert (Hin : In slug (filter present type_slugs)).
  { apply filter_In. split; [exact Hs | exact Hp]. }
  fold type_slugs.
  set (income := match own_incomes u db with [] => [] | _ :: _ => ["income"] end).
  assert (Hin' : In slug (income ++ filter present type_slugs)%list)
    by (apply in_or_app; now right).
  right. destruct (income ++ filter present type_slugs)%list; [contradiction | exact Hin'].
Qed.

Lemma present_slug_inv (u : user_id) (db : DB) (slug : string) :
  In slug type_slugs -> In slug (_present_type_slugs u db) ->
  existsb (fun t => Py.mem t (_labels_for_slug slug))
          (map (fun r => Py.strip (exp_type r)) (own_expenses u db)) = true
  \/ (own_incomes u db = []
      /\ forall s, In s type_slugs ->
           existsb (fun t => Py.mem t (_labels_for_slug s))
                   (map (fun r => Py.strip (exp_type r)) (own_expenses u db)) = false).
Proof.
  intros Hs. unfold _present_type_slugs.
  set (present := fun s => existsb (fun t => Py.mem t (_labels_for_slug s))
                             (map (fun r => Py.strip (exp_type r)) (own_expenses u db))).
  fold type_slugs.
  destruct (own_incomes u db) as [|i rest] eqn:Ei; cbn [app].
  - destruct (filter present type_slugs) as [|s ss] eqn:Ef.
    + intros _. right. split; [reflexivity|].
      intros s Hin. destruct (present s) eqn:Ep; [|exact Ep].
      assert (H : In s (filter present type_slugs)) by (apply filter_In; now split).
      rewrite Ef in H. contradiction.
    + intros [E|H].
      * exfalso. subst slug. simpl in Hs. intuition discriminate.
      * left. rewrite <- Ef in H. apply filter_In in H. apply H.
  - intros [E|[E|H]].
    + exfalso. subst slug. simpl in Hs. intuition discriminate.
    + exfalso. subst slug. simpl in Hs. intuition discriminate.
    + left. apply filter_In in H. apply H.
Qed.

Lemma existsb_labels (u : user_id) (db : DB) (labels : list string) :
  existsb (fun t => Py.mem t labels)
          (map (fun r => Py.strip (exp_type r)) (own_expenses u db)) = true
  <-> exists r, In r (expenses db) /\ exp_user r = Some u
                /\ In (Py.strip (exp_type r)) labels.
Proof.
  rewrite existsb_exists. split.
  - intros (t & Ht & Hm). apply in_map_iff in Ht. destruct Ht as (r & <- & Hr).
    apply filter_In in Hr. destruct Hr as [Hr Ho].
    exists r. split; [exact Hr|]. split; [now apply owned_by_some | now apply mem_In].
  - intros (r & Hr & Ho & Hl). exists (Py.strip (exp_type r)). split.
    + apply in_map_iff. exists r. split; [reflexivity|].
      apply filter_In. split; [exact Hr | now apply owned_by_some].
    + now apply mem_In.
Qed.

(** C8: the code at the inputs where it leaves the claim.  The expense
    list, which goes through [SLUG_TO_TYPES], selects a row stored with any
    spelling listed for the slug; the unified feed compares the stored type
    with one label per slug and selects no row stored as ["Saving"] for
    [savings]; the spellings it misses are ["Expenses"], ["Saving"],
    ["EMI"], ["Loans & Advance"], ["Loan"] and ["Loans"]. *)
Theorem feed_misses_variant_labels :
  snd (expense_list Sample.env 1 (ListGET (Sample.typed Sample.june "savings"))
                    (Sample.one_expense "Saving"))
  = ExpensePage 1 [Sample.typed_expense "Saving"]
  /\ transaction_history Sample.env 1 (Sample.typed Sample.june "savings")
                         (Sample.one_expense "Saving")
     = FeedPage 0 []
  /\ forallb (fun sl : string * list string =>
                forallb (fun label =>
                           expense_slug_filter (Sample.typed Sample.june (fst sl))
                                               (Sample.typed_expense label))
                        (snd sl))
             SLUG_TO_TYPES = true
  /\ map (fun sl : string * list string =>
            filter (fun label =>
                      negb (feed_type_filter (fst sl) (Sample.typed_expense label)))
                   (snd sl))
         SLUG_TO_TYPES
     = [["Expenses"]; ["Saving"]; ["EMI"]; ["Loans & Advance"; "Loan"; "Loans"]; []].
Proof. repeat split. Qed.

(** The Slug Mapper compares labels letter for letter.  A slug of the five
    type slugs is in the caller's present-slugs list when one of the
    caller's expenses has a stored type that, trimmed, is one of the labels
    of the slug as [SLUG_TO_TYPES] spells them; conversely a slug in the
    list has such an expense, unless the caller has no income and no
    expense of any listed label, when the list is the full fall-back list.
    On the expense list a row passes the filter of a slug exactly when its
    stored type is one of the labels of the slug. *)
Lemma slug_mapper_exact_labels :
  forall (u : user_id) (db : DB) (slug : string),
    In slug type_slugs ->
    ((exists r, In r (expenses db) /\ exp_user r = Some u
                /\ In (Py.strip (exp_type r)) (_labels_for_slug slug)) ->
     In slug (_present_type_slugs u db))
    /\ (In slug (_present_type_slugs u db) ->
        (exists r, In r (expenses db) /\ exp_user r = Some u
                   /\ In (Py.strip (exp_type r)) (_labels_for_slug slug))
        \/ (own_incomes u db = []
            /\ forall s r, In s type_slugs -> In r (expenses db) ->
                           exp_user r = Some u ->
                           ~ In (Py.strip (exp_type r)) (_labels_for_slug s)))
    /\ (forall (q : Query) (r : Expense),
           q_type q = Some slug ->
           (expense_slug_filter q r = true <-> In (exp_type r) (_labels_for_slug slug))).
Proof.
  intros u db slug Hs. split; [|split].
  - intros H. apply present_slug_in; [exact Hs|]. now apply existsb_labels.
  - intros H. destruct (present_slug_inv u db slug Hs H) as [Hp|[Hi Hn]].
    + left. now apply existsb_labels.
    + right. split; [exact Hi|]. intros s r Hs' Hr Ho Hl.
      specialize (Hn s Hs').
      assert (Ht : existsb (fun t => Py.mem t (_labels_for_slug s))
                     (map (fun r => Py.strip (exp_type r)) (own_expenses u db)) = true).
      { apply existsb_labels. exists r. auto. }
      congruence.
  - intros q r Hq. rewrite (expense_slug_filter_exact q r slug Hs Hq). apply mem_In.
Qed.

(** C9: the code at an input where it leaves the claim.  User 1, who has an
    income, posts an expense of the type ["savings"]; [validate] lowercases
    the type for its own rule (so that ["SAVINGS"] without a category is
    refused) and the row is stored as typed.  The stored type differs from
    the label ["Savings"] in letter case only, yet [filters/types/] does not
    list the slug [savings] and the expense list filtered by [savings] does
    not show the row; the unified feed, which compares with [iexact], shows
    it for the same slug. *)
Theorem slug_mapper_misses_lowercase_label :
  expense_list Sample.env 1
    (ListPOST (Sample.expense_body (TText "savings") (TText "SIP")))
    (mkDB [Sample.salary] [] [])
  = (mkDB [Sample.salary]
          [mkExpense 1 (Some 1) (mkdate 2024 6 1) 4000 "" "savings" "SIP"
                     (now Sample.env)] [],
     ExpenseRow 201 (mkExpense 1 (Some 1) (mkdate 2024 6 1) 4000 "" "savings" "SIP"
                               (now Sample.env)))
  /\ ExpenseSerializer.validate
       (mkExpenseAttrs None None None (Some "SAVINGS") None)
     = inl category_error
  /\ iexact "savings" "Savings" = true
  /\ filter_types 1 (Sample.one_expense "savings") = Slugs ["all"; "income"]
  /\ snd (expense_list Sample.env 1 (ListGET (Sample.typed Sample.june "savings"))
                       (Sample.one_expense "savings"))
     = ExpensePage 0 []
  /\ transaction_history Sample.env 1 (Sample.typed Sample.june "savings")
                         (Sample.one_expense "savings")
     = FeedPage 1 [mkFeedRow 1 "savings" "monthly" "2024-06-03" "1000.00" "SIP"]
  /\ filter_types 1 (Sample.one_expense "Savings")
     = Slugs ["all"; "income"; "savings"]
  /\ snd (expense_list Sample.env 1 (ListGET (Sample.typed Sample.june "savings"))
                       (Sample.one_expense "Savings"))
     = ExpensePage 1 [Sample.typed_expense "Savings"].
Proof. repeat split. Qed.

(** With the slug [expense], the type tests of the two endpoints agree on
    a stored type that is neither the variant ["Expenses"] nor ["Expense"] in
    another letter case, and the feed selects the rows that the expense
    list selects within the feed's window of dates: from the [from]
    parameter, or the first day of the current month, to the [to]
    parameter, or today. *)
Lemma expense_type_filters_agree (r : Expense) :
  plain_expense_type (exp_type r) ->
  Py.mem (exp_type r) ["Expense"; "Expenses"; ""]
  = (iexact (exp_type r) "Expense" || String.eqb (exp_type r) "").
Proof.
  intros [Hne Hcase]. unfold Py.mem; simpl. rewrite orb_false_r.
  destruct (String.eqb_spec (exp_type r) "Expenses") as [E|_]; [contradiction|].
  destruct (iexact (exp_type r) "Expense") eqn:Ei.
  - rewrite (Hcase eq_refl). reflexivity.
  - destruct (String.eqb_spec (exp_type r) "Expense") as [E|_].
    + rewrite E in Ei. discriminate.
    + reflexivity.
Qed.

Lemma expense_slug_window (env : Env) (u : user_id) (q : Query) (r : Expense) :
  q_type q = Some "expense" ->
  plain_expense_type (exp_type r) ->
  feed_expense_filter env u q r
  = expense_filter u q r
    && date_leb (feed_from env q) (exp_date r)
    && date_leb (exp_date r) (feed_to env q).
Proof.
  intros Hq Hp. unfold expense_filter, feed_expense_filter.
  assert (Hslug : expense_slug_filter q r = Py.mem (exp_type r) ["Expense"; "Expenses"; ""]).
  { unfold expense_slug_filter. rewrite Hq. reflexivity. }
  assert (Hfeed : feed_type_filter (feed_type q) r
                  = (iexact (exp_type r) "Expense" || String.eqb (exp_type r) "")).
  { unfold feed_type. rewrite Hq. reflexivity. }
  rewrite Hslug, Hfeed, (expense_type_filters_agree r Hp).
  unfold expense_base, feed_expense_base, feed_from, feed_to.
  destruct (q_from q) as [d1|], (q_to q) as [d2|]; cbn [when dflt];
    repeat match goal with
           | |- context [?b && _] =>
               match b with
               | _ && _ => fail 1
               | _ => destruct b; cbn [andb]; try reflexivity
               end
           end.
Qed.

(** C10: the code at inputs where the two selections of the slug [expense]
    differ, under the same filters and a date range that is given.  Of the
    expenses of user 1, the one stored as ["expense"] is selected by the
    unified feed only, the one stored as ["Expenses"] by the expense list
    only, and the one stored as ["Expense"] by both. *)
Theorem expense_slug_selections_differ :
  snd (expense_list Sample.env 1 (ListGET (Sample.typed Sample.june "expense"))
                    (Sample.one_expense "expense"))
  = ExpensePage 0 []
  /\ transaction_history Sample.env 1 (Sample.typed Sample.june "expense")
                         (Sample.one_expense "expense")
     = FeedPage 1 [mkFeedRow 1 "expense" "monthly" "2024-06-03" "1000.00" "SIP"]
  /\ snd (expense_list Sample.env 1 (ListGET (Sample.typed Sample.june "expense"))
                       (Sample.one_expense "Expenses"))
     = ExpensePage 1 [Sample.typed_expense "Expenses"]
  /\ transaction_history Sample.env 1 (Sample.typed Sample.june "expense")
                         (Sample.one_expense "Expenses")
     = FeedPage 0 []
  /\ snd (expense_list Sample.env 1 (ListGET (Sample.typed Sample.june "expense"))
                       (Sample.one_expense "Expense"))
     = ExpensePage 1 [Sample.typed_expense "Expense"]
  /\ transaction_history Sample.env 1 (Sample.typed Sample.june "expense")
                         (Sample.one_expense "Expense")
     = FeedPage 1 [mkFeedRow 1 "Expense" "monthly" "2024-06-03" "1000.00" "SIP"]
  /\ filter (expense_filter 1 (Sample.typed Sample.june "expense"))
            (expenses (Sample.one_expense "expense"))
     <> filter (feed_expense_filter Sample.env 1 (Sample.typed Sample.june "expense"))
               (expenses (Sample.one_expense "expense")).
Proof. repeat split. discriminate. Qed.

(** * Further properties of the views *)

(** ** The order of the list views *)

Lemma key_ge_newer (a b : date * Z) : not_below Orm.newer a b <-> key_ge a b.
Proof.
  unfold not_below, Orm.newer, date_compare, key_ge.
  destruct a as [[ya ma da] ia], b as [[yb mb db] ib]; simpl.
  destruct (Z.compare_spec yb ya); destruct (Z.compare_spec mb ma);
    destruct (Z.compare_spec db da); try rewrite Z.ltb_ge;
    split; intros; try discriminate; try reflexivity; lia.
Qed.

Lemma key_ge_total (a b : date * Z) : key_ge a b \/ key_ge b a.
Proof. unfold key_ge. lia. Qed.

Lemma key_ge_trans (a b c : date * Z) : key_ge a b -> key_ge b c -> key_ge a c.
Proof. unfold key_ge. lia. Qed.

Lemma newer_asym (a b : date * Z) : Orm.newer a b = true -> Orm.newer b a = false.
Proof.
  intros H. apply (key_ge_newer a b).
  destruct (key_ge_total a b) as [Hab|Hba]; [exact Hab|].
  apply key_ge_newer in Hba. unfold not_below in Hba. congruence.
Qed.

Lemma strongly_sorted_skipn {R : Type} (P : R -> R -> Prop) (n : nat) (l : list R) :
  StronglySorted P l -> StronglySorted P (skipn n l).
Proof.
  revert l. induction n as [|n IH]; intros l H; [exact H|].
  destruct l as [|x r]; [exact H|]. simpl. apply IH. now inversion H.
Qed.

Lemma strongly_sorted_firstn {R : Type} (P : R -> R -> Prop) (n : nat) (l : list R) :
  StronglySorted P l -> StronglySorted P (firstn n l).
Proof.
  revert l. induction n as [|n IH]; intros l H; [constructor|].
  destruct l as [|x r]; [constructor|]. simpl.
  inversion H as [|? ? Hr Hx]; subst. constructor; [now apply IH|].
  apply Forall_forall. intros y Hy.
  rewrite Forall_forall in Hx. apply Hx.
  rewrite <- (firstn_skipn n r). apply in_or_app. now left.
Qed.

Lemma order_by_sorted {R : Type} (key : R -> date * Z) (l : list R) :
  StronglySorted (fun a b => key_ge (key a) (key b)) (Orm.order_by_date_id key l).
Proof.
  apply strongly_sorted_iff
    with (R := not_below (fun a b => Orm.newer (key a) (key b))).
  - intros a b H. now apply key_ge_newer.
  - apply sort_desc_strongly_sorted.
    + intros a b. apply newer_asym.
    + intros a b c Hab Hbc. apply (key_ge_newer (key a) (key c)).
      apply key_ge_trans with (key b); now apply key_ge_newer.
Qed.

(** What a page of an ordered query holds. *)
Lemma ordered_page {R : Type} (key : R -> date * Z) (p : R -> bool) (q : Query)
      (l : list R) :
  let results := Views.page_of q (Orm.order_by_date_id key (filter p l)) in
  (List.length results <= Z.to_nat (fst (Views._parse_pagination q)) <= 200)%nat
  /\ StronglySorted (fun a b => key_ge (key a) (key b)) results
  /\ (forall r, In r results -> In r l /\ p r = true)
  /\ List.length (Orm.order_by_date_id key (filter p l)) = List.length (filter p l).
Proof.
  intros results.
  destruct (parse_pagination_range q) as [[Hl1 Hl2] Ho].
  split; [|split; [|split]].
  - unfold results, Views.page_of.
    destruct (Views._parse_pagination q) as [lim off]; simpl in *.
    unfold Py.slice. rewrite length_firstn.
    replace (off + lim - off) with lim by lia. lia.
  - unfold results, Views.page_of.
    destruct (Views._parse_pagination q) as [lim off]. unfold Py.slice.
    apply strongly_sorted_firstn, strongly_sorted_skipn, order_by_sorted.
  - intros r Hr. unfold results in Hr. apply page_of_incl in Hr.
    unfold Orm.order_by_date_id in Hr. apply sort_desc_In in Hr.
    now apply filter_In in Hr.
  - unfold Orm.order_by_date_id. apply sort_desc_length.
Qed.

Lemma bounded_page_cases (q : Query) (page : Response) :
  Views.bounded_page q page
  = if Views.amounts_read q && Views.offset_fits q then page else ServerError.
Proof.
  unfold Views.bounded_page, Views.db_page.
  destruct (Views.amounts_read q), (Views.offset_fits q); reflexivity.
Qed.

Lemma offset_fits_iff (q : Query) :
  Views.offset_fits q = true <-> snd (Views._parse_pagination q) < 2 ^ 63.
Proof.
  unfold Views.offset_fits, Orm.max_offset. rewrite Z.leb_le. lia.
Qed.

(** X1: a GET on a list view ([income/], [expenses/], [budgets/]) leaves
    the database as it is.  It is answered 500 when the effective offset is
    2^63 or more, which the database refuses, and, on [income/] and
    [expenses/], when an amount bound is unreadable; every other request is
    answered with [count], the number of rows that pass the filters
    whatever the page asked for, and [results], at most [limit] (itself at
    most 200) rows, each a row of the table that passes the filters, in the
    order newest date first and, within a day, largest id first. *)
Theorem list_views_ordered_window :
  forall (env : Env) (u : user_id) (q : Query) (db : DB),
    (Z.to_nat (fst (Views._parse_pagination q)) <= 200)%nat
    /\ (Views.offset_fits q = true <-> snd (Views._parse_pagination q) < 2 ^ 63)
    /\ (Views.amounts_read q = true
        <-> q_min_amount q <> Orm.BadBound /\ q_max_amount q <> Orm.BadBound)
    /\ (exists results,
           Views.income_list env u (ListGET q) db
           = (db, if Views.amounts_read q && Views.offset_fits q
                  then IncomePage
                         (List.length (filter (Views.income_filter u q) (incomes db)))
                         results
                  else ServerError)
           /\ (List.length results <= Z.to_nat (fst (Views._parse_pagination q)))%nat
           /\ StronglySorted (fun a b => key_ge (Orm.income_key a) (Orm.income_key b))
                             results
           /\ forall r, In r results ->
                        In r (incomes db) /\ Views.income_filter u q r = true)
    /\ (exists results,
           Views.expense_list env u (ListGET q) db
           = (db, if Views.amounts_read q && Views.offset_fits q
                  then ExpensePage
                         (List.length (filter (Views.expense_filter u q) (expenses db)))
                         results
                  else ServerError)
           /\ (List.length results <= Z.to_nat (fst (Views._parse_pagination q)))%nat
           /\ StronglySorted (fun a b => key_ge (Orm.expense_key a) (Orm.expense_key b))
                             results
           /\ forall r, In r results ->
                        In r (expenses db) /\ Views.expense_filter u q r = true)
    /\ (exists results,
           Views.budget_list env u (ListGET q) db
           = (db, if Views.offset_fits q
                  then BudgetPage
                         (List.length (filter (Views.budget_filter u q) (budgets db)))
                         results
                  else ServerError)
           /\ (List.length results <= Z.to_nat (fst (Views._parse_pagination q)))%nat
           /\ StronglySorted (fun a b => key_ge (Orm.budget_key a) (Orm.budget_key b))
                             results
           /\ forall r, In r results ->
                        In r (budgets db) /\ Views.budget_filter u q r = true).
Proof.
  intros env u q db.
  split; [apply (ordered_page Orm.income_key (fun _ => true) q (incomes db))|].
  split; [apply offset_fits_iff|].
  split.
  { unfold Views.amounts_read.
    destruct (q_min_amount q), (q_max_amount q); simpl; split;
      intros H; try discriminate; try reflexivity;
      try (split; discriminate); destruct H as [H1 H2]; congruence. }
  split; [|split].
  - destruct (ordered_page Orm.income_key (Views.income_filter u q) q (incomes db))
      as ([H1 _] & H2 & H3 & H4).
    eexists. unfold Views.income_list. rewrite bounded_page_cases, H4.
    split; [reflexivity|]. auto.
  - destruct (ordered_page Orm.expense_key (Views.expense_filter u q) q (expenses db))
      as ([H1 _] & H2 & H3 & H4).
    eexists. unfold Views.expense_list. rewrite bounded_page_cases, H4.
    split; [reflexivity|]. auto.
  - destruct (ordered_page Orm.budget_key (Views.budget_filter u q) q (budgets db))
      as ([H1 _] & H2 & H3 & H4).
    eexists. unfold Views.budget_list, Views.db_page. rewrite H4.
    split; [reflexivity|]. auto.
Qed.

(** ** Paging through a list *)

Lemma firstn_add {R : Type} (n m : nat) (l : list R) :
  firstn (n + m) l = (firstn n l ++ firstn m (skipn n l))%list.
Proof.
  revert l. induction n as [|n IH]; intros l; [reflexivity|].
  destruct l as [|x r]; simpl.
  - now rewrite firstn_nil.
  - now rewrite IH.
Qed.

Lemma slice_tile {R : Type} (rows : list R) (l l' o : Z) :
  0 <= l -> 0 <= l' -> 0 <= o ->
  (Py.slice rows o (o + l) ++ Py.slice rows (o + l) (o + l + l'))%list
  = Py.slice rows o (o + (l + l')).
Proof.
  intros Hl Hl' Ho. unfold Py.slice.
  replace (o + l - o) with l by lia.
  replace (o + l + l' - (o + l)) with l' by lia.
  replace (o + (l + l') - o) with (l + l') by lia.
  rewrite (Z2Nat.inj_add l l'), firstn_add by lia.
  rewrite (Z2Nat.inj_add o l), Nat.add_comm, <- skipn_skipn by lia.
  reflexivity.
Qed.

Lemma page_of_read {R : Type} (q : Query) (sl so : string) (l o : Z) (rows : list R) :
  Py.int sl = Some l -> Py.int so = Some o -> 1 <= l <= 200 -> 0 <= o ->
  Views.page_of (with_page q (Some sl) (Some so)) rows = Py.slice rows o (o + l).
Proof.
  intros Hl Ho Hr Hp. unfold Views.page_of, Views._parse_pagination; simpl.
  rewrite Hl, Ho.
  replace (Z.max 1 (Z.min l 200)) with l by lia.
  replace (Z.max 0 o) with o by lia. reflexivity.
Qed.

(** X2: paging neither skips nor repeats.  When the page of [l] rows from
    offset [o] is followed by the page of [l'] rows from offset [o + l], the
    two pages together are the page of [l + l'] rows from offset [o], as
    long as [l + l'] is within the cap of 200; this holds for any row list,
    and so for the unified feed, whose three answers carry the same
    [count] (or are, all three, the 500 of an unreadable amount bound).  A
    page that starts at or after the end of the list is empty. *)
Theorem pages_tile :
  forall (q : Query) (sl sl' sll so so' : string) (l l' o : Z),
    Py.int sl = Some l -> Py.int sl' = Some l' -> Py.int sll = Some (l + l') ->
    Py.int so = Some o -> Py.int so' = Some (o + l) ->
    1 <= l -> 1 <= l' -> l + l' <= 200 -> 0 <= o ->
    (forall (R : Type) (rows : list R),
        (Views.page_of (with_page q (Some sl) (Some so)) rows
         ++ Views.page_of (with_page q (Some sl') (Some so')) rows)%list
        = Views.page_of (with_page q (Some sll) (Some so)) rows
        /\ ((List.length rows <= Z.to_nat o)%nat ->
            Views.page_of (with_page q (Some sl) (Some so)) rows = []))
    /\ (forall (env : Env) (u : user_id) (db : DB),
           exists (n : nat) (p1 p2 p3 : list FeedRow),
             Views.transaction_history env u (with_page q (Some sl) (Some so)) db
             = (if Views.amounts_read q then FeedPage n p1 else ServerError)
             /\ Views.transaction_history env u (with_page q (Some sl') (Some so')) db
                = (if Views.amounts_read q then FeedPage n p2 else ServerError)
             /\ Views.transaction_history env u (with_page q (Some sll) (Some so)) db
                = (if Views.amounts_read q then FeedPage n p3 else ServerError)
             /\ (p1 ++ p2)%list = p3).
Proof.
  intros q sl sl' sll so so' l l' o Hl Hl' Hll Ho Ho' H1 H1' H200 H0.
  assert (Htile : forall (R : Type) (rows : list R),
             (Views.page_of (with_page q (Some sl) (Some so)) rows
              ++ Views.page_of (with_page q (Some sl') (Some so')) rows)%list
             = Views.page_of (with_page q (Some sll) (Some so)) rows).
  { intros R rows.
    rewrite (page_of_read q sl so l o), (page_of_read q sl' so' l' (o + l)),
      (page_of_read q sll so (l + l') o) by (auto; lia).
    apply slice_tile; lia. }
  split.
  - intros R rows. split; [apply Htile|].
    intros Hlen. rewrite (page_of_read q sl so l o) by (auto; lia).
    unfold Py.slice. rewrite skipn_all2 by exact Hlen. apply firstn_nil.
  - intros env u db.
    exists (List.length (Views.feed_sorted env u q db)).
    do 3 eexists. unfold Views.transaction_history.
    change (Views.feed_sorted env u (with_page q (Some sl) (Some so)) db)
      with (Views.feed_sorted env u q db).
    change (Views.feed_sorted env u (with_page q (Some sl') (Some so')) db)
      with (Views.feed_sorted env u q db).
    change (Views.feed_sorted env u (with_page q (Some sll) (Some so)) db)
      with (Views.feed_sorted env u q db).
    change (Views.amounts_read (with_page q (Some sl) (Some so)))
      with (Views.amounts_read q).
    change (Views.amounts_read (with_page q (Some sl') (Some so')))
      with (Views.amounts_read q).
    change (Views.amounts_read (with_page q (Some sll) (Some so)))
      with (Views.amounts_read q).
    split; [reflexivity|]. split; [reflexivity|]. split; [reflexivity|].
    apply Htile.
Qed.

Lemma pages_tile_witness :
  Py.int "2" = Some 2
  /\ (Views.page_of (with_page no_query (Some "2") (Some "1")) [10; 20; 30; 40; 50; 60]
      ++ Views.page_of (with_page no_query (Some "3") (Some "3")) [10; 20; 30; 40; 50; 60])%list
     = Views.page_of (with_page no_query (Some "5") (Some "1")) [10; 20; 30; 40; 50; 60].
Proof.
  split; [reflexivity|].
  assert (H1 : 1 <= 2) by lia. assert (H2 : 1 <= 3) by lia.
  assert (H3 : 2 + 3 <= 200) by lia. assert (H4 : 0 <= 1) by lia.
  pose proof (pages_tile no_query "2" "3" "5" "1" "3" 2 3 1
                eq_refl eq_refl eq_refl eq_refl eq_refl H1 H2 H3 H4) as [H _].
  apply (H Z [10; 20; 30; 40; 50; 60]).
Defined.

(** ** Create, update and look up *)

Lemma find_unique {R : Type} (id : R -> Z) (p : R -> bool) (l : list R) (x : R) :
  NoDup (map id l) -> In x l -> p x = true ->
  find (fun r => id r =? id x) (filter p l) = Some x.
Proof.
  intros Hnd Hin Hp.
  destruct (find (fun r => id r =? id x) (filter p l)) as [y|] eqn:E.
  - apply find_some in E. destruct E as [Hy Hid].
    apply filter_In in Hy. destruct Hy as [Hy _]. apply Z.eqb_eq in Hid.
    f_equal. now apply (same_id_same_row id l y x).
  - exfalso. assert (Hx : In x (filter p l)) by (apply filter_In; now split).
    pose proof (find_none _ _ E x Hx) as H. simpl in H.
    rewrite Z.eqb_refl in H. discriminate.
Qed.

Lemma rewrite_row_in {R : Type} (id : R -> Z) (obj row : R) (l : list R) :
  In obj l -> id row = id obj -> In row (rewrite_row id row l).
Proof.
  intros Hin Hid. unfold rewrite_row. apply in_map_iff.
  exists obj. split; [|exact Hin]. now rewrite Hid, Z.eqb_refl.
Qed.

Lemma rewrite_row_others {R : Type} (id : R -> Z) (row : R) (l : list R) (r : R) :
  In r l -> id r <> id row -> In r (rewrite_row id row l).
Proof.
  intros Hin Hne. unfold rewrite_row. apply in_map_iff.
  exists r. split; [|exact Hin].
  destruct (Z.eqb_spec (id r) (id row)); [contradiction | reflexivity].
Qed.

Lemma rewrite_row_same {R : Type} (id : R -> Z) (obj : R) (l : list R) :
  NoDup (map id l) -> In obj l -> rewrite_row id obj l = l.
Proof.
  intros Hnd Hin. unfold rewrite_row.
  rewrite <- (map_id l) at 2. apply map_ext_in. intros r Hr.
  destruct (Z.eqb_spec (id r) (id obj)) as [E|_]; [|reflexivity].
  symmetry. now apply (same_id_same_row id l r obj).
Qed.

Lemma income_filter_no_query (u : user_id) (r : Income) :
  Views.income_filter u no_query r = owned_by u (inc_user r).
Proof. unfold Views.income_filter; simpl. now rewrite !andb_true_r. Qed.

Lemma expense_filter_no_query (u : user_id) (r : Expense) :
  Views.expense_filter u no_query r = owned_by u (exp_user r).
Proof.
  unfold Views.expense_filter, Views.expense_base, Views.expense_slug_filter; simpl.
  now rewrite !andb_true_r.
Qed.

(** X3: a successful create answers 201 with the stored row: the row is
    appended to its table, belongs to the caller, has a primary key above
    every key the table held, and is what a detail GET of that key answers
    next; the caller's unfiltered list counts one row more.  The other
    tables are untouched. *)
Theorem create_then_lookup :
  forall (env : Env) (u : user_id) (db : DB),
    unique_ids db ->
    (forall (body : IncomeBody) (db' : DB) (s : Z) (row : Income),
        Views.income_list env u (ListPOST body) db = (db', IncomeRow s row) ->
        s = 201
        /\ db' = mkDB (incomes db ++ [row]) (expenses db) (budgets db)
        /\ inc_user row = Some u
        /\ (forall r, In r (incomes db) -> inc_id r < inc_id row)
        /\ (forall body', Views.income_detail u GET (inc_id row) body' db'
                          = (db', IncomeRow 200 row))
        /\ List.length (filter (Views.income_filter u no_query) (incomes db'))
           = S (List.length (filter (Views.income_filter u no_query) (incomes db))))
    /\ (forall (body : ExpenseBody) (db' : DB) (s : Z) (row : Expense),
           Views.expense_list env u (ListPOST body) db = (db', ExpenseRow s row) ->
           s = 201
           /\ db' = mkDB (incomes db) (expenses db ++ [row]) (budgets db)
           /\ exp_user row = Some u
           /\ (forall r, In r (expenses db) -> exp_id r < exp_id row)
           /\ (forall body', Views.expense_detail u GET (exp_id row) body' db'
                             = (db', ExpenseRow 200 row))
           /\ List.length (filter (Views.expense_filter u no_query) (expenses db'))
              = S (List.length (filter (Views.expense_filter u no_query) (expenses db)))).
Proof.
  intros env u db (Hi & He & Hb). split.
  - intros body db' s row. unfold Views.income_list.
    destruct (IncomeSerializer.is_valid false (Views.income_payload body)) as [e|attrs];
      [discriminate|].
    intros H. inversion H; subst; clear H.
    set (row := create_income (Views.new_id_income db) u (now env) attrs).
    assert (Hown : owned_by u (inc_user row) = true) by (apply owned_by_some; reflexivity).
    split; [reflexivity|]. split; [reflexivity|]. split; [reflexivity|].
    split; [|split].
    + intros r Hr. apply fresh_id_above. now apply in_map.
    + intros body'. unfold Views.income_detail, Views.own_incomes.
      cbn [incomes].
      rewrite (find_unique inc_id (fun r => owned_by u (inc_user r))
                           (incomes db ++ [row]) row); auto.
      * now apply unique_append.
      * apply in_or_app. right. now left.
    + cbn [incomes]. rewrite filter_app, length_app.
      cbn [filter]. rewrite (income_filter_no_query u row), Hown. simpl. lia.
  - intros body db' s row. unfold Views.expense_list.
    destruct (ExpenseSerializer.is_valid false (Views.expense_payload body)) as [e|attrs];
      [discriminate|].
    intros H. inversion H; subst; clear H.
    set (row := create_expense (Views.new_id_expense db) u (now env) attrs).
    assert (Hown : owned_by u (exp_user row) = true) by (apply owned_by_some; reflexivity).
    split; [reflexivity|]. split; [reflexivity|]. split; [reflexivity|].
    split; [|split].
    + intros r Hr. apply fresh_id_above. now apply in_map.
    + intros body'. unfold Views.expense_detail, Views.own_expenses.
      cbn [expenses].
      rewrite (find_unique exp_id (fun r => owned_by u (exp_user r))
                           (expenses db ++ [row]) row); auto.
      * now apply unique_append.
      * apply in_or_app. right. now left.
    + cbn [expenses]. rewrite filter_app, length_app.
      cbn [filter]. rewrite (expense_filter_no_query u row), Hown. simpl. lia.
Qed.

Lemma create_then_lookup_witness :
  unique_ids Sample.two_users
  /\ Views.income_detail 1 GET 3 empty_income_body
       (fst (Views.income_list Sample.env 1 (ListPOST Sample.income_body) Sample.two_users))
     = (fst (Views.income_list Sample.env 1 (ListPOST Sample.income_body) Sample.two_users),
        IncomeRow 200 (mkIncome 3 (Some 1) 1 (mkdate 2024 6 5) "Gift" "" (now Sample.env))).
Proof.
  assert (Hu : unique_ids Sample.two_users).
  { unfold unique_ids; simpl. repeat split; repeat constructor; simpl; lia. }
  split; [exact Hu|].
  destruct (create_then_lookup Sample.env 1 Sample.two_users Hu) as [H _].
  destruct (H Sample.income_body _ _ _ eq_refl) as (_ & _ & _ & _ & Hget & _).
  apply (Hget empty_income_body).
Defined.

(** X4: a successful update (any method but GET on a detail view) answers
    200 with the stored row: the row keeps its primary key and its user, a
    detail GET of the key answers it next, every row of another key is still
    in the table, the table has as many rows as before, and the other tables
    are untouched. *)
Theorem update_then_lookup :
  forall (u : user_id) (m : Method) (pk : Z) (db : DB),
    unique_ids db -> m <> GET ->
    (forall (body : IncomeBody) (db' : DB) (s : Z) (row : Income),
        Views.income_detail u m pk body db = (db', IncomeRow s row) ->
        s = 200 /\ inc_id row = pk /\ inc_user row = Some u
        /\ (forall body', Views.income_detail u GET pk body' db' = (db', IncomeRow 200 row))
        /\ (forall r, In r (incomes db) -> inc_id r <> pk -> In r (incomes db'))
        /\ List.length (incomes db') = List.length (incomes db)
        /\ expenses db' = expenses db /\ budgets db' = budgets db)
    /\ (forall (body : ExpenseBody) (db' : DB) (s : Z) (row : Expense),
           Views.expense_detail u m pk body db = (db', ExpenseRow s row) ->
           s = 200 /\ exp_id row = pk /\ exp_user row = Some u
           /\ (forall body', Views.expense_detail u GET pk body' db'
                             = (db', ExpenseRow 200 row))
           /\ (forall r, In r (expenses db) -> exp_id r <> pk -> In r (expenses db'))
           /\ List.length (expenses db') = List.length (expenses db)
           /\ incomes db' = incomes db /\ budgets db' = budgets db).
Proof.
  intros u m pk db (Hi & He & Hb) Hm. split.
  - intros body db' s row. unfold Views.income_detail.
    destruct (find _ _) as [obj|] eqn:Hf; [|discriminate].
    apply find_some in Hf. destruct Hf as [Hin Hpk].
    apply filter_In in Hin. destruct Hin as [Hin Hown].
    apply Z.eqb_eq in Hpk. apply owned_by_some in Hown.
    assert (Hrow : forall attrs,
               (Views.save_income (update_income obj attrs) db,
                IncomeRow 200 (update_income obj attrs)) = (db', IncomeRow s row) ->
               s = 200 /\ inc_id row = pk /\ inc_user row = Some u
               /\ (forall body', Views.income_detail u GET pk body' db'
                                 = (db', IncomeRow 200 row))
               /\ (forall r, In r (incomes db) -> inc_id r <> pk -> In r (incomes db'))
               /\ List.length (incomes db') = List.length (incomes db)
               /\ expenses db' = expenses db /\ budgets db' = budgets db).
    { intros attrs H. inversion H; subst; clear H.
      set (row := update_income obj attrs).
      split; [reflexivity|]. split; [reflexivity|]. split; [exact Hown|].
      split; [|split; [|split; [|split]]].
      - intros body'. unfold Views.income_detail, Views.own_incomes, Views.save_income.
        cbn [incomes].
        fold (rewrite_row inc_id row (incomes db)).
        change (inc_id obj) with (inc_id row).
        rewrite (find_unique inc_id (fun r => owned_by u (inc_user r))
                             (rewrite_row inc_id row (incomes db)) row).
        + reflexivity.
        + now rewrite rewrite_keeps_ids.
        + now apply (rewrite_row_in inc_id obj).
        + now apply owned_by_some.
      - intros r Hr Hne. now apply (rewrite_row_others inc_id row).
      - unfold Views.save_income; cbn [incomes]. apply length_map.
      - reflexivity.
      - reflexivity. }
    destruct m; try congruence;
      (destruct (IncomeSerializer.is_valid _ body) as [e|attrs]; [discriminate|]);
      apply Hrow.
  - intros body db' s row. unfold Views.expense_detail.
    destruct (find _ _) as [obj|] eqn:Hf; [|discriminate].
    apply find_some in Hf. destruct Hf as [Hin Hpk].
    apply filter_In in Hin. destruct Hin as [Hin Hown].
    apply Z.eqb_eq in Hpk. apply owned_by_some in Hown.
    assert (Hrow : forall attrs,
               (Views.save_expense (update_expense obj attrs) db,
                ExpenseRow 200 (update_expense obj attrs)) = (db', ExpenseRow s row) ->
               s = 200 /\ exp_id row = pk /\ exp_user row = Some u
               /\ (forall body', Views.expense_detail u GET pk body' db'
                                 = (db', ExpenseRow 200 row))
               /\ (forall r, In r (expenses db) -> exp_id r <> pk -> In r (expenses db'))
               /\ List.length (expenses db') = List.length (expenses db)
               /\ incomes db' = incomes db /\ budgets db' = budgets db).
    { intros attrs H. inversion H; subst; clear H.
      set (row := update_expense obj attrs).
      split; [reflexivity|]. split; [reflexivity|]. split; [exact Hown|].
      split; [|split; [|split; [|split]]].
      - intros body'. unfold Views.expense_detail, Views.own_expenses, Views.save_expense.
        cbn [expenses].
        fold (rewrite_row exp_id row (expenses db)).
        change (exp_id obj) with (exp_id row).
        rewrite (find_unique exp_id (fun r => owned_by u (exp_user r))
                             (rewrite_row exp_id row (expenses db)) row).
        + reflexivity.
        + now rewrite rewrite_keeps_ids.
        + now apply (rewrite_row_in exp_id obj).
        + now apply owned_by_some.
      - intros r Hr Hne. now apply (rewrite_row_others exp_id row).
      - unfold Views.save_expense; cbn [expenses]. apply length_map.
      - reflexivity.
      - reflexivity. }
    destruct m; try congruence;
      (destruct (ExpenseSerializer.is_valid _ body) as [e|attrs]; [discriminate|]);
      apply Hrow.
Qed.

Lemma update_then_lookup_witness :
  unique_ids Sample.two_users /\ PUT <> GET
  /\ Views.income_detail 1 GET 1 empty_income_body
       (fst (Views.income_detail 1 PUT 1 Sample.income_body Sample.two_users))
     = (fst (Views.income_detail 1 PUT 1 Sample.income_body Sample.two_users),
        IncomeRow 200 (mkIncome 1 (Some 1) 1 (mkdate 2024 6 5) "Gift" "" 0)).
Proof.
  assert (Hu : unique_ids Sample.two_users).
  { unfold unique_ids; simpl. repeat split; repeat constructor; simpl; lia. }
  assert (Hm : PUT <> GET) by discriminate.
  split; [exact Hu|]. split; [exact Hm|].
  destruct (update_then_lookup 1 PUT 1 Sample.two_users Hu Hm) as [H _].
  destruct (H Sample.income_body _ _ _ eq_refl) as (_ & _ & _ & Hget & _).
  apply (Hget empty_income_body).
Defined.

Lemma validate_type_default (attrs a : ExpenseAttrs) :
  ExpenseSerializer.validate attrs = inr a ->
  Py.strip (Py.opt_or (ea_type attrs) "") = "" ->
  ea_type a = Some "Expense".
Proof.
  unfold ExpenseSerializer.validate. cbv zeta. intros H Ht. rewrite Ht in H.
  change (Py.lower (Py.or_else "" "Expense")) with "expense" in H.
  change (String.eqb "expense" "other") with false in H. cbv iota in H.
  destruct (Py.mem "expense" ExpenseSerializer.category_required
            && negb (Py.truthy (Py.strip (Py.opt_or (ea_category attrs) ""))));
    inversion H; reflexivity.
Qed.

(** X5: a PATCH that gives no field is a no-op on an income, answered 200
    with the row as it is, while it is refused on every expense, with the
    400 of the category rule: [validate] is handed the submitted fields only
    and finds neither type nor category.  The same empty body sent with PUT
    to an income is refused with 400 naming [amount] and [date]. *)
Theorem empty_patch :
  forall (u : user_id) (pk : Z) (db : DB),
    unique_ids db ->
    (forall obj : Income,
        find (fun r => inc_id r =? pk) (Views.own_incomes u db) = Some obj ->
        Views.income_detail u PATCH pk empty_income_body db = (db, IncomeRow 200 obj)
        /\ Views.income_detail u PUT pk empty_income_body db
           = (db, Errors 400 [("amount", [Rejected]); ("date", [Rejected])]))
    /\ (forall obj : Expense,
           find (fun r => exp_id r =? pk) (Views.own_expenses u db) = Some obj ->
           Views.expense_detail u PATCH pk empty_expense_body db
           = (db, Errors 400 category_error)).
Proof.
  intros u pk db (Hi & He & Hb). split.
  - intros obj Hf. unfold Views.income_detail. rewrite Hf. split; [|reflexivity].
    cbn. apply find_some in Hf. destruct Hf as [Hin _].
    apply filter_In in Hin. destruct Hin as [Hin _].
    assert (Hobj : update_income obj (mkIncomeAttrs None None None None) = obj)
      by now destruct obj.
    rewrite Hobj. f_equal. unfold Views.save_income.
    fold (rewrite_row inc_id obj (incomes db)).
    rewrite (rewrite_row_same inc_id obj (incomes db) Hi Hin). now destruct db.
  - intros obj Hf. unfold Views.expense_detail. rewrite Hf. reflexivity.
Qed.

Lemma empty_patch_witness :
  unique_ids Sample.two_users
  /\ Views.income_detail 1 PATCH 1 empty_income_body Sample.two_users
     = (Sample.two_users,
        IncomeRow 200 (mkIncome 1 (Some 1) 850000 (mkdate 2024 6 1) "Salary" "" 0))
  /\ Views.expense_detail 1 PATCH 2 empty_expense_body Sample.two_users
     = (Sample.two_users, Errors 400 category_error).
Proof.
  assert (Hu : unique_ids Sample.two_users).
  { unfold unique_ids; simpl. repeat split; repeat constructor; simpl; lia. }
  destruct (empty_patch 1 1 Sample.two_users Hu) as [H1 _].
  destruct (empty_patch 1 2 Sample.two_users Hu) as [_ H2].
  split; [exact Hu|]. split.
  - apply (H1 (mkIncome 1 (Some 1) 850000 (mkdate 2024 6 1) "Salary" "" 0)). reflexivity.
  - apply (H2 (mkExpense 2 (Some 1) (mkdate 2024 6 3) 2500 "bus" "Expense" "Travel" 0)).
    reflexivity.
Defined.

(** X6: an update of an expense that gives no type, or a blank one, stores
    the type ["Expense"] whatever type the row had: [validate] sets [type]
    from the submitted data alone, also on a PATCH. *)
Theorem update_without_type_resets_type :
  forall (u : user_id) (m : Method) (pk : Z) (body : ExpenseBody) (db db' : DB)
         (s : Z) (row : Expense),
    m <> GET ->
    Py.strip (text_or (eb_type body) "") = "" ->
    Views.expense_detail u m pk body db = (db', ExpenseRow s row) ->
    exp_type row = "Expense" /\ In row (expenses db').
Proof.
  intros u m pk body db db' s row Hm Ht. unfold Views.expense_detail.
  destruct (find _ _) as [obj|] eqn:Hf; [|discriminate].
  assert (Hrow : forall partial attrs,
             ExpenseSerializer.is_valid partial body = inr attrs ->
             (Views.save_expense (update_expense obj attrs) db,
              ExpenseRow 200 (update_expense obj attrs)) = (db', ExpenseRow s row) ->
             exp_type row = "Expense" /\ In row (expenses db')).
  { intros partial attrs Hv H. inversion H; subst; clear H.
    split; [|eapply save_expense_stores; [exact Hf | reflexivity]].
    unfold ExpenseSerializer.is_valid in Hv.
    destruct (ExpenseSerializer.to_internal_value partial body) as [e|a0] eqn:E0;
      [discriminate|].
    destruct (to_internal_value_inv _ _ _ E0) as [Hty _].
    assert (Hs : Py.strip (Py.opt_or (ea_type a0) "") = "").
    { rewrite Hty. destruct (eb_type body) as [| |t]; simpl in *; try reflexivity.
      rewrite or_else_empty in Ht. now rewrite or_else_empty, strip_idem. }
    simpl. now rewrite (validate_type_default a0 attrs Hv Hs). }
  destruct m; try congruence;
    (destruct (ExpenseSerializer.is_valid _ body) as [e|attrs] eqn:Hv; [discriminate|]);
    eapply Hrow; exact Hv.
Qed.

Lemma update_without_type_resets_type_witness :
  PATCH <> GET
  /\ exp_type (mkExpense 1 (Some 1) (mkdate 2024 6 3) 100000 "monthly" "Expense" "Funds" 0)
     = "Expense"
  /\ snd (Views.expense_detail 1 PATCH 1
            (mkExpenseBody Missing Missing Missing TMissing TMissing (TText "Funds"))
            (Sample.one_expense "Savings"))
     = ExpenseRow 200
         (mkExpense 1 (Some 1) (mkdate 2024 6 3) 100000 "monthly" "Expense" "Funds" 0).
Proof.
  assert (Hm : PATCH <> GET) by discriminate.
  split; [exact Hm|]. split; [|reflexivity].
  apply (update_without_type_resets_type 1 PATCH 1
           (mkExpenseBody Missing Missing Missing TMissing TMissing (TText "Funds"))
           (Sample.one_expense "Savings") _ _ _ Hm eq_refl eq_refl).
Defined.

(** ** What the serializers store *)

Lemma char_validators_nil (m : nat) (v : string) :
  char_validators m v = []
  <-> (String.length v <= m)%nat /\ has_null v = false.
Proof.
  unfold char_validators.
  destruct (Nat.leb_spec (String.length v) m) as [Hl|Hl];
    destruct (has_null v); simpl; split; intros H;
    try discriminate; try reflexivity; try (split; [assumption | reflexivity]);
    destruct H as [H1 H2]; try discriminate; lia.
Qed.

Lemma validators_pass (m : nat) (v : string) :
  ((String.length v <= m)%nat /\ has_null v = false)
  \/ exists d ds, char_validators m v = d :: ds.
Proof.
  destruct (char_validators m v) as [|d ds] eqn:E.
  - left. now apply char_validators_nil.
  - right. eauto.
Qed.

Lemma char_field_value (name : string) (m : nat) (req blank partial : bool)
      (x : text_field) (e : errors) (v : string) :
  char_field name m req blank partial x = (e, Some v) ->
  e = [] /\ clean v /\ (String.length v <= m)%nat /\ (blank = false -> v <> "").
Proof.
  unfold char_field, clean. destruct x as [| |s].
  - destruct (req && negb partial); discriminate.
  - discriminate.
  - cbv zeta. destruct (Py.truthy (Py.strip s)) eqn:Et; cbn [negb].
    + destruct (validators_pass m (Py.strip s)) as [[Hl Hn]|(d & ds & E)].
      * rewrite (proj2 (char_validators_nil m (Py.strip s)) (conj Hl Hn)).
        intros H. inversion H; subst. split; [reflexivity|].
        split; [split; [apply strip_idem | exact Hn]|]. split; [exact Hl|].
        intros _ Hv. rewrite Hv in Et. discriminate.
      * rewrite E. discriminate.
    + destruct blank; [|discriminate].
      intros H. inversion H; subst. apply truthy_false in Et. rewrite Et.
      split; [reflexivity|]. split; [split; reflexivity|].
      split; [apply Nat.le_0_l | discriminate].
Qed.

Lemma char_field_required (name : string) (m : nat) (blank : bool) (x : text_field)
      (v : option string) :
  char_field name m true blank false x = ([], v) -> exists s, v = Some s.
Proof.
  unfold char_field. destruct x as [| |s]; simpl; try discriminate.
  destruct (Py.truthy (Py.strip s)); simpl.
  - destruct (char_validators m (Py.strip s)); [|discriminate].
    intros H. inversion H. eauto.
  - destruct blank; [|discriminate]. intros H. inversion H. eauto.
Qed.

Lemma decimal_field_value (name : string) (m : Z) (partial : bool) (x : field decimal)
      (e : errors) (a : decimal) :
  decimal_field name m partial x = (e, Some a) -> Z.abs a < 10 ^ m.
Proof.
  unfold decimal_field. destruct x as [| | |b]; try discriminate.
  - destruct partial; discriminate.
  - destruct (Z.abs b <? 10 ^ m) eqn:E; [|discriminate].
    intros H. inversion H; subst. now apply Z.ltb_lt.
Qed.

Lemma income_is_valid_ok (partial : bool) (d : IncomeBody) (a : IncomeAttrs) :
  IncomeSerializer.is_valid partial d = inr a ->
  (forall v, ia_amount a = Some v -> Z.abs v < 10 ^ 12)
  /\ (forall v, ia_source a = Some v -> clean v /\ (String.length v <= 80)%nat)
  /\ (forall v, ia_remark a = Some v -> clean v /\ (String.length v <= 255)%nat).
Proof.
  unfold IncomeSerializer.is_valid.
  destruct (decimal_field "amount" 12 partial (ib_amount d)) as [e1 am] eqn:E1.
  destruct (date_field "date" partial (ib_date d)) as [e2 dt].
  destruct (char_field "source" 80 false true partial (ib_source d)) as [e3 so] eqn:E3.
  destruct (char_field "remark" 255 false true partial (ib_remark d)) as [e4 rm] eqn:E4.
  intros H. apply finish_inr in H. destruct H as [_ <-]. simpl.
  split; [|split].
  - intros v ->. now apply decimal_field_value in E1.
  - intros v ->. apply char_field_value in E3. tauto.
  - intros v ->. apply char_field_value in E4. tauto.
Qed.

Lemma budget_is_valid_ok (d : BudgetBody) (a : BudgetAttrs) :
  BudgetSerializer.is_valid false d = inr a ->
  exists c s,
    ba_category a = Some c /\ ba_subcategory a = Some s
    /\ c <> "" /\ clean c /\ (String.length c <= 100)%nat
    /\ s <> "" /\ clean s /\ (String.length s <= 100)%nat
    /\ (forall v, ba_amount a = Some v -> Z.abs v < 10 ^ 10).
Proof.
  unfold BudgetSerializer.is_valid.
  destruct (char_field "category" 100 true false false (bb_category d)) as [e1 c] eqn:E1.
  destruct (char_field "subcategory" 100 true false false (bb_subcategory d)) as [e2 s] eqn:E2.
  destruct (decimal_field "amount" 10 false (bb_amount d)) as [e3 am] eqn:E3.
  destruct (date_field "date" false (bb_date d)) as [e4 dt].
  intros H. apply finish_inr in H. destruct H as [He <-]. simpl.
  apply app_eq_nil in He. destruct He as [-> He].
  apply app_eq_nil in He. destruct He as [-> _].
  destruct (char_field_required _ _ _ _ _ E1) as (c' & ->).
  destruct (char_field_required _ _ _ _ _ E2) as (s' & ->).
  apply char_field_value in E1. destruct E1 as (_ & Ht1 & Hl1 & Hn1).
  apply char_field_value in E2. destruct E2 as (_ & Ht2 & Hl2 & Hn2).
  exists c', s'.
  split; [reflexivity|]. split; [reflexivity|]. split; [now apply Hn1|].
  split; [exact Ht1|]. split; [exact Hl1|]. split; [now apply Hn2|].
  split; [exact Ht2|]. split; [exact Hl2|].
  intros v ->. now apply decimal_field_value in E3.
Qed.

Lemma expense_fields_ok (partial : bool) (d : ExpenseBody) (a : ExpenseAttrs) :
  ExpenseSerializer.to_internal_value partial d = inr a ->
  (forall v, ea_amount a = Some v -> Z.abs v < 10 ^ 10)
  /\ (forall v, ea_remark a = Some v -> clean v /\ (String.length v <= 255)%nat)
  /\ (forall v, ea_type a = Some v -> clean v /\ (String.length v <= 100)%nat)
  /\ (forall v, ea_category a = Some v -> clean v /\ (String.length v <= 100)%nat).
Proof.
  unfold ExpenseSerializer.to_internal_value.
  destruct (date_field "date" partial (eb_date d)) as [e1 dt].
  destruct (decimal_field "amount" 10 partial (eb_amount d)) as [e2 am] eqn:E2.
  destruct (char_field "remark" 255 false true partial (eb_remark d)) as [e3 rm] eqn:E3.
  destruct (char_field "type" 100 false true partial (eb_type d)) as [e4 ty] eqn:E4.
  destruct (char_field "category" 100 false true partial (eb_category d)) as [e5 ct] eqn:E5.
  intros H. apply finish_inr in H. destruct H as [_ <-]. simpl.
  split; [|split; [|split]].
  - intros v ->. now apply decimal_field_value in E2.
  - intros v ->. apply char_field_value in E3. tauto.
  - intros v ->. apply char_field_value in E4. tauto.
  - intros v ->. apply char_field_value in E5. tauto.
Qed.

Lemma stored_type_ok (x : option string) :
  (forall v, x = Some v -> clean v /\ (String.length v <= 100)%nat) ->
  let t := Py.or_else (Py.strip (Py.opt_or x "")) "Expense" in
  t <> "" /\ clean t /\ (String.length t <= 100)%nat.
Proof.
  intros Hx. destruct x as [v|]; simpl.
  - destruct (Hx v eq_refl) as [Ht Hl]. rewrite or_else_empty, (proj1 Ht).
    destruct v as [|c r]; simpl.
    + split; [discriminate|]. split; [split; reflexivity|].
      apply Nat.leb_le; reflexivity.
    + split; [discriminate|]. split; [exact Ht | exact Hl].
  - split; [discriminate|]. split; [split; reflexivity|].
    apply Nat.leb_le; reflexivity.
Qed.

Lemma stored_category_ok (x : option string) :
  (forall v, x = Some v -> clean v /\ (String.length v <= 100)%nat) ->
  let c := Py.strip (Py.opt_or x "") in
  clean c /\ (String.length c <= 100)%nat.
Proof.
  intros Hx. destruct x as [v|]; simpl.
  - destruct (Hx v eq_refl) as [Ht Hl]. rewrite or_else_empty, (proj1 Ht). now split.
  - split; [split; reflexivity | apply Nat.leb_le; reflexivity].
Qed.

(** What [validate] returns when it accepts. *)
Lemma validate_ok (attrs a : ExpenseAttrs) :
  ExpenseSerializer.validate attrs = inr a ->
  (forall v, ea_type attrs = Some v -> clean v /\ (String.length v <= 100)%nat) ->
  (forall v, ea_category attrs = Some v -> clean v /\ (String.length v <= 100)%nat) ->
  ea_date a = ea_date attrs /\ ea_amount a = ea_amount attrs
  /\ ea_remark a = ea_remark attrs
  /\ exists t c,
      ea_type a = Some t /\ ea_category a = Some c
      /\ t <> "" /\ clean t /\ (String.length t <= 100)%nat
      /\ clean c /\ (String.length c <= 100)%nat
      /\ (In (Py.lower t) ("other" :: ExpenseSerializer.category_required) -> c <> "")
      /\ (Py.lower t = "other" -> t = "Other").
Proof.
  intros Hv Hty Hcat.
  destruct (stored_type_ok _ Hty) as (Tn & Tt & Tl).
  destruct (stored_category_ok _ Hcat) as (Ct & Cl).
  unfold ExpenseSerializer.validate in Hv. cbv zeta in Hv.
  remember (Py.or_else (Py.strip (Py.opt_or (ea_type attrs) "")) "Expense") as T.
  remember (Py.strip (Py.opt_or (ea_category attrs) "")) as C.
  destruct (String.eqb_spec (Py.lower T) "other") as [Eo|Eo].
  - inversion Hv; subst a; clear Hv. simpl.
    split; [reflexivity|]. split; [reflexivity|]. split; [reflexivity|].
    exists "Other", (Py.or_else C "Other").
    split; [reflexivity|]. split; [reflexivity|]. split; [discriminate|].
    split; [split; reflexivity|]. split; [apply Nat.leb_le; reflexivity|].
    split; [destruct C; [split; reflexivity | exact Ct]|].
    split; [destruct C; [apply Nat.leb_le; reflexivity | exact Cl]|].
    split; [intros _; destruct C; discriminate | reflexivity].
  - destruct (Py.mem (Py.lower T) ExpenseSerializer.category_required
              && negb (Py.truthy C)) eqn:Em; [discriminate|].
    inversion Hv; subst a; clear Hv. simpl.
    split; [reflexivity|]. split; [reflexivity|]. split; [reflexivity|].
    exists T, C.
    split; [reflexivity|]. split; [reflexivity|]. split; [exact Tn|].
    split; [exact Tt|]. split; [exact Tl|]. split; [exact Ct|]. split; [exact Cl|].
    split.
    + intros [E|Hin] HC; [now symmetry in E|].
      change (In (Py.lower T) ExpenseSerializer.category_required) in Hin.
      apply mem_In in Hin. rewrite Hin, HC in Em. discriminate.
    + intros E. contradiction.
Qed.

Lemma expense_is_valid_ok (partial : bool) (d : ExpenseBody) (a : ExpenseAttrs) :
  ExpenseSerializer.is_valid partial d = inr a ->
  (forall v, ea_amount a = Some v -> Z.abs v < 10 ^ 10)
  /\ (forall v, ea_remark a = Some v -> clean v /\ (String.length v <= 255)%nat)
  /\ exists t c,
      ea_type a = Some t /\ ea_category a = Some c
      /\ t <> "" /\ clean t /\ (String.length t <= 100)%nat
      /\ clean c /\ (String.length c <= 100)%nat
      /\ (In (Py.lower t) ("other" :: ExpenseSerializer.category_required) -> c <> "")
      /\ (Py.lower t = "other" -> t = "Other").
Proof.
  unfold ExpenseSerializer.is_valid.
  destruct (ExpenseSerializer.to_internal_value partial d) as [e|a0] eqn:E0;
    [discriminate|].
  intros Hv. destruct (expense_fields_ok _ _ _ E0) as (Ham & Hrm & Hty & Hct).
  destruct (validate_ok a0 a Hv Hty Hct) as (_ & Ea & Er & Hex).
  rewrite Ea, Er. auto.
Qed.

Lemma clean_empty : clean "".
Proof. split; reflexivity. Qed.

Lemma dflt_ok {A : Type} (P : A -> Prop) (x : option A) (d : A) :
  (forall v, x = Some v -> P v) -> P d -> P (dflt x d).
Proof. destruct x; simpl; auto. Qed.

Lemma create_income_ok (id : Z) (u : user_id) (t : Z) (d : IncomeBody) (a : IncomeAttrs) :
  IncomeSerializer.is_valid false d = inr a -> income_ok (create_income id u t a).
Proof.
  intros H. destruct (income_is_valid_ok _ _ _ H) as (Ham & Hso & Hrm).
  unfold income_ok, create_income; simpl.
  split; [discriminate|].
  split; [apply dflt_ok; [exact Ham | reflexivity]|].
  split; [apply (dflt_ok clean); [apply Hso | exact clean_empty]|].
  split; [apply (dflt_ok (fun s => (String.length s <= 80)%nat));
          [apply Hso | apply Nat.leb_le; reflexivity]|].
  split; [apply (dflt_ok clean); [apply Hrm | exact clean_empty]|].
  apply (dflt_ok (fun s => (String.length s <= 255)%nat));
    [apply Hrm | apply Nat.leb_le; reflexivity].
Qed.

Lemma update_income_ok (partial : bool) (obj : Income) (d : IncomeBody) (a : IncomeAttrs) :
  IncomeSerializer.is_valid partial d = inr a -> income_ok obj ->
  income_ok (update_income obj a).
Proof.
  intros H (Hu & Ha & Hs1 & Hs2 & Hr1 & Hr2).
  destruct (income_is_valid_ok _ _ _ H) as (Ham & Hso & Hrm).
  unfold income_ok, update_income; simpl.
  split; [exact Hu|].
  split; [apply dflt_ok; [exact Ham | exact Ha]|].
  split; [apply (dflt_ok clean); [apply Hso | exact Hs1]|].
  split; [apply (dflt_ok (fun s => (String.length s <= 80)%nat)); [apply Hso | exact Hs2]|].
  split; [apply (dflt_ok clean); [apply Hrm | exact Hr1]|].
  apply (dflt_ok (fun s => (String.length s <= 255)%nat)); [apply Hrm | exact Hr2].
Qed.

Lemma create_budget_ok (id : Z) (u : user_id) (t : Z) (d : BudgetBody) (a : BudgetAttrs) :
  BudgetSerializer.is_valid false d = inr a -> budget_ok (create_budget id u t a).
Proof.
  intros H.
  destruct (budget_is_valid_ok _ _ H)
    as (c & s & Ec & Es & Hc1 & Hc2 & Hc3 & Hs1 & Hs2 & Hs3 & Ham).
  unfold budget_ok, create_budget; simpl. rewrite Ec, Es; simpl.
  split; [discriminate|].
  split; [apply dflt_ok; [exact Ham | reflexivity]|].
  split; [exact Hc1|]. split; [exact Hc2|]. split; [exact Hc3|].
  split; [exact Hs1|]. split; [exact Hs2 | exact Hs3].
Qed.

Lemma expense_row_ok (partial : bool) (d : ExpenseBody) (a : ExpenseAttrs)
      (id : Z) (owner : option user_id) (dt : date) (am : decimal) (rm : string)
      (ty ct : string) (t : Z) :
  ExpenseSerializer.is_valid partial d = inr a ->
  owner <> None -> Z.abs am < 10 ^ 10 ->
  clean rm -> (String.length rm <= 255)%nat ->
  expense_ok (mkExpense id owner (dflt (ea_date a) dt) (dflt (ea_amount a) am)
                        (dflt (ea_remark a) rm) (dflt (ea_type a) ty)
                        (dflt (ea_category a) ct) t).
Proof.
  intros H Ho Ha Hr1 Hr2.
  destruct (expense_is_valid_ok _ _ _ H)
    as (Ham & Hrm & ty' & ct' & Et & Ec & H1 & H2 & H3 & H4 & H5 & H6 & H7).
  unfold expense_ok; simpl. rewrite Et, Ec; simpl.
  split; [exact Ho|].
  split; [apply dflt_ok; [exact Ham | exact Ha]|].
  split; [apply (dflt_ok clean); [apply Hrm | exact Hr1]|].
  split; [apply (dflt_ok (fun s => (String.length s <= 255)%nat)); [apply Hrm | exact Hr2]|].
  split; [exact H1|]. split; [exact H2|]. split; [exact H3|]. split; [exact H4|].
  split; [exact H5|]. split; [exact H6 | exact H7].
Qed.

Lemma forall_rewrite_row {R : Type} (P : R -> Prop) (id : R -> Z) (row : R) (l : list R) :
  Forall P l -> P row -> Forall P (rewrite_row id row l).
Proof.
  intros Hl Hrow. unfold rewrite_row. apply Forall_forall. intros x Hx.
  apply in_map_iff in Hx. destruct Hx as (r & <- & Hr).
  destruct (id r =? id row); [exact Hrow|].
  rewrite Forall_forall in Hl. now apply Hl.
Qed.

Lemma forall_append {R : Type} (P : R -> Prop) (row : R) (l : list R) :
  Forall P l -> P row -> Forall P (l ++ [row]).
Proof. intros Hl Hrow. apply Forall_app. split; [exact Hl | now constructor]. Qed.

Lemma find_own_in {R : Type} (f p : R -> bool) (l : list R) (obj : R) :
  find f (filter p l) = Some obj -> In obj l.
Proof.
  intros H. apply find_some in H. destruct H as [H _].
  now apply filter_In in H.
Qed.

Lemma dispatch_well_stored (env : Env) (u : user_id) (req : Urls.Request) (db : DB) :
  well_stored db -> well_stored (fst (Urls.dispatch env u req db)).
Proof.
  intros (Hi & He & Hb & Hu).
  assert (Hne : u <> u + 1) by lia.
  destruct (dispatch_effects env u (u + 1) req db Hne Hu) as (_ & _ & _ & _ & Hu').
  unfold well_stored. split; [|split; [|split; [|exact Hu']]]; clear Hu'.
  - destruct req as [[q|b]|m pk b|[q|b]|m pk b|[q|b]|m pk b| |q|s]; simpl; auto.
    + destruct (IncomeSerializer.is_valid false (Views.income_payload b)) eqn:E; simpl; auto.
      apply forall_append; [exact Hi|]. eapply create_income_ok; exact E.
    + unfold Views.income_detail.
      destruct (find _ _) as [obj|] eqn:Hf; simpl; auto.
      assert (Hobj : income_ok obj).
      { rewrite Forall_forall in Hi. apply Hi. eapply find_own_in; exact Hf. }
      destruct m; simpl; auto;
        (destruct (IncomeSerializer.is_valid _ b) as [e|attrs] eqn:E; simpl; auto;
         apply (forall_rewrite_row income_ok inc_id (update_income obj attrs));
         [exact Hi|]; eapply update_income_ok; eauto).
    + destruct (ExpenseSerializer.is_valid false (Views.expense_payload b)); simpl; auto.
    + unfold Views.expense_detail.
      destruct (find _ _) as [obj|]; simpl; auto.
      destruct m; simpl; auto; destruct (ExpenseSerializer.is_valid _ b); simpl; auto.
    + destruct (BudgetSerializer.is_valid false b); simpl; auto.
  - destruct req as [[q|b]|m pk b|[q|b]|m pk b|[q|b]|m pk b| |q|s]; simpl; auto.
    + destruct (IncomeSerializer.is_valid false (Views.income_payload b)); simpl; auto.
    + unfold Views.income_detail.
      destruct (find _ _) as [obj|]; simpl; auto.
      destruct m; simpl; auto; destruct (IncomeSerializer.is_valid _ b); simpl; auto.
    + destruct (ExpenseSerializer.is_valid false (Views.expense_payload b)) eqn:E;
        simpl; auto.
      apply forall_append; [exact He|]. unfold create_expense.
      eapply expense_row_ok; try exact E;
        [discriminate | reflexivity | exact clean_empty | apply Nat.leb_le; reflexivity].
    + unfold Views.expense_detail.
      destruct (find _ _) as [obj|] eqn:Hf; simpl; auto.
      assert (Hobj : expense_ok obj).
      { rewrite Forall_forall in He. apply He. eapply find_own_in; exact Hf. }
      destruct Hobj as (Ho & Ha & Hr1 & Hr2 & _).
      destruct m; simpl; auto;
        (destruct (ExpenseSerializer.is_valid _ b) as [e|attrs] eqn:E; simpl; auto;
         apply (forall_rewrite_row expense_ok exp_id (update_expense obj attrs));
         [exact He|]; unfold update_expense; eapply expense_row_ok; eauto).
    + destruct (BudgetSerializer.is_valid false b); simpl; auto.
  - destruct req as [[q|b]|m pk b|[q|b]|m pk b|[q|b]|m pk b| |q|s]; simpl; auto.
    + destruct (IncomeSerializer.is_valid false (Views.income_payload b)); simpl; auto.
    + unfold Views.income_detail.
      destruct (find _ _) as [obj|]; simpl; auto.
      destruct m; simpl; auto; destruct (IncomeSerializer.is_valid _ b); simpl; auto.
    + destruct (ExpenseSerializer.is_valid false (Views.expense_payload b)); simpl; auto.
    + unfold Views.expense_detail.
      destruct (find _ _) as [obj|]; simpl; auto.
      destruct m; simpl; auto; destruct (ExpenseSerializer.is_valid _ b); simpl; auto.
    + destruct (BudgetSerializer.is_valid false b) eqn:E; simpl; auto.
      apply forall_append; [exact Hb|]. eapply create_budget_ok; exact E.
Qed.

Lemma empty_well_stored : well_stored empty_db.
Proof. repeat split; constructor. Qed.

Lemma run_well_stored (trace : list (Env * user_id * Urls.Request)) (db : DB) :
  well_stored db -> well_stored (run trace db).
Proof.
  revert db. induction trace as [|[[env u] req] rest IH]; intros db H; simpl.
  - exact H.
  - apply IH. now apply dispatch_well_stored.
Qed.

Example sample_trace_runs :
  run sample_trace empty_db
  = mkDB [ mkIncome 1 (Some 1) 850000 (mkdate 2024 6 1) "Salary" "" (now Sample.env) ]
         [ mkExpense 1 (Some 1) (mkdate 2024 6 1) 4500 "" "Savings" "SIP" (now Sample.env) ]
         [ mkBudget 1 (Some 1) "Saving" "SIP" 500000 (mkdate 2024 6 1) (now Sample.env) ].
Proof. reflexivity. Qed.

(** X7: whatever requests were served since the tables were empty, every
    stored row has a user, an amount within its digits, and texts without
    surrounding white space, without a null character and within their
    lengths; every expense has a
    type that is not empty, has a category that is not empty whenever its
    type, lowercased, is [other] or one of the types that require a
    category, and is spelled ["Other"] if its type is [other] in any letter
    case; every budget has a category and a subcategory that are not empty;
    and primary keys are unique. *)
Theorem stored_rows_are_normalised :
  forall trace : list (Env * user_id * Urls.Request),
    let db := run trace empty_db in
    well_stored db
    /\ (forall r, In r (incomes db) -> income_ok r)
    /\ (forall r, In r (expenses db) ->
          expense_ok r
          /\ exp_type r <> ""
          /\ (In (Py.lower (exp_type r)) ExpenseSerializer.category_required ->
              exp_category r <> ""))
    /\ (forall b, In b (budgets db) -> budget_ok b).
Proof.
  intros trace db.
  assert (H : well_stored db) by (apply run_well_stored, empty_well_stored).
  split; [exact H|]. destruct H as (Hi & He & Hb & _).
  rewrite Forall_forall in Hi, He, Hb.
  split; [exact Hi|]. split; [|exact Hb].
  intros r Hr. specialize (He r Hr). split; [exact He|].
  destruct He as (_ & _ & _ & _ & Hne & _ & _ & _ & _ & Hrule & _).
  split; [exact Hne|]. intros Hin. apply Hrule. now right.
Qed.

(** X8: on a database that only requests have written, the [actual] of
    every budget row of the insights is the sum matched against the
    subcategory as it is stored: the serializer stored it trimmed, and the
    view's own trimming changes nothing. *)
Theorem insights_on_served_data :
  forall (trace : list (Env * user_id * Urls.Request)) (env : Env) (u : user_id)
         (scope_q : option string),
    let db := run trace empty_db in
    Views.insights_summary env u scope_q db
    = InsightRows
        (map (fun b => stated_row b (stated_actual (scope_window env scope_q) u db
                                       (bud_category b) (bud_subcategory b)))
             (Orm.order_by_date_id Orm.budget_key (Views.own_budgets u db))).
Proof.
  intros trace env u scope_q db.
  assert (H : well_stored db) by (apply run_well_stored, empty_well_stored).
  destruct H as (_ & _ & Hb & _). rewrite Forall_forall in Hb.
  unfold Views.insights_summary, Views.insights_rows. f_equal.
  apply map_ext_in. intros b Hin.
  unfold Orm.order_by_date_id in Hin. apply sort_desc_In in Hin.
  apply filter_In in Hin. destruct Hin as [Hin _].
  destruct (Hb b Hin) as (_ & _ & _ & _ & _ & _ & Ht & _).
  unfold Views.insight_row, stated_row.
  rewrite budget_actual_stated. now rewrite (proj1 Ht).
Qed.

Lemma char_field_clean (name : string) (m : nat) (req partial : bool) (v : string) :
  clean v -> (String.length v <= m)%nat ->
  char_field name m req true partial (TText v) = ([], Some v).
Proof.
  intros [Hs Hn] Hl. unfold char_field. cbv zeta. rewrite Hs.
  destruct (Py.truthy v); cbn [negb]; [|reflexivity].
  now rewrite (proj2 (char_validators_nil m v) (conj Hl Hn)).
Qed.

Lemma income_as_body_valid (obj : Income) :
  income_ok obj ->
  IncomeSerializer.is_valid false (income_as_body obj)
  = inr (mkIncomeAttrs (Some (inc_amount obj)) (Some (inc_date obj))
                       (Some (inc_source obj)) (Some (inc_remark obj))).
Proof.
  intros (_ & Ha & Hs1 & Hs2 & Hr1 & Hr2).
  unfold IncomeSerializer.is_valid, income_as_body, decimal_field, date_field.
  cbn [ib_amount ib_date ib_source ib_remark negb andb].
  apply Z.ltb_lt in Ha. rewrite Ha.
  rewrite (char_field_clean "source" 80 false false _ Hs1 Hs2).
  rewrite (char_field_clean "remark" 255 false false _ Hr1 Hr2). reflexivity.
Qed.

Lemma expense_as_body_valid (obj : Expense) :
  expense_ok obj ->
  ExpenseSerializer.is_valid false (expense_as_body obj)
  = inr (mkExpenseAttrs (Some (exp_date obj)) (Some (exp_amount obj))
                        (Some (exp_remark obj)) (Some (exp_type obj))
                        (Some (exp_category obj))).
Proof.
  intros (_ & Ha & Hr1 & Hr2 & Hne & Ht1 & Ht2 & Hc1 & Hc2 & Hrule & Hother).
  assert (Hfields : ExpenseSerializer.to_internal_value false (expense_as_body obj)
                    = inr (mkExpenseAttrs (Some (exp_date obj)) (Some (exp_amount obj))
                             (Some (exp_remark obj)) (Some (exp_type obj))
                             (Some (exp_category obj)))).
  { unfold ExpenseSerializer.to_internal_value, expense_as_body, decimal_field,
      date_field.
    cbn [eb_date eb_amount eb_remark eb_type eb_category negb andb].
    apply Z.ltb_lt in Ha. rewrite Ha.
    rewrite (char_field_clean "remark" 255 false false _ Hr1 Hr2).
    rewrite (char_field_clean "type" 100 false false _ Ht1 Ht2).
    rewrite (char_field_clean "category" 100 false false _ Hc1 Hc2). reflexivity. }
  unfold ExpenseSerializer.is_valid. rewrite Hfields.
  unfold ExpenseSerializer.validate. cbv zeta.
  cbn [ea_type ea_category ea_date ea_amount ea_remark Py.opt_or].
  rewrite !or_else_empty. rewrite (proj1 Ht1), (proj1 Hc1).
  assert (HT : Py.or_else (exp_type obj) "Expense" = exp_type obj).
  { destruct (exp_type obj); [contradiction | reflexivity]. }
  rewrite HT.
  destruct (String.eqb_spec (Py.lower (exp_type obj)) "other") as [Eo|Eo].
  - rewrite (Hother Eo).
    assert (HC : Py.or_else (exp_category obj) "Other" = exp_category obj).
    { destruct (exp_category obj) eqn:Ec; [|reflexivity].
      exfalso. apply Hrule; [left; now symmetry | reflexivity]. }
    now rewrite HC.
  - destruct (Py.mem (Py.lower (exp_type obj)) ExpenseSerializer.category_required
              && negb (Py.truthy (exp_category obj))) eqn:Em; [|reflexivity].
    exfalso. apply andb_true_iff in Em. destruct Em as [Hin Hc].
    apply mem_In in Hin. apply negb_true_iff, truthy_false in Hc.
    apply Hrule; [now right | exact Hc].
Qed.

(** X9: sending a stored row back as it is changes nothing.  On a database
    whose rows are as the serializers store them, a PUT of a row's own
    amount, date and texts to its detail view is accepted, answers 200 with
    the same row and leaves the database as it was, for incomes and for
    expenses. *)
Theorem put_back_is_identity :
  forall (u : user_id) (pk : Z) (db : DB),
    well_stored db ->
    (forall obj : Income,
        find (fun r => inc_id r =? pk) (Views.own_incomes u db) = Some obj ->
        Views.income_detail u PUT pk (income_as_body obj) db = (db, IncomeRow 200 obj))
    /\ (forall obj : Expense,
           find (fun r => exp_id r =? pk) (Views.own_expenses u db) = Some obj ->
           Views.expense_detail u PUT pk (expense_as_body obj) db
           = (db, ExpenseRow 200 obj)).
Proof.
  intros u pk db (Hi & He & _ & Hui & Hue & _).
  rewrite Forall_forall in Hi, He. split.
  - intros obj Hf. pose proof (find_own_in _ _ _ _ Hf) as Hin.
    unfold Views.income_detail. rewrite Hf. cbn [Views.is_patch].
    rewrite (income_as_body_valid obj (Hi obj Hin)).
    assert (Hobj : update_income obj
                     (mkIncomeAttrs (Some (inc_amount obj)) (Some (inc_date obj))
                                    (Some (inc_source obj)) (Some (inc_remark obj))) = obj)
      by now destruct obj.
    rewrite Hobj. f_equal. unfold Views.save_income.
    fold (rewrite_row inc_id obj (incomes db)).
    rewrite (rewrite_row_same inc_id obj (incomes db) Hui Hin). now destruct db.
  - intros obj Hf. pose proof (find_own_in _ _ _ _ Hf) as Hin.
    unfold Views.expense_detail. rewrite Hf. cbn [Views.is_patch].
    rewrite (expense_as_body_valid obj (He obj Hin)).
    assert (Hobj : update_expense obj
                     (mkExpenseAttrs (Some (exp_date obj)) (Some (exp_amount obj))
                                     (Some (exp_remark obj)) (Some (exp_type obj))
                                     (Some (exp_category obj))) = obj)
      by now destruct obj.
    rewrite Hobj. f_equal. unfold Views.save_expense.
    fold (rewrite_row exp_id obj (expenses db)).
    rewrite (rewrite_row_same exp_id obj (expenses db) Hue Hin). now destruct db.
Qed.

Lemma put_back_is_identity_witness :
  well_stored (run sample_trace empty_db)
  /\ Views.expense_detail 1 PUT 1
       (expense_as_body (mkExpense 1 (Some 1) (mkdate 2024 6 1) 4500 "" "Savings" "SIP"
                                   (now Sample.env)))
       (run sample_trace empty_db)
     = (run sample_trace empty_db,
        ExpenseRow 200 (mkExpense 1 (Some 1) (mkdate 2024 6 1) 4500 "" "Savings" "SIP"
                                  (now Sample.env))).
Proof.
  assert (H : well_stored (run sample_trace empty_db))
    by (apply run_well_stored, empty_well_stored).
  split; [exact H|].
  destruct (put_back_is_identity 1 1 (run sample_trace empty_db) H) as [_ H2].
  apply H2. reflexivity.
Defined.

(** ** The type slugs *)

Lemma type_slug_not_income (s : string) : In s type_slugs -> String.eqb s "income" = false.
Proof.
  intros H. destruct (type_slug_cases s H) as [->|[->|[->|[->| ->]]]]; reflexivity.
Qed.

(** X10: the list of [filters/types/] is ["all"] followed by slugs of
    [ALL_SLUGS] in the order of [ALL_SLUGS], each at most once, and never
    ["all"] alone; a caller without incomes and expenses gets every slug,
    and a caller with an income gets [income]. *)
Theorem present_slugs_shape :
  forall (u : user_id) (db : DB),
    (exists keep : string -> bool,
        Views._present_type_slugs u db = "all" :: filter keep Views.ALL_SLUGS
        /\ filter keep Views.ALL_SLUGS <> [])
    /\ (Views.own_incomes u db = [] -> Views.own_expenses u db = [] ->
        Views._present_type_slugs u db = "all" :: Views.ALL_SLUGS)
    /\ (Views.own_incomes u db <> [] -> In "income" (Views._present_type_slugs u db)).
Proof.
  intros u db. unfold Views._present_type_slugs. fold type_slugs.
  set (present := fun s => existsb (fun t => Py.mem t (Views._labels_for_slug s))
                             (map (fun r => Py.strip (exp_type r)) (Views.own_expenses u db))).
  split; [|split].
  - destruct (Views.own_incomes u db) as [|i rest]; cbn [app].
    + destruct (filter present type_slugs) as [|s ss] eqn:Ef.
      * exists (fun _ => true). simpl. split; [reflexivity | discriminate].
      * exists (fun s => negb (String.eqb s "income") && present s).
        assert (E : filter (fun s => negb (String.eqb s "income") && present s)
                           Views.ALL_SLUGS = filter present type_slugs).
        { change Views.ALL_SLUGS with ("income" :: type_slugs). cbn [filter].
          rewrite String.eqb_refl. cbn [negb andb].
          apply filter_ext_in. intros a Ha. now rewrite (type_slug_not_income a Ha). }
        rewrite E, Ef. split; [reflexivity | discriminate].
    + exists (fun s => String.eqb s "income" || present s).
      assert (E : filter (fun s => String.eqb s "income" || present s) Views.ALL_SLUGS
                  = "income" :: filter present type_slugs).
      { change Views.ALL_SLUGS with ("income" :: type_slugs). cbn [filter].
        rewrite String.eqb_refl. cbn [orb]. apply f_equal.
        apply filter_ext_in. intros a Ha. now rewrite (type_slug_not_income a Ha). }
      rewrite E. split; [reflexivity | discriminate].
  - intros Hi He. subst present. rewrite Hi, He. reflexivity.
  - intros H. destruct (Views.own_incomes u db) as [|i rest]; [contradiction|].
    right. left. reflexivity.
Qed.

Lemma iexact_lower (t label : string) :
  Orm.iexact t label = true -> Py.lower t = Py.lower label.
Proof. unfold Orm.iexact. apply String.eqb_eq. Qed.

Lemma feed_type_filter_lower (slug : string) (r : Expense) :
  In slug type_slugs -> Views.feed_type_filter slug r = true ->
  (slug = "expense" /\ (Py.lower (exp_type r) = "expense" \/ Py.lower (exp_type r) = ""))
  \/ (slug = "savings" /\ Py.lower (exp_type r) = "savings")
  \/ (slug = "emis" /\ Py.lower (exp_type r) = "emis")
  \/ (slug = "loans&advance" /\ Py.lower (exp_type r) = "loans&advance")
  \/ (slug = "other" /\ Py.lower (exp_type r) = "other").
Proof.
  intros Hs. destruct (type_slug_cases slug Hs) as [->|[->|[->|[->| ->]]]];
    unfold Views.feed_type_filter; simpl.
  - intros H. left. split; [reflexivity|]. apply orb_true_iff in H.
    destruct H as [H|H]; [left; now apply iexact_lower in H|].
    right. apply String.eqb_eq in H. now rewrite H.
  - intros H. apply iexact_lower in H. auto.
  - intros H. apply iexact_lower in H. auto 6.
  - intros H. apply iexact_lower in H. auto 7.
  - intros H. apply iexact_lower in H. auto 8.
Qed.

(** X11: no stored type answers to two type slugs.  On the expense list a
    row that passes the filter of one of the five type slugs passes the
    filter of no other, and the same holds for the type test of the unified
    feed. *)
Theorem type_slugs_exclusive :
  forall (r : Expense) (s1 s2 : string),
    In s1 type_slugs -> In s2 type_slugs ->
    (forall q1 q2 : Query,
        q_type q1 = Some s1 -> q_type q2 = Some s2 ->
        Views.expense_slug_filter q1 r = true ->
        Views.expense_slug_filter q2 r = true -> s1 = s2)
    /\ (Views.feed_type_filter s1 r = true ->
        Views.feed_type_filter s2 r = true -> s1 = s2).
Proof.
  intros r s1 s2 H1 H2. split.
  - intros q1 q2 Hq1 Hq2.
    rewrite (expense_slug_filter_exact q1 r s1 H1 Hq1),
      (expense_slug_filter_exact q2 r s2 H2 Hq2), !mem_In.
    destruct (type_slug_cases s1 H1) as [->|[->|[->|[->| ->]]]];
      destruct (type_slug_cases s2 H2) as [->|[->|[->|[->| ->]]]];
      simpl; intros Ha Hb; try reflexivity; exfalso;
      repeat (destruct Ha as [Ha|Ha]; try contradiction);
      repeat (destruct Hb as [Hb|Hb]; try contradiction);
      rewrite <- Ha in Hb; discriminate.
  - intros Ha Hb.
    apply (feed_type_filter_lower s1 r H1) in Ha.
    apply (feed_type_filter_lower s2 r H2) in Hb.
    destruct Ha as [[-> Ha]|[[-> Ha]|[[-> Ha]|[[-> Ha]|[-> Ha]]]]];
      destruct Hb as [[-> Hb]|[[-> Hb]|[[-> Hb]|[[-> Hb]|[-> Hb]]]]];
      try reflexivity; exfalso;
      try (destruct Ha as [Ha|Ha]); try (destruct Hb as [Hb|Hb]);
      rewrite Ha in Hb; discriminate.
Qed.

Lemma type_slugs_exclusive_witness :
  In "savings" type_slugs
  /\ Views.feed_type_filter "savings" (Sample.typed_expense "savings") = true
  /\ (Views.feed_type_filter "emis" (Sample.typed_expense "savings") = true ->
      "savings" = "emis").
Proof.
  assert (H1 : In "savings" type_slugs) by (simpl; tauto).
  assert (H2 : In "emis" type_slugs) by (simpl; tauto).
  split; [exact H1|]. split; [reflexivity|].
  destruct (type_slugs_exclusive (Sample.typed_expense "savings") "savings" "emis" H1 H2)
    as [_ H].
  apply H. reflexivity.
Defined.

(** ** The unified feed by type *)

Lemma page_of_nil {R : Type} (q : Query) : Views.page_of q (@nil R) = [].
Proof.
  unfold Views.page_of. destruct (Views._parse_pagination q).
  unfold Py.slice. now rewrite skipn_nil, firstn_nil.
Qed.

Lemma filter_none {R : Type} (p : R -> bool) (l : list R) :
  (forall r, p r = false) -> filter p l = [].
Proof.
  intros H. induction l as [|x r IH]; simpl; [reflexivity|]. now rewrite H.
Qed.

Lemma feed_type_filter_unknown (t : string) (r : Expense) :
  ~ In t ("all" :: Views.ALL_SLUGS) -> Views.feed_type_filter t r = false.
Proof.
  intros H. unfold Views.feed_type_filter.
  repeat match goal with
         | |- context [String.eqb t ?s] =>
             destruct (String.eqb_spec t s) as [E|_];
             [exfalso; apply H; rewrite E; simpl; tauto|]
         end.
  reflexivity.
Qed.

Lemma feed_expense_rows_in (env : Env) (u : user_id) (q : Query) (db : DB) (x : FeedRow) :
  In x (Views.feed_expense_rows env u q db)
  <-> exists r, x = Views.feed_expense_row r /\ In r (expenses db)
                /\ Views.feed_expense_base env u q r = true
                /\ Views.feed_type_filter (Views.feed_type q) r = true.
Proof.
  unfold Views.feed_expense_rows, Views.feed_expense_filter, Orm.order_by_date_id.
  rewrite in_map_iff. split.
  - intros (r & <- & Hr). apply sort_desc_In in Hr. apply filter_In in Hr.
    destruct Hr as [Hr Hf]. apply andb_true_iff in Hf. exists r. tauto.
  - intros (r & -> & Hr & Hb & Ht). exists r. split; [reflexivity|].
    apply sort_desc_In. apply filter_In. split; [exact Hr|]. now rewrite Hb, Ht.
Qed.

(** X12: the [type] parameter of the unified feed.  A type that, lowercased,
    is none of all, income, expense, savings, emis, loans&advance, other
    gives the empty feed with [count] 0 (the 500 of the failed look-up if an
    amount bound is unreadable); no type at all is the type [all];
    every row of the feed of a type is a row of the feed of [all] with the
    same other filters; the type [income] brings no expense row and a type
    slug of the expenses brings no income row. *)
Theorem feed_by_type :
  forall (env : Env) (u : user_id) (q : Query) (db : DB),
    (forall t : string,
        ~ In (Py.lower (Py.or_else t "all")) ("all" :: Views.ALL_SLUGS) ->
        Views.transaction_history env u (with_type q (Some t)) db
        = if Views.amounts_read q then FeedPage 0 [] else ServerError)
    /\ Views.transaction_history env u (with_type q None) db
       = Views.transaction_history env u (with_type q (Some "all")) db
    /\ (forall (t : string) (x : FeedRow),
           In x (Views.feed_sorted env u (with_type q (Some t)) db) ->
           In x (Views.feed_sorted env u (with_type q (Some "all")) db))
    /\ Views.feed_expense_rows env u (with_type q (Some "income")) db = []
    /\ (forall t : string,
           In t type_slugs ->
           Views.feed_income_rows env u (with_type q (Some t)) db = []).
Proof.
  intros env u q db. split; [|split; [|split; [|split]]].
  - intros t Ht.
    assert (Hrows : Views.feed_sorted env u (with_type q (Some t)) db = []).
    { unfold Views.feed_sorted, Views.feed_rows, Views.feed_income_rows,
        Views.feed_expense_rows, Views.feed_expense_filter.
      change (Views.feed_type (with_type q (Some t))) with (Py.lower (Py.or_else t "all")).
      assert (Hm : Py.mem (Py.lower (Py.or_else t "all")) ["income"; "all"] = false).
      { destruct (Py.mem _ _) eqn:E; [|reflexivity]. exfalso. apply Ht.
        apply mem_In in E. simpl in E. simpl. tauto. }
      rewrite Hm. cbn [app].
      rewrite (filter_none _ (expenses db)); [reflexivity|].
      intros r. rewrite (feed_type_filter_unknown _ r Ht). apply andb_false_r. }
    unfold Views.transaction_history. rewrite Hrows.
    change (Views.amounts_read (with_type q (Some t))) with (Views.amounts_read q).
    simpl. now rewrite page_of_nil.
  - reflexivity.
  - intros t x Hx. unfold Views.feed_sorted in *.
    apply sort_desc_In in Hx. apply sort_desc_In.
    unfold Views.feed_rows in *. apply in_app_or in Hx. apply in_or_app.
    destruct Hx as [Hx|Hx].
    + left. unfold Views.feed_income_rows in *.
      change (Views.feed_type (with_type q (Some "all"))) with "all".
      change (Py.mem "all" ["income"; "all"]) with true. cbv iota.
      destruct (Py.mem (Views.feed_type (with_type q (Some t))) ["income"; "all"]);
        [exact Hx | contradiction].
    + right. apply feed_expense_rows_in in Hx.
      destruct Hx as (r & -> & Hr & Hb & _).
      apply feed_expense_rows_in. exists r. repeat split; assumption.
  - unfold Views.feed_expense_rows, Views.feed_expense_filter.
    rewrite (filter_none _ (expenses db)); [reflexivity|].
    intros r. apply andb_false_r.
  - intros t Ht. unfold Views.feed_income_rows.
    destruct (type_slug_cases t Ht) as [->|[->|[->|[->| ->]]]]; reflexivity.
Qed.

Lemma feed_by_type_witness :
  ~ In (Py.lower (Py.or_else " expense" "all")) ("all" :: Views.ALL_SLUGS)
  /\ Views.transaction_history Sample.env 1 (with_type Sample.june (Some " expense"))
                               (Sample.one_expense "Expense")
     = FeedPage 0 [].
Proof.
  assert (H : ~ In (Py.lower (Py.or_else " expense" "all")) ("all" :: Views.ALL_SLUGS)).
  { simpl. intuition discriminate. }
  split; [exact H|].
  destruct (feed_by_type Sample.env 1 Sample.june (Sample.one_expense "Expense"))
    as [H1 _].
  apply (H1 " expense" H).
Defined.

(** ** The category filter *)

Lemma ltb_not_below (a b : string) : not_below String.ltb a b <-> text_le a b.
Proof.
  unfold not_below, String.ltb, text_le. rewrite (String.compare_antisym b a).
  destruct (String.compare a b); simpl; split; congruence.
Qed.

Lemma text_le_trans (a b c : string) : text_le a b -> text_le b c -> text_le a c.
Proof.
  unfold text_le. intros Hab Hbc.
  destruct (String.compare a b) eqn:E1; [| |contradiction].
  - apply String.compare_eq_iff in E1. now subst.
  - destruct (String.compare b c) eqn:E2; [| |contradiction].
    + apply String.compare_eq_iff in E2. subst. now rewrite E1.
    + now rewrite (str_compare_lt_trans _ _ _ E1 E2).
Qed.

Lemma py_sorted_sorted (l : list string) : StronglySorted text_le (py_sorted l).
Proof.
  apply strongly_sorted_iff with (R := not_below String.ltb).
  - intros a b. apply ltb_not_below.
  - apply sort_desc_strongly_sorted.
    + intros a b. unfold String.ltb. rewrite (String.compare_antisym b a).
      destruct (String.compare a b); simpl; congruence.
    + intros a b c Hab Hbc. apply ltb_not_below.
      apply text_le_trans with b; now apply ltb_not_below.
Qed.

Lemma py_sorted_In (l : list string) (x : string) : In x (py_sorted l) <-> In x l.
Proof. apply sort_desc_In. Qed.

Lemma truthy_true (s : string) : Py.truthy s = true <-> s <> "".
Proof. destruct s; simpl; split; congruence. Qed.

Lemma not_empty_text (s : string) : negb (String.eqb s "") = true <-> s <> "".
Proof.
  rewrite negb_true_iff. destruct (String.eqb_spec s ""); split; congruence.
Qed.

(** X13: [filters/categories/?type=income] answers the sources of the
    caller's incomes that are not empty, and only those, in ascending order
    of text; no source of another user's income is among them unless the
    caller has an income of that source too.  An absent or blank type
    answers the empty list. *)
Theorem filter_categories_income :
  forall (distinct : list string -> list string) (u : user_id) (type_q : option string)
         (db : DB),
    keeps_values distinct ->
    (Py.lower (Py.strip (Py.opt_or type_q "")) = "income" ->
     (forall c : string,
         In c (filter_categories distinct u type_q db)
         <-> c <> "" /\ exists r, In r (incomes db) /\ inc_user r = Some u
                                  /\ inc_source r = c)
     /\ StronglySorted text_le (filter_categories distinct u type_q db))
    /\ (Py.strip (Py.opt_or type_q "") = "" ->
        filter_categories distinct u type_q db = []).
Proof.
  intros distinct u type_q db Hd. unfold keeps_values in Hd. split.
  - intros Hk. unfold filter_categories. rewrite Hk. simpl.
    split; [|apply py_sorted_sorted].
    intros c. rewrite py_sorted_In, filter_In, Hd, in_map_iff, truthy_true.
    unfold Orm.order_by_date_id. split.
    + intros [(r & <- & Hr) Hne]. split; [exact Hne|].
      apply sort_desc_In in Hr. apply filter_In in Hr. destruct Hr as [Hr _].
      apply filter_In in Hr. destruct Hr as [Hr Ho]. apply owned_by_some in Ho.
      exists r. auto.
    + intros [Hne (r & Hr & Ho & <-)]. split; [|exact Hne].
      exists r. split; [reflexivity|]. apply sort_desc_In.
      apply filter_In. split; [|now apply not_empty_text].
      apply filter_In. split; [exact Hr | now apply owned_by_some].
  - intros Hk. unfold filter_categories. now rewrite Hk.
Qed.

Lemma filter_categories_income_witness :
  keeps_values (fun l => l)
  /\ Py.lower (Py.strip (Py.opt_or (Some " Income ") "")) = "income"
  /\ filter_categories (fun l => l) 2 (Some " Income ") Sample.two_users = ["Rent"]
  /\ StronglySorted text_le (filter_categories (fun l => l) 2 (Some " Income ")
                                               Sample.two_users).
Proof.
  assert (Hd : keeps_values (fun l => l)) by (intros l x; reflexivity).
  split; [exact Hd|]. split; [reflexivity|]. split; [reflexivity|].
  destruct (filter_categories_income (fun l => l) 2 (Some " Income ") Sample.two_users Hd)
    as [H _].
  apply (H eq_refl).
Defined.

(** X14: for a type that is not blank and not [income],
    [filters/categories/] answers the categories that are not empty of the
    caller's expenses whose stored type is, letter for letter, one of the
    labels of the slug, and only those, in ascending order of text; for a
    type that is no key of [SLUG_TO_TYPES] ([all], or any other text) the
    labels are none and the answer ranges over all expenses of the caller. *)
Theorem filter_categories_expense :
  forall (distinct : list string -> list string) (u : user_id) (type_q : option string)
         (db : DB),
    keeps_values distinct ->
    let kind := Py.lower (Py.strip (Py.opt_or type_q "")) in
    kind <> "" -> kind <> "income" ->
    (forall c : string,
        In c (filter_categories distinct u type_q db)
        <-> c <> ""
            /\ exists r, In r (expenses db) /\ exp_user r = Some u
                         /\ exp_category r = c
                         /\ (Views._labels_for_slug kind = []
                             \/ In (exp_type r) (Views._labels_for_slug kind)))
    /\ StronglySorted text_le (filter_categories distinct u type_q db)
    /\ (Views.dict_get Views.SLUG_TO_TYPES kind = None -> Views._labels_for_slug kind = []).
Proof.
  intros distinct u type_q db Hd kind Hne Hni. unfold keeps_values in Hd.
  assert (Hk1 : negb (Py.truthy kind) = false).
  { apply negb_false_iff. now apply truthy_true. }
  assert (Hk2 : String.eqb kind "income" = false).
  { destruct (String.eqb_spec kind "income"); [contradiction | reflexivity]. }
  unfold filter_categories. fold kind. rewrite Hk1, Hk2.
  split; [|split; [apply py_sorted_sorted|]].
  - intros c. rewrite py_sorted_In, filter_In, Hd, in_map_iff, truthy_true.
    unfold Orm.order_by_date_id. split.
    + intros [(r & <- & Hr) Hc]. split; [exact Hc|].
      apply sort_desc_In in Hr. apply filter_In in Hr. destruct Hr as [Hr _].
      exists r. destruct (Views._labels_for_slug kind) as [|l ls] eqn:El.
      * apply filter_In in Hr. destruct Hr as [Hr Ho]. apply owned_by_some in Ho. auto.
      * apply filter_In in Hr. destruct Hr as [Hr Hl].
        apply filter_In in Hr. destruct Hr as [Hr Ho]. apply owned_by_some in Ho.
        apply mem_In in Hl. auto.
    + intros [Hc (r & Hr & Ho & <- & Hl)]. split; [|exact Hc].
      exists r. split; [reflexivity|]. apply sort_desc_In.
      apply filter_In. split; [|now apply not_empty_text].
      assert (Hown : In r (Views.own_expenses u db)).
      { apply filter_In. split; [exact Hr | now apply owned_by_some]. }
      destruct (Views._labels_for_slug kind) as [|l ls] eqn:El; [exact Hown|].
      apply filter_In. split; [exact Hown|]. apply mem_In.
      destruct Hl as [Hl|Hl]; [discriminate | exact Hl].
  - intros Hg. unfold Views._labels_for_slug. now rewrite Hg.
Qed.

Lemma filter_categories_expense_witness :
  keeps_values (fun l => l)
  /\ Py.lower (Py.strip (Py.opt_or (Some "all") "")) <> ""
  /\ Py.lower (Py.strip (Py.opt_or (Some "all") "")) <> "income"
  /\ StronglySorted text_le (filter_categories (fun l => l) 1 (Some "all") Sample.two_users)
  /\ filter_categories (fun l => l) 1 (Some "all") Sample.two_users = ["Travel"].
Proof.
  assert (Hd : keeps_values (fun l => l)) by (intros l x; reflexivity).
  assert (H1 : Py.lower (Py.strip (Py.opt_or (Some "all") "")) <> "") by discriminate.
  assert (H2 : Py.lower (Py.strip (Py.opt_or (Some "all") "")) <> "income") by discriminate.
  split; [exact Hd|]. split; [exact H1|]. split; [exact H2|].
  split; [|reflexivity].
  apply (filter_categories_expense (fun l => l) 1 (Some "all") Sample.two_users Hd H1 H2).
Defined.

(** ** Reading and printing dates *)

Example parse_date_examples :
  _parse_date (Some "2024-06-01T10:30:00Z") = Some (mkdate 2024 6 1)
  /\ _parse_date (Some "2024-6-1") = Some (mkdate 2024 6 1)
  /\ _parse_date (Some "2023-02-29") = None
  /\ _parse_date (Some "2024-02-29") = Some (mkdate 2024 2 29)
  /\ _parse_date (Some "01/06/2024") = None
  /\ _parse_date (Some "") = None
  /\ _parse_date None = None.
Proof. repeat split. Qed.

Lemma in_range_seq (lo len : nat) (n : Z) :
  Z.of_nat lo <= n < Z.of_nat lo + Z.of_nat len -> In (Z.to_nat n) (seq lo len).
Proof. intros H. apply in_seq. lia. Qed.

Lemma forall_range (P : Z -> bool) (lo len : nat) :
  forallb (fun k => P (Z.of_nat k)) (seq lo len) = true ->
  forall n, Z.of_nat lo <= n < Z.of_nat lo + Z.of_nat len -> P n = true.
Proof.
  intros H n Hn. rewrite forallb_forall in H.
  specialize (H (Z.to_nat n) (in_range_seq lo len n Hn)).
  rewrite Z2Nat.id in H by lia. exact H.
Qed.

Lemma year_text_checked :
  forallb (fun k => year_reads (Z.of_nat k)) (seq 1 (Z.to_nat 9999)) = true.
Proof. vm_compute. reflexivity. Qed.

Lemma two_digit_text_checked :
  forallb (fun k => two_wide (Z.of_nat k)) (seq 1 31) = true.
Proof. vm_compute. reflexivity. Qed.

Lemma year_text (y : Z) :
  1 <= y <= 9999 ->
  String.length (zfill 4 (Py.str y)) = 4%nat
  /\ directive_Y (zfill 4 (Py.str y)) = Some (y, EmptyString).
Proof.
  intros Hy.
  assert (H : year_reads y = true).
  { apply (forall_range year_reads 1 (Z.to_nat 9999) year_text_checked).
    rewrite Z2Nat.id by lia. change (Z.of_nat 1) with 1. lia. }
  unfold year_reads in H. apply andb_true_iff in H. destruct H as [Hl Hd].
  split; [ apply Nat.eqb_eq; exact Hl | ].
  destruct (directive_Y (zfill 4 (Py.str y))) as [[v [|c r]]|]; try discriminate.
  apply Z.eqb_eq in Hd. now subst.
Qed.

Lemma two_digit_length (n : Z) :
  1 <= n <= 31 -> String.length (zfill 2 (Py.str n)) = 2%nat.
Proof.
  intros Hn. apply Nat.eqb_eq.
  apply (forall_range two_wide 1 31 two_digit_text_checked).
  change (Z.of_nat 1) with 1. change (Z.of_nat 31) with 31. lia.
Qed.

Lemma directive_Y_more (s rest : string) (v : Z) :
  directive_Y s = Some (v, EmptyString) ->
  directive_Y (s ++ rest) = Some (v, rest).
Proof.
  destruct s as [|a [|b [|c [|d r]]]]; try discriminate.
  cbn [directive_Y append].
  destruct (Py.is_digit a && Py.is_digit b && Py.is_digit c && Py.is_digit d);
    try discriminate.
  intros H. injection H as Hv Hr. subst. reflexivity.
Qed.

Lemma month_text (m : Z) (rest : string) :
  1 <= m <= 12 ->
  directive_m (zfill 2 (Py.str m) ++ rest) = Some (m, rest).
Proof.
  intros Hm.
  assert (C : m = 1 \/ m = 2 \/ m = 3 \/ m = 4 \/ m = 5 \/ m = 6 \/ m = 7
              \/ m = 8 \/ m = 9 \/ m = 10 \/ m = 11 \/ m = 12) by lia.
  repeat (destruct C as [-> | C]; [ reflexivity | ]). subst. reflexivity.
Qed.

Lemma day_text (d : Z) :
  1 <= d <= 31 ->
  directive_d (zfill 2 (Py.str d)) = Some (d, EmptyString).
Proof.
  intros Hd.
  assert (C : d = 1 \/ d = 2 \/ d = 3 \/ d = 4 \/ d = 5 \/ d = 6 \/ d = 7
              \/ d = 8 \/ d = 9 \/ d = 10 \/ d = 11 \/ d = 12 \/ d = 13
              \/ d = 14 \/ d = 15 \/ d = 16 \/ d = 17 \/ d = 18 \/ d = 19
              \/ d = 20 \/ d = 21 \/ d = 22 \/ d = 23 \/ d = 24 \/ d = 25
              \/ d = 26 \/ d = 27 \/ d = 28 \/ d = 29 \/ d = 30 \/ d = 31) by lia.
  repeat (destruct C as [-> | C]; [ reflexivity | ]). subst. reflexivity.
Qed.

Lemma valid_date_bounds (d : date) :
  valid_date d = true ->
  1 <= year d <= 9999 /\ 1 <= month d <= 12 /\ 1 <= day d <= 31.
Proof.
  unfold valid_date, days_in_month. intros H.
  repeat (apply andb_true_iff in H; destruct H as [H ?]).
  repeat match goal with
         | H : (_ <=? _) = true |- _ => apply Z.leb_le in H
         end.
  repeat split; try lia.
  destruct (month d =? 2); [ destruct (is_leap (year d)); lia | ].
  destruct ((month d =? 4) || (month d =? 6) || (month d =? 9) || (month d =? 11));
    lia.
Qed.

Lemma length_append (a b : string) :
  String.length (a ++ b) = (String.length a + String.length b)%nat.
Proof. induction a as [|c a IH]; simpl; [ reflexivity | now rewrite IH ]. Qed.

Lemma take_all (a b : string) : take (String.length a) (a ++ b) = a.
Proof. induction a as [|c a IH]; simpl; [ now destruct b | now rewrite IH ]. Qed.

Lemma append_assoc (a b c : string) : ((a ++ b) ++ c = a ++ (b ++ c)).
Proof. induction a as [|x a IH]; simpl; [ reflexivity | now rewrite IH ]. Qed.

Lemma append_empty (a : string) : a ++ "" = a.
Proof. induction a as [|x a IH]; simpl; [ reflexivity | now rewrite IH ]. Qed.

Lemma isoformat_length (d : date) :
  valid_date d = true -> String.length (isoformat d) = 10%nat.
Proof.
  intros H. destruct (valid_date_bounds d H) as (Hy & Hm & Hd).
  unfold isoformat. rewrite !length_append.
  rewrite (proj1 (year_text _ Hy)).
  rewrite (two_digit_length (month d)) by lia.
  rewrite (two_digit_length (day d)) by lia. reflexivity.
Qed.

Lemma strptime_isoformat (d : date) :
  valid_date d = true -> strptime_ymd (isoformat d) = Some d.
Proof.
  intros H. destruct (valid_date_bounds d H) as (Hy & Hm & Hd).
  unfold strptime_ymd, isoformat.
  rewrite (directive_Y_more _ _ _ (proj2 (year_text _ Hy))).
  cbn [append literal_dash].
  rewrite (month_text _ _ Hm). cbn [append literal_dash].
  rewrite (day_text _ Hd).
  destruct d as [y m dd]. cbn [year month day] in *. now rewrite H.
Qed.

Lemma isoformat_truthy (d : date) (tail : string) :
  valid_date d = true -> Py.truthy (isoformat d ++ tail) = true.
Proof.
  intros H. pose proof (isoformat_length d H) as L.
  destruct (isoformat d); [ discriminate | reflexivity ].
Qed.

Lemma strptime_valid (s : string) (d : date) :
  strptime_ymd s = Some d -> valid_date d = true.
Proof.
  unfold strptime_ymd.
  destruct (directive_Y s) as [[y s1]|]; try discriminate.
  destruct (literal_dash s1) as [s2|]; try discriminate.
  destruct (directive_m s2) as [[m s3]|]; try discriminate.
  destruct (literal_dash s3) as [s4|]; try discriminate.
  destruct (directive_d s4) as [[dd [|c r]]|]; try discriminate.
  destruct (valid_date (mkdate y m dd)) eqn:E; try discriminate.
  intros H. injection H as <-. exact E.
Qed.

Lemma year_steps_checked :
  forallb (fun k => next_is_greater 4 (Z.of_nat k)) (seq 1 (Z.to_nat 9998)) = true.
Proof. vm_compute. reflexivity. Qed.

Lemma two_digit_steps_checked :
  forallb (fun k => next_is_greater 2 (Z.of_nat k)) (seq 1 30) = true.
Proof. vm_compute. reflexivity. Qed.

Lemma steps_increasing (w : nat) (lo hi : Z) :
  (forall n, lo <= n < hi -> next_is_greater w n = true) ->
  forall a b, lo <= a -> a < b -> b <= hi ->
  String.compare (zfill w (Py.str a)) (zfill w (Py.str b)) = Lt.
Proof.
  intros Hstep a b Ha Hab Hb.
  remember (Z.to_nat (b - a - 1)) as k eqn:Hk.
  revert b Hab Hb Hk. induction k as [|k IH]; intros b Hab Hb Hk.
  - assert (b = a + 1) by lia. subst b.
    specialize (Hstep a ltac:(lia)). unfold next_is_greater in Hstep.
    destruct (String.compare _ _); try discriminate; reflexivity.
  - apply str_compare_lt_trans with (zfill w (Py.str (b - 1))).
    + apply IH; lia.
    + specialize (Hstep (b - 1) ltac:(lia)). unfold next_is_greater in Hstep.
      replace (b - 1 + 1) with b in Hstep by lia.
      destruct (String.compare _ _); try discriminate; reflexivity.
Qed.

Lemma text_order_is_number_order (w : nat) (lo hi : Z) :
  (forall n, lo <= n < hi -> next_is_greater w n = true) ->
  forall a b, lo <= a <= hi -> lo <= b <= hi ->
  String.compare (zfill w (Py.str a)) (zfill w (Py.str b)) = (a ?= b).
Proof.
  intros Hstep a b Ha Hb. destruct (Z.compare_spec a b) as [E | L | G].
  - subst. apply str_compare_refl.
  - apply (steps_increasing w lo hi Hstep); lia.
  - rewrite String.compare_antisym.
    rewrite (steps_increasing w lo hi Hstep b a); [ reflexivity | lia.. ].
Qed.

Lemma year_order (a b : Z) :
  1 <= a <= 9999 -> 1 <= b <= 9999 ->
  String.compare (zfill 4 (Py.str a)) (zfill 4 (Py.str b)) = (a ?= b).
Proof.
  apply (text_order_is_number_order 4 1 9999). intros n Hn.
  apply (forall_range (next_is_greater 4) 1 (Z.to_nat 9998) year_steps_checked).
  rewrite Z2Nat.id by lia. change (Z.of_nat 1) with 1. lia.
Qed.

Lemma two_digit_order (a b : Z) :
  1 <= a <= 31 -> 1 <= b <= 31 ->
  String.compare (zfill 2 (Py.str a)) (zfill 2 (Py.str b)) = (a ?= b).
Proof.
  apply (text_order_is_number_order 2 1 31). intros n Hn.
  apply (forall_range (next_is_greater 2) 1 30 two_digit_steps_checked).
  change (Z.of_nat 1) with 1. change (Z.of_nat 30) with 30. lia.
Qed.

Lemma compare_append (a a' b b' : string) :
  String.length a = String.length a' ->
  String.compare (a ++ b) (a' ++ b')
  = match String.compare a a' with
    | Eq => String.compare b b'
    | c => c
    end.
Proof.
  revert a'. induction a as [|x a IH]; intros [|x' a'] L; try discriminate.
  - reflexivity.
  - cbn [append String.compare]. injection L as L.
    destruct (Ascii.compare x x'); try reflexivity. now apply IH.
Qed.

Lemma isoformat_compare (a b : date) :
  valid_date a = true -> valid_date b = true ->
  String.compare (isoformat a) (isoformat b) = date_compare a b.
Proof.
  intros Ha Hb.
  destruct (valid_date_bounds a Ha) as (Hy & Hm & Hd).
  destruct (valid_date_bounds b Hb) as (Hy' & Hm' & Hd').
  unfold isoformat, date_compare.
  rewrite compare_append
    by (rewrite (proj1 (year_text _ Hy)), (proj1 (year_text _ Hy')); reflexivity).
  rewrite (year_order _ _ Hy Hy').
  destruct (year a ?= year b); try reflexivity.
  change (String.compare ("-" ++ ?x) ("-" ++ ?y)) with (String.compare x y).
  rewrite compare_append
    by (rewrite !two_digit_length by lia; reflexivity).
  rewrite two_digit_order by lia.
  destruct (month a ?= month b); try reflexivity.
  change (String.compare ("-" ++ ?x) ("-" ++ ?y)) with (String.compare x y).
  apply two_digit_order; lia.
Qed.

Lemma parse_isoformat (d : date) (tail : string) :
  valid_date d = true -> _parse_date (Some (isoformat d ++ tail)) = Some d.
Proof.
  intros H. unfold _parse_date. rewrite (isoformat_truthy d tail H).
  rewrite <- (isoformat_length d H), take_all. now apply strptime_isoformat.
Qed.

Lemma take_idem (n : nat) (s : string) : take n (take n s) = take n s.
Proof.
  revert s. induction n as [|n IH]; intros [|c s]; simpl; try reflexivity.
  now rewrite IH.
Qed.

(** X15: a date that the serializers printed is read back by [_parse_date]
    as the same date, whatever follows its ten characters (a time, a zone):
    for every date of the calendar, reading [isoformat d ++ tail] gives
    [d]. *)
Theorem parse_date_reads_isoformat (d : date) (tail : string) :
  valid_date d = true ->
  String.length (isoformat d) = 10%nat
  /\ _parse_date (Some (isoformat d ++ tail)) = Some d.
Proof.
  intros H. split; [ now apply isoformat_length | now apply parse_isoformat ].
Qed.

Lemma parse_date_reads_isoformat_witness :
  valid_date (mkdate 2024 2 29) = true
  /\ String.length (isoformat (mkdate 2024 2 29)) = 10%nat
  /\ _parse_date (Some (isoformat (mkdate 2024 2 29) ++ "T10:30:00Z"))
     = Some (mkdate 2024 2 29).
Proof.
  split; [ reflexivity | ].
  apply (parse_date_reads_isoformat (mkdate 2024 2 29) "T10:30:00Z").
  reflexivity.
Defined.

(** X16: what [_parse_date] returns is a date of the calendar (year 1 to
    9999, month 1 to 12, a day that month has, 29 February only in leap
    years), read from a text that is not empty and from its first ten
    characters alone; printing the result and reading it again gives the
    same date. *)
Theorem parse_date_gives_calendar_dates (s : option string) (d : date) :
  _parse_date s = Some d ->
  valid_date d = true
  /\ 1 <= year d <= 9999 /\ 1 <= month d <= 12
  /\ 1 <= day d <= days_in_month (year d) (month d)
  /\ (exists t, s = Some t /\ t <> "" /\ _parse_date (Some (take 10 t)) = Some d)
  /\ _parse_date (Some (isoformat d)) = Some d.
Proof.
  intros H.
  assert (V : valid_date d = true).
  { destruct s as [t|]; [ | discriminate ]. unfold _parse_date in H.
    destruct (Py.truthy t); [ | discriminate ]. now apply strptime_valid in H. }
  split; [ exact V | ].
  assert (B := V). unfold valid_date in B.
  repeat (apply andb_true_iff in B; destruct B as [B ?]).
  repeat match goal with
         | H : (_ <=? _) = true |- _ => apply Z.leb_le in H
         end.
  repeat (split; [ lia | ]).
  split.
  - destruct s as [t|]; [ | discriminate ]. exists t.
    split; [ reflexivity | ].
    unfold _parse_date in *. destruct t as [|c t]; [ discriminate | ].
    split; [ discriminate | ].
    cbn [Py.truthy] in H. rewrite take_idem.
    change (Py.truthy (take 10 (String c t))) with true. exact H.
  - rewrite <- (append_empty (isoformat d)). now apply parse_isoformat.
Qed.

Lemma parse_date_gives_calendar_dates_witness :
  _parse_date (Some "2024-06-01T09:00") = Some (mkdate 2024 6 1)
  /\ valid_date (mkdate 2024 6 1) = true
  /\ _parse_date (Some (isoformat (mkdate 2024 6 1))) = Some (mkdate 2024 6 1).
Proof.
  pose proof (parse_date_gives_calendar_dates
                (Some "2024-06-01T09:00") (mkdate 2024 6 1) eq_refl)
    as (V & _ & _ & _ & _ & R).
  split; [ reflexivity | ]. split; [ exact V | exact R ].
Defined.

(** X17: on dates of the calendar the text order of the printed dates is
    the calendar order, so the feed, which sorts the printed dates as text,
    is newest first by the calendar, and two dates print the same text only
    when they are the same date. *)
Theorem printed_dates_order_as_dates (a b : date) :
  valid_date a = true -> valid_date b = true ->
  String.compare (isoformat a) (isoformat b) = date_compare a b
  /\ (isoformat a = isoformat b -> a = b)
  /\ (forall x y : FeedRow,
        f_date x = isoformat a -> f_date y = isoformat b ->
        feed_before x y -> not_older a b).
Proof.
  intros Ha Hb. pose proof (isoformat_compare a b Ha Hb) as C.
  split; [ exact C | ]. split.
  - intros E. rewrite E, str_compare_refl in C. symmetry in C.
    unfold date_compare in C. destruct a as [y m d], b as [y' m' d'].
    cbn [year month day] in C.
    destruct (y ?= y') eqn:Ey; try discriminate.
    destruct (m ?= m') eqn:Em; try discriminate.
    apply Z.compare_eq in Ey, Em, C. now subst.
  - intros x y Hx Hy F. unfold feed_before in F. rewrite Hx, Hy, C in F.
    unfold not_older, date_leb.
    assert (A : date_compare b a = CompOpp (date_compare a b)).
    { rewrite <- (isoformat_compare b a Hb Ha), <- C.
      apply String.compare_antisym. }
    rewrite A. destruct (date_compare a b); simpl; try reflexivity.
    contradiction.
Qed.

Lemma printed_dates_order_as_dates_witness :
  String.compare (isoformat (mkdate 2024 10 2)) (isoformat (mkdate 2024 9 30))
  = date_compare (mkdate 2024 10 2) (mkdate 2024 9 30)
  /\ not_older (mkdate 2024 10 2) (mkdate 2024 9 30).
Proof.
  pose proof (printed_dates_order_as_dates (mkdate 2024 10 2) (mkdate 2024 9 30)
                eq_refl eq_refl) as (C & _ & F).
  split; [ exact C | ].
  apply (F (mkFeedRow 2 "Income" "" (isoformat (mkdate 2024 10 2)) "1.00" "")
           (mkFeedRow 1 "Income" "" (isoformat (mkdate 2024 9 30)) "1.00" ""));
    [ reflexivity | reflexivity | ].
  vm_compute. exact I.
Defined.
